(** * VoiceNest call gateway: a shallow embedding of the Vapi integration

    The development follows the JavaScript sources:

    - [server/vapi_integration.js] (class [VapiService]), of which the
      repository holds three revisions; each one is embedded in a module
      of its own ([Server], [Part1], [Part2]);
    - [server/app.js] (the Express routes), embedded in modules [App] and
      [Rest] (the handlers) and [Router] (the order in which they are
      registered).

    JavaScript values are an inductive type, strings are lists of UTF-16
    code units, a promise that resolves or rejects is a [result], and the
    requests that a gateway operation hands to [https.request] and that
    leave the process are collected in a trace. *)

From Stdlib Require Import List Bool NArith Arith Lia String Ascii.
From Stdlib Require Import DecimalString.
Import ListNotations.

Set Implicit Arguments.
Set Warnings "-register-all".

(* ================================================================== *)
(** ** JavaScript strings and values *)

Module JS.

(** A JavaScript string is a sequence of UTF-16 code units. *)
Definition jsstring := list N.

(** The code units of an ASCII literal. *)
Definition js (s : string) : jsstring :=
  map N_of_ascii (list_ascii_of_string s).

Arguments js : simpl never.

Fixpoint jsstring_eqb (a b : jsstring) : bool :=
  match a, b with
  | [], [] => true
  | x :: a', y :: b' => N.eqb x y && jsstring_eqb a' b'
  | _, _ => false
  end.

(** Decimal rendering of a non-negative integer, as a template literal
    renders an integral Number such as [res.statusCode]. *)
Definition N_toString (n : N) : jsstring :=
  js (NilZero.string_of_uint (N.to_uint n)).

Arguments N_toString : simpl never.

(** JSON-shaped JavaScript values.  A Number is carried by its canonical
    string form (what [String(n)] returns), which fixes the number up to
    the sign of zero and is all this program observes of a number: its
    truthiness and its interpolation in a template literal.  An object is
    the list of its own properties. *)
Inductive Value : Type :=
| VUndefined
| VNull
| VBool (b : bool)
| VNum (repr : jsstring)
| VStr (s : jsstring)
| VArr (items : list Value)
| VObj (props : list (jsstring * Value)).

(** ToBoolean. *)
Definition truthy (v : Value) : bool :=
  match v with
  | VUndefined | VNull => false
  | VBool b => b
  | VNum r => negb (jsstring_eqb r (js "0")) && negb (jsstring_eqb r (js "NaN"))
  | VStr s => match s with [] => false | _ => true end
  | VArr _ | VObj _ => true
  end.

(** [a || b]. *)
Definition or_else (a b : Value) : Value := if truthy a then a else b.

Fixpoint lookup (k : jsstring) (props : list (jsstring * Value)) : option Value :=
  match props with
  | [] => None
  | (k', v) :: rest => if jsstring_eqb k k' then Some v else lookup k rest
  end.

(** [v.k] for a value that is neither [null] nor [undefined].  The
    program reads only the names id, transport, websocketCallUrl,
    provider, publicKey, transcript, message, name, type, data, callId
    and status, none of which a string, an array, a number or a boolean
    has as a built-in property. *)
Definition get_prop (v : Value) (k : jsstring) : Value :=
  match v with
  | VObj props => match lookup k props with Some x => x | None => VUndefined end
  | _ => VUndefined
  end.

Definition nullish (v : Value) : bool :=
  match v with VUndefined | VNull => true | _ => false end.

(** [obj\[k\] = v] on a property list: an existing property keeps its
    place, a new one goes last. *)
Fixpoint set_prop (props : list (jsstring * Value)) (k : jsstring) (v : Value)
  : list (jsstring * Value) :=
  match props with
  | [] => [(k, v)]
  | (k', v') :: rest =>
      if jsstring_eqb k k' then (k', v) :: rest else (k', v') :: set_prop rest k v
  end.

Fixpoint indexed (i : N) (items : list Value) : list (jsstring * Value) :=
  match items with
  | [] => []
  | x :: rest => (N_toString i, x) :: indexed (N.succ i) rest
  end.

(** The own enumerable properties that [{...v}] copies. *)
Definition spread (v : Value) : list (jsstring * Value) :=
  match v with
  | VObj props => props
  | VArr items => indexed 0 items
  | VStr s => indexed 0 (map (fun c => VStr [c]) s)
  | _ => []
  end.

(** ToString, as applied by a template literal or by [parseInt], on a
    value built by [JSON.parse] or by the query parser; [None] when the
    conversion throws a TypeError.  An object is converted by
    [Object.prototype.toString], unless it has an own property [toString]:
    that property is data, not a function, and [valueOf], own or
    inherited, does not give a primitive either, so that the conversion
    throws.  An array is converted by [join], which converts its elements
    and takes [null] and [undefined] as empty. *)
Fixpoint ToString (v : Value) : option jsstring :=
  match v with
  | VUndefined => Some (js "undefined")
  | VNull => Some (js "null")
  | VBool true => Some (js "true")
  | VBool false => Some (js "false")
  | VNum r => Some r
  | VStr s => Some s
  | VArr items =>
      (fix join (l : list Value) : option jsstring :=
         match l with
         | [] => Some []
         | x :: rest =>
             match (match x with VUndefined | VNull => Some [] | _ => ToString x end) with
             | None => None
             | Some first =>
                 match rest with
                 | [] => Some first
                 | _ =>
                     match join rest with
                     | Some others => Some (first ++ js "," ++ others)
                     | None => None
                     end
                 end
             end
         end) items
  | VObj props =>
      match lookup (js "toString") props with
      | Some _ => None
      | None => Some (js "[object Object]")
      end
  end.

(** A value read from the environment or from a field that may be unset. *)
Definition of_option (o : option jsstring) : Value :=
  match o with Some s => VStr s | None => VUndefined end.

(** What the program takes from the JavaScript runtime and does not
    define itself. *)
Class Runtime : Type := {
  (** [JSON.parse]: the value, or the message of the SyntaxError. *)
  JSON_parse : jsstring -> Value + jsstring;
  (** [JSON.parse("")] throws. *)
  JSON_parse_empty : exists m, JSON_parse [] = inr m;
  (** The global [parseInt] on a string; it returns a Number. *)
  parseInt : jsstring -> jsstring;
  (** Message of the TypeError thrown when property [k] of [null] or
      [undefined] is read. *)
  TypeError_read : Value -> jsstring -> jsstring;
  (** Message of the TypeError thrown when [null] or [undefined] is
      destructured by a pattern whose first property is [k]. *)
  TypeError_destructure : Value -> jsstring -> jsstring;
  (** Message of the TypeError thrown when [v.k(...)] is called and [v.k]
      is not a function. *)
  TypeError_not_a_function : Value -> jsstring -> jsstring;
  (** Message of the TypeError thrown when a value without a primitive
      form is converted to a string. *)
  TypeError_to_primitive : Value -> jsstring
}.

(** [v.k], which throws on [null] and [undefined]. *)
Definition read_prop `{Runtime} (v : Value) (k : jsstring) : Value + jsstring :=
  if nullish v then inr (TypeError_read v k) else inl (get_prop v k).

(** [`${v}`]: the text, or the message of the TypeError. *)
Definition interpolate `{Runtime} (v : Value) : jsstring + jsstring :=
  match ToString v with
  | Some text => inl text
  | None => inr (TypeError_to_primitive v)
  end.


(** The value of a hexadecimal digit. *)
Definition hex_digit (c : N) : option N :=
  if (N.leb 48 c && N.leb c 57)%N then Some (c - 48)%N
  else if (N.leb 65 c && N.leb c 70)%N then Some (c - 55)%N
  else if (N.leb 97 c && N.leb c 102)%N then Some (c - 87)%N
  else None.

(** The octet that the escape [%hl] stands for. *)
Definition escaped_octet (p h l : N) : option N :=
  if N.eqb p 37 then
    match hex_digit h, hex_digit l with
    | Some a, Some b => Some (16 * a + b)%N
    | _, _ => None
    end
  else None.

(** The six bits that an escaped continuation octet [10xxxxxx] carries. *)
Definition continuation (p h l : N) : option N :=
  match escaped_octet p h l with
  | Some b => if (N.leb 128 b && N.leb b 191)%N then Some (b - 128)%N else None
  | None => None
  end.

(** The UTF-16 code units of a code point that octets encode in UTF-8:
    the code point is not below [least], the first one that takes as many
    octets, it is not a surrogate and it is not above 10FFFF. *)
Definition code_units_of (least v : N) : option jsstring :=
  if (N.leb least v && N.leb v 1114111 && negb (N.leb 55296 v && N.leb v 57343))%N
  then Some (if N.leb v 65535 then [v]
             else [ ((v - 65536) / 1024 + 55296)%N; ((v - 65536) mod 1024 + 56320)%N ])
  else None.

Definition followed_by (first rest : option jsstring) : option jsstring :=
  match first, rest with
  | Some a, Some b => Some (a ++ b)
  | _, _ => None
  end.

(** [decodeURIComponent]: the decoded text, or [None] when it throws a
    URIError.  A code unit other than [%] stands for itself; an escape
    below 80 for that character; an escape that opens a sequence of two,
    three or four octets is followed by as many escaped continuation
    octets as the sequence needs, and the sequence is the UTF-8 encoding of
    a code point. *)
Fixpoint decodeURIComponent (s : jsstring) : option jsstring :=
  match s with
  | [] => Some []
  | c :: rest =>
      if negb (N.eqb c 37) then followed_by (Some [c]) (decodeURIComponent rest)
      else
        match rest with
        | h :: l :: rest1 =>
            match escaped_octet c h l with
            | None => None
            | Some b =>
                if (b <? 128)%N then followed_by (Some [b]) (decodeURIComponent rest1)
                else if (b <? 192)%N then None
                else if (b <? 224)%N then
                  match rest1 with
                  | p2 :: h2 :: l2 :: rest2 =>
                      match continuation p2 h2 l2 with
                      | Some x2 =>
                          followed_by
                            (code_units_of 128 ((b - 192) * 64 + x2))
                            (decodeURIComponent rest2)
                      | None => None
                      end
                  | _ => None
                  end
                else if (b <? 240)%N then
                  match rest1 with
                  | p2 :: h2 :: l2 :: p3 :: h3 :: l3 :: rest3 =>
                      match continuation p2 h2 l2, continuation p3 h3 l3 with
                      | Some x2, Some x3 =>
                          followed_by
                            (code_units_of 2048
                               (((b - 224) * 64 + x2) * 64 + x3))
                            (decodeURIComponent rest3)
                      | _, _ => None
                      end
                  | _ => None
                  end
                else if (b <? 248)%N then
                  match rest1 with
                  | p2 :: h2 :: l2 :: p3 :: h3 :: l3 :: p4 :: h4 :: l4 :: rest4 =>
                      match continuation p2 h2 l2, continuation p3 h3 l3,
                            continuation p4 h4 l4 with
                      | Some x2, Some x3, Some x4 =>
                          followed_by
                            (code_units_of 65536
                               ((((b - 240) * 64 + x2) * 64 + x3) * 64 + x4))
                            (decodeURIComponent rest4)
                      | _, _, _ => None
                      end
                  | _ => None
                  end
                else None
            end
        | _ => None
        end
  end.

End JS.
Import JS.

(* ================================================================== *)
(** ** Regular expressions *)

(** The regular-expression literals of the program use character
    classes, sequencing, [?] and bounded repetition only; [test] on such a
    pattern, anchored by [^] and [$] and without flags, decides whether the
    whole string is in the language.  Matching is by derivatives. *)
Module Regex.

Inductive regex : Type :=
| Void
| Eps
| Class (p : N -> bool)
| Seq (r1 r2 : regex)
| Alt (r1 r2 : regex)
| Star (r : regex).

Fixpoint nullable (r : regex) : bool :=
  match r with
  | Void => false
  | Eps => true
  | Class _ => false
  | Seq r1 r2 => nullable r1 && nullable r2
  | Alt r1 r2 => nullable r1 || nullable r2
  | Star _ => true
  end.

Fixpoint deriv (c : N) (r : regex) : regex :=
  match r with
  | Void => Void
  | Eps => Void
  | Class p => if p c then Eps else Void
  | Seq r1 r2 =>
      if nullable r1 then Alt (Seq (deriv c r1) r2) (deriv c r2)
      else Seq (deriv c r1) r2
  | Alt r1 r2 => Alt (deriv c r1) (deriv c r2)
  | Star r1 => Seq (deriv c r1) (Star r1)
  end.

(** [/^r$/.test(s)] *)
Fixpoint test (r : regex) (s : jsstring) : bool :=
  match s with
  | [] => nullable r
  | c :: s' => test (deriv c r) s'
  end.

(** [r?] *)
Definition Opt (r : regex) : regex := Alt Eps r.

(** [r{n}] *)
Fixpoint times (n : nat) (r : regex) : regex :=
  match n with
  | O => Eps
  | S n' => Seq r (times n' r)
  end.

(** [r{0,n}] *)
Fixpoint upto (n : nat) (r : regex) : regex :=
  match n with
  | O => Eps
  | S n' => Opt (Seq r (upto n' r))
  end.

(** [r{lo,hi}] *)
Definition Repeat (lo hi : nat) (r : regex) : regex :=
  Seq (times lo r) (upto (hi - lo) r).

(** The language of a pattern. *)
Inductive Matches : regex -> jsstring -> Prop :=
| MEps : Matches Eps []
| MClass p c : p c = true -> Matches (Class p) [c]
| MSeq r1 r2 s1 s2 : Matches r1 s1 -> Matches r2 s2 -> Matches (Seq r1 r2) (s1 ++ s2)
| MAltL r1 r2 s : Matches r1 s -> Matches (Alt r1 r2) s
| MAltR r1 r2 s : Matches r2 s -> Matches (Alt r1 r2) s
| MStarNil r : Matches (Star r) []
| MStarCons r s1 s2 : Matches r s1 -> Matches (Star r) s2 -> Matches (Star r) (s1 ++ s2).

(** [\s]: WhiteSpace and LineTerminator code units. *)
Definition is_space (c : N) : bool :=
  (N.eqb c 9 || N.eqb c 10 || N.eqb c 11 || N.eqb c 12 || N.eqb c 13
   || N.eqb c 32 || N.eqb c 160 || N.eqb c 5760
   || (N.leb 8192 c && N.leb c 8202)
   || N.eqb c 8232 || N.eqb c 8233 || N.eqb c 8239 || N.eqb c 8287
   || N.eqb c 12288 || N.eqb c 65279)%N.

(** [\d] *)
Definition is_digit (c : N) : bool := (N.leb 48 c && N.leb c 57)%N.

(** [\[a-b\]] *)
Definition in_range (a b : N) (c : N) : bool := (N.leb a c && N.leb c b)%N.

(** A literal character. *)
Definition is_char (a : N) (c : N) : bool := N.eqb c a.

(** [s.replace(/\[class\]/g, '')] *)
Definition remove_all (class : N -> bool) (s : jsstring) : jsstring :=
  filter (fun c => negb (class c)) s.

(** [s.startsWith(c)] for a one-character [c]. *)
Definition startsWith_char (a : N) (s : jsstring) : bool :=
  match s with
  | c :: _ => N.eqb c a
  | [] => false
  end.

End Regex.

(* ================================================================== *)
(** ** Requests, promises and the upstream *)

Module Net.

(** The [options] object handed to [https.request]. *)
Record Options : Type := {
  hostname : jsstring;
  path : jsstring;
  method : jsstring;
  headers : list (jsstring * jsstring)
}.

(** One request as it is handed to [https.request]: its options and the
    value that is serialised into its body with
    [req.write(JSON.stringify(data))], if any. *)
Record Request : Type := {
  options : Options;
  written : option Value
}.

(** What becomes of a request handed to [https.request]: the client
    refuses it and throws at once (a path or a header value with a
    character it does not accept), so that nothing is written; or the
    request leaves, and then the connection fails with an error message, or
    a response arrives with a status code and a body. *)
Inductive NetOutcome : Type :=
| NetError (message : jsstring)
| NetResponse (statusCode : N) (body : jsstring)
| ClientError (message : jsstring).

Definition Upstream := Request -> NetOutcome.

(** What leaves the process when [rq] is handed to [https.request]. *)
Definition leaving (up : Upstream) (rq : Request) : list Request :=
  match up rq with
  | ClientError _ => []
  | _ => [rq]
  end.

(** A returned value or a thrown [Error], identified by its message. *)
Inductive result (A : Type) : Type :=
| Ok (a : A)
| Throw (message : jsstring).
Arguments Throw {A} message.

(** An asynchronous computation: run against an upstream it yields the
    requests that left the process, in order, and how it settled. *)
Definition Async (A : Type) : Type := Upstream -> list Request * result A.

Definition ret {A} (a : A) : Async A := fun _ => ([], Ok a).

Definition throw {A} (message : jsstring) : Async A := fun _ => ([], Throw message).

Definition bind {A B} (m : Async A) (k : A -> Async B) : Async B :=
  fun up =>
    match m up with
    | (t1, Ok a) => let (t2, r) := k a up in (t1 ++ t2, r)
    | (t1, Throw e) => (t1, Throw e)
    end.

(** [try { m } catch (error) { h(error.message) }] *)
Definition try_catch {A} (m : Async A) (h : jsstring -> Async A) : Async A :=
  fun up =>
    match m up with
    | (t1, Ok a) => (t1, Ok a)
    | (t1, Throw e) => let (t2, r) := h e up in (t1 ++ t2, r)
    end.

(** One call of [https.request]. *)
Definition send (rq : Request) : Async NetOutcome :=
  fun up => (leaving up rq, Ok (up rq)).

(** A synchronous step that returns or throws. *)
Definition lift {A} (r : A + jsstring) : Async A :=
  match r with
  | inl a => ret a
  | inr e => throw e
  end.

Definition settle {A} (r : result A) : Async A := fun _ => ([], r).

(** [if (c) throw new Error(message)] *)
Definition throw_if (c : bool) (message : jsstring) : Async unit :=
  if c then throw message else ret tt.

Definition header (name : jsstring) (rq : Request) : option jsstring :=
  match find (fun h => jsstring_eqb (fst h) name) (headers (options rq)) with
  | Some h => Some (snd h)
  | None => None
  end.

End Net.
Import Net.

Declare Scope async_scope.
Delimit Scope async_scope with async.
Notation "x <- m ;; k" := (bind m (fun x => k))
  (at level 61, m at next level, right associativity) : async_scope.
Notation "m ;; k" := (bind m (fun _ => k))
  (at level 61, right associativity) : async_scope.
Open Scope async_scope.

(* ================================================================== *)
(** ** What the three revisions of [VapiService] share *)

Module Service.

(** [process.env], as far as the constructor reads it. *)
Record Env : Type := {
  VAPI_PRIVATE_KEY : option jsstring;
  VAPI_PUBLIC_KEY : option jsstring;
  VAPI_ASSISTANT_ID : option jsstring
}.

(** The fields of a [VapiService] instance that are read from the
    environment or change.  [baseUrl], which every constructor sets to a
    literal and nothing writes again, is a constant of each revision. *)
Record VapiService : Type := {
  privateKey : option jsstring;
  publicKey : option jsstring;
  apiKey : option jsstring;
  assistantId : option jsstring;
  initialized : bool
}.

Definition set_initialized (b : bool) (s : VapiService) : VapiService :=
  {| privateKey := privateKey s; publicKey := publicKey s; apiKey := apiKey s;
     assistantId := assistantId s; initialized := b |}.

(** [!this.field] *)
Definition unset (o : option jsstring) : bool := negb (truthy (of_option o)).

(** [this.field === 'literal'] *)
Definition is_literal (o : option jsstring) (lit : jsstring) : bool :=
  match o with
  | Some s => jsstring_eqb s lit
  | None => false
  end.

(** A parameter default: [param = d]. *)
Definition default_to (v d : Value) : Value :=
  match v with
  | VUndefined => d
  | _ => v
  end.

(** [`${this.field}`] for a field read from the environment, which holds
    a string or [undefined]. *)
Definition field_text (field : option jsstring) : jsstring :=
  match field with
  | Some text => text
  | None => js "undefined"
  end.

(** The headers every operation but the last revision's web call sends:
    [{ 'Authorization': `Bearer ${key}`, 'Content-Type': 'application/json' }]. *)
Definition bearer_headers (key : option jsstring) : list (jsstring * jsstring) :=
  [ (js "Authorization", js "Bearer " ++ field_text key);
    (js "Content-Type", js "application/json") ].

(** [/\[\s\-\(\)\]/], the characters [makeCall] removes. *)
Definition separator (c : N) : bool :=
  Regex.is_space c || Regex.is_char 45 c || Regex.is_char 40 c || Regex.is_char 41 c.

(** [/^\+?\[1-9\]\d{8,14}$/] *)
Definition phoneRegex : Regex.regex :=
  Regex.Seq (Regex.Opt (Regex.Class (Regex.is_char 43)))
    (Regex.Seq (Regex.Class (Regex.in_range 49 57))
       (Regex.Repeat 8 14 (Regex.Class Regex.is_digit))).

(** The international format in words: an optional leading [+], then a
    digit from 1 to 9, then 8 to 14 further digits, and nothing else. *)
Definition international_format (s : jsstring) : bool :=
  let digits := if Regex.startsWith_char 43 s then tl s else s in
  match digits with
  | [] => false
  | d :: rest =>
      Regex.in_range 49 57 d && forallb Regex.is_digit rest
      && (8 <=? List.length rest) && (List.length rest <=? 14)
  end.

(** [phoneNumber.replace(/\[\s\-\(\)\]/g, '')] *)
Definition cleanPhone (phoneNumber : jsstring) : jsstring :=
  Regex.remove_all separator phoneNumber.

(** [cleanPhone.startsWith('+') ? cleanPhone : `+${cleanPhone}`] *)
Definition customer_number (clean : jsstring) : jsstring :=
  if Regex.startsWith_char 43 clean then clean else js "+" ++ clean.

(** The default transport of a web call. *)
Definition websocket_transport : Value :=
  VObj [ (js "provider", VStr (js "vapi.websocket"));
         (js "audioFormat",
          VObj [ (js "format", VStr (js "pcm_s16le"));
                 (js "container", VStr (js "raw"));
                 (js "sampleRate", VNum (js "16000")) ]) ].

(** Error messages. *)
Definition msg_not_initialized : jsstring :=
  js "VapiService not initialized. Please check configuration.".
Definition msg_no_assistant : jsstring := js "Assistant ID not configured".
Definition msg_no_api_key : jsstring := js "Vapi API key not configured".
Definition msg_no_private_key : jsstring := js "Vapi private key not configured".
Definition msg_phone_required : jsstring := js "Phone number is required".
Definition msg_phone_format : jsstring :=
  js "Invalid phone number format. Use international format (+1234567890)".
Definition msg_call_id_required : jsstring := js "Call ID is required".
Definition msg_invalid_response : jsstring :=
  js "Invalid response from Vapi API - missing required fields".

(** [res.statusCode >= 200 && res.statusCode < 300] *)
Definition is_2xx (statusCode : N) : bool :=
  (N.leb 200 statusCode && N.ltb statusCode 300)%N.

End Service.
Import Service.

(* ================================================================== *)
(** ** [server/vapi_integration.js] *)

Module Server.
Section WithRuntime.
Context {rt : Runtime}.

Definition validateConfig (s : VapiService) : bool :=
  if unset (privateKey s) then false
  else if unset (publicKey s) then false
  else if unset (assistantId s) then false
  else true.

(** [initialize]: the error of an incomplete configuration is caught and
    emitted as an event; the flag stays false. *)
Definition initialize (s : VapiService) : VapiService :=
  if validateConfig s then set_initialized true s else s.

(** [this.baseUrl] *)
Definition baseUrl : jsstring := js "api.vapi.ai".

(** [new VapiService()] *)
Definition new (env : Env) : VapiService :=
  initialize
    {| privateKey := VAPI_PRIVATE_KEY env;
       publicKey := VAPI_PUBLIC_KEY env;
       apiKey := VAPI_PRIVATE_KEY env;
       assistantId := VAPI_ASSISTANT_ID env;
       initialized := false |}.

(** The [end] handler of [makeRequest]: how a complete response settles
    the promise. *)
Definition on_end (statusCode : N) (body : jsstring) : result Value :=
  match JSON_parse body with
  | inr e => Throw (js "Parse Error: " ++ e)
  | inl response =>
      if is_2xx statusCode then Ok response
      else
        match read_prop response (js "message") with
        | inr e => Throw (js "Parse Error: " ++ e)
        | inl m =>
            match interpolate (or_else m (VStr body)) with
            | inr e => Throw (js "Parse Error: " ++ e)
            | inl text =>
                Throw (js "API Error: " ++ N_toString statusCode ++ js " - " ++ text)
            end
        end
  end.

(** How the promise of [makeRequest] settles on what the upstream did. *)
Definition settle_request (o : NetOutcome) : result Value :=
  match o with
  | NetError e => Throw (js "Request Error: " ++ e)
  | NetResponse statusCode body => on_end statusCode body
  | ClientError e => Throw e
  end.

Definition makeRequest (opts : Options) (data : Value) : Async Value :=
  o <- send {| options := opts;
               written := if truthy data then Some data else None |} ;;
  settle (settle_request o).

Definition getAssistant (s : VapiService) : Async Value :=
  throw_if (unset (assistantId s)) msg_no_assistant ;;
  makeRequest
    {| hostname := baseUrl;
       path := js "/assistant/" ++ field_text (assistantId s);
       method := js "GET";
       headers := bearer_headers (apiKey s) |}
    VNull.

Definition healthCheck (s : VapiService) : Async Value :=
  try_catch
    (if negb (initialized s) then
       ret (VObj [ (js "status", VStr (js "initializing")) ])
     else
       assistantData <- getAssistant s ;;
       ret (VObj [ (js "status", VStr (js "healthy"));
                   (js "apiKeyPresent", VBool (negb (unset (apiKey s))));
                   (js "assistantId", of_option (assistantId s));
                   (js "assistantName",
                    or_else (get_prop assistantData (js "name"))
                      (VStr (js "Unknown"))) ]))
    (fun message =>
       ret (VObj [ (js "status", VStr (js "error"));
                   (js "message", VStr message) ])).

Definition makeCall (s : VapiService) (phoneNumber customAssistantId : Value)
  : Async Value :=
  let customAssistantId := default_to customAssistantId VNull in
  throw_if (unset (apiKey s)) msg_no_api_key ;;
  throw_if (negb (truthy phoneNumber)) msg_phone_required ;;
  match phoneNumber with
  | VStr p =>
      let clean := cleanPhone p in
      throw_if (negb (Regex.test phoneRegex clean)) msg_phone_format ;;
      result <- makeRequest
        {| hostname := baseUrl;
           path := js "/call/phone";
           method := js "POST";
           headers := bearer_headers (apiKey s) |}
        (VObj [ (js "assistantId",
                 or_else customAssistantId (of_option (assistantId s)));
                (js "phoneNumberId", VNull);
                (js "customer",
                 VObj [ (js "number", VStr (customer_number clean)) ]) ]) ;;
      lift (read_prop result (js "id")) ;;
      ret result
  | _ => throw (TypeError_not_a_function phoneNumber (js "replace"))
  end.

Definition createWebCall (s : VapiService) (customAssistantId : Value)
  : Async Value :=
  let customAssistantId := default_to customAssistantId VNull in
  throw_if (unset (privateKey s)) msg_no_private_key ;;
  result <- makeRequest
    {| hostname := baseUrl;
       path := js "/call/web";
       method := js "POST";
       headers := bearer_headers (publicKey s) |}
    (VObj [ (js "assistantId",
             or_else customAssistantId (of_option (assistantId s))) ]) ;;
  lift (read_prop result (js "id")) ;;
  ret (VObj (set_prop (spread result) (js "publicKey") (of_option (publicKey s)))).

Definition getCalls (s : VapiService) (limit : Value) : Async Value :=
  let limit := default_to limit (VNum (js "100")) in
  throw_if (unset (apiKey s)) msg_no_api_key ;;
  limit_text <- lift (interpolate limit) ;;
  makeRequest
    {| hostname := baseUrl;
       path := js "/call?limit=" ++ limit_text;
       method := js "GET";
       headers := bearer_headers (apiKey s) |}
    VNull.

Definition getCall (s : VapiService) (callId : Value) : Async Value :=
  throw_if (unset (privateKey s)) msg_no_private_key ;;
  throw_if (negb (truthy callId)) msg_call_id_required ;;
  callId_text <- lift (interpolate callId) ;;
  makeRequest
    {| hostname := baseUrl;
       path := js "/call/" ++ callId_text;
       method := js "GET";
       headers := bearer_headers (privateKey s) |}
    VNull.

Definition endCall (s : VapiService) (callId : Value) : Async Value :=
  throw_if (unset (apiKey s)) msg_no_api_key ;;
  throw_if (negb (truthy callId)) msg_call_id_required ;;
  callId_text <- lift (interpolate callId) ;;
  makeRequest
    {| hostname := baseUrl;
       path := js "/call/" ++ callId_text;
       method := js "DELETE";
       headers := bearer_headers (apiKey s) |}
    VNull.

Definition getCallTranscript (s : VapiService) (callId : Value) : Async Value :=
  call <- getCall s callId ;;
  transcript <- lift (read_prop call (js "transcript")) ;;
  ret (or_else transcript VNull).

Definition updateAssistant (s : VapiService) (updates : Value) : Async Value :=
  throw_if (unset (assistantId s)) msg_no_assistant ;;
  makeRequest
    {| hostname := baseUrl;
       path := js "/assistant/" ++ field_text (assistantId s);
       method := js "PATCH";
       headers := bearer_headers (apiKey s) |}
    updates.

Definition destroy (s : VapiService) : VapiService := set_initialized false s.

End WithRuntime.
End Server.

(* ================================================================== *)
(** ** The revision with placeholder checks and initialisation guards
    ([src/unnamed/part_001]) *)

Module Part1.
Section WithRuntime.
Context {rt : Runtime}.

Definition validateConfig (s : VapiService) : bool :=
  if unset (privateKey s) || is_literal (privateKey s) (js "your_private_key_here")
  then false
  else if unset (publicKey s) || is_literal (publicKey s) (js "your_public_key_here")
  then false
  else if unset (assistantId s)
          || is_literal (assistantId s) (js "your_assistant_id_here")
  then false
  else true.

Definition initialize (s : VapiService) : VapiService := set_initialized true s.

(** [this.baseUrl] *)
Definition baseUrl : jsstring := js "api.vapi.ai".

(** [new VapiService()] *)
Definition new (env : Env) : VapiService :=
  let s := {| privateKey := VAPI_PRIVATE_KEY env;
              publicKey := VAPI_PUBLIC_KEY env;
              apiKey := VAPI_PRIVATE_KEY env;
              assistantId := VAPI_ASSISTANT_ID env;
              initialized := false |} in
  if validateConfig s then initialize s else s.

(** The [end] handler of [makeRequest]. *)
Definition on_end (statusCode : N) (body : jsstring) : result Value :=
  match JSON_parse body with
  | inr e => Throw (js "Parse Error: " ++ e)
  | inl response =>
      if is_2xx statusCode then Ok response
      else
        match read_prop response (js "message") with
        | inr e => Throw (js "Parse Error: " ++ e)
        | inl m =>
            match interpolate (or_else m (VStr body)) with
            | inr e => Throw (js "Parse Error: " ++ e)
            | inl text =>
                Throw (js "API Error: " ++ N_toString statusCode ++ js " - " ++ text)
            end
        end
  end.

Definition settle_request (o : NetOutcome) : result Value :=
  match o with
  | NetError e => Throw (js "Request Error: " ++ e)
  | NetResponse statusCode body => on_end statusCode body
  | ClientError e => Throw e
  end.

Definition makeRequest (opts : Options) (data : Value) : Async Value :=
  o <- send {| options := opts;
               written := if truthy data then Some data else None |} ;;
  settle (settle_request o).

Definition getAssistant (s : VapiService) : Async Value :=
  throw_if (negb (initialized s)) msg_not_initialized ;;
  throw_if (unset (assistantId s)) msg_no_assistant ;;
  makeRequest
    {| hostname := baseUrl;
       path := js "/assistant/" ++ field_text (assistantId s);
       method := js "GET";
       headers := bearer_headers (apiKey s) |}
    VNull.

Definition healthCheck (s : VapiService) : Async Value :=
  try_catch
    (if negb (initialized s) then
       ret (VObj [ (js "status", VStr (js "not_configured"));
                   (js "message",
                    VStr (js "Vapi service not initialized. Please check environment variables.")) ])
     else
       assistantData <- getAssistant s ;;
       ret (VObj [ (js "status", VStr (js "healthy"));
                   (js "apiKeyPresent", VBool (negb (unset (apiKey s))));
                   (js "assistantId", of_option (assistantId s));
                   (js "assistantName",
                    or_else (get_prop assistantData (js "name"))
                      (VStr (js "Unknown"))) ]))
    (fun message =>
       ret (VObj [ (js "status", VStr (js "error"));
                   (js "message", VStr message) ])).

Definition makeCall (s : VapiService) (phoneNumber customAssistantId : Value)
  : Async Value :=
  let customAssistantId := default_to customAssistantId VNull in
  throw_if (negb (initialized s)) msg_not_initialized ;;
  throw_if (unset (apiKey s)) msg_no_api_key ;;
  throw_if (negb (truthy phoneNumber)) msg_phone_required ;;
  match phoneNumber with
  | VStr p =>
      let clean := cleanPhone p in
      throw_if (negb (Regex.test phoneRegex clean)) msg_phone_format ;;
      result <- makeRequest
        {| hostname := baseUrl;
           path := js "/call/phone";
           method := js "POST";
           headers := bearer_headers (apiKey s) |}
        (VObj [ (js "assistantId",
                 or_else customAssistantId (of_option (assistantId s)));
                (js "phoneNumberId", VNull);
                (js "customer",
                 VObj [ (js "number", VStr (customer_number clean)) ]) ]) ;;
      lift (read_prop result (js "id")) ;;
      ret result
  | _ => throw (TypeError_not_a_function phoneNumber (js "replace"))
  end.

Definition createWebCall (s : VapiService) (customAssistantId : Value)
  : Async Value :=
  let customAssistantId := default_to customAssistantId VNull in
  throw_if (negb (initialized s)) msg_not_initialized ;;
  throw_if (unset (privateKey s)) msg_no_private_key ;;
  result <- makeRequest
    {| hostname := baseUrl;
       path := js "/call/web";
       method := js "POST";
       headers := bearer_headers (publicKey s) |}
    (VObj [ (js "assistantId",
             or_else customAssistantId (of_option (assistantId s))) ]) ;;
  lift (read_prop result (js "id")) ;;
  ret (VObj (set_prop (spread result) (js "publicKey") (of_option (publicKey s)))).

Definition getCalls (s : VapiService) (limit : Value) : Async Value :=
  let limit := default_to limit (VNum (js "100")) in
  throw_if (negb (initialized s)) msg_not_initialized ;;
  throw_if (unset (apiKey s)) msg_no_api_key ;;
  limit_text <- lift (interpolate limit) ;;
  makeRequest
    {| hostname := baseUrl;
       path := js "/call?limit=" ++ limit_text;
       method := js "GET";
       headers := bearer_headers (apiKey s) |}
    VNull.

Definition getCall (s : VapiService) (callId : Value) : Async Value :=
  throw_if (negb (initialized s)) msg_not_initialized ;;
  throw_if (unset (privateKey s)) msg_no_private_key ;;
  throw_if (negb (truthy callId)) msg_call_id_required ;;
  callId_text <- lift (interpolate callId) ;;
  makeRequest
    {| hostname := baseUrl;
       path := js "/call/" ++ callId_text;
       method := js "GET";
       headers := bearer_headers (privateKey s) |}
    VNull.

Definition endCall (s : VapiService) (callId : Value) : Async Value :=
  throw_if (negb (initialized s)) msg_not_initialized ;;
  throw_if (unset (apiKey s)) msg_no_api_key ;;
  throw_if (negb (truthy callId)) msg_call_id_required ;;
  callId_text <- lift (interpolate callId) ;;
  makeRequest
    {| hostname := baseUrl;
       path := js "/call/" ++ callId_text;
       method := js "DELETE";
       headers := bearer_headers (apiKey s) |}
    VNull.

Definition getCallTranscript (s : VapiService) (callId : Value) : Async Value :=
  call <- getCall s callId ;;
  transcript <- lift (read_prop call (js "transcript")) ;;
  ret (or_else transcript VNull).

Definition updateAssistant (s : VapiService) (updates : Value) : Async Value :=
  throw_if (negb (initialized s)) msg_not_initialized ;;
  throw_if (unset (assistantId s)) msg_no_assistant ;;
  makeRequest
    {| hostname := baseUrl;
       path := js "/assistant/" ++ field_text (assistantId s);
       method := js "PATCH";
       headers := bearer_headers (apiKey s) |}
    updates.

Definition destroy (s : VapiService) : VapiService := set_initialized false s.

End WithRuntime.
End Part1.

(* ================================================================== *)
(** ** The revision that validates the web-call response
    ([src/unnamed/part_002]) *)

Module Part2.
Section WithRuntime.
Context {rt : Runtime}.

(** Every field is examined and the issues are collected; the result is
    false as soon as one field is unset or a placeholder. *)
Definition validateConfig (s : VapiService) : bool :=
  let isValid := true in
  let isValid :=
    if unset (privateKey s) || is_literal (privateKey s) (js "your_private_key_here")
    then false else isValid in
  let isValid :=
    if unset (publicKey s) || is_literal (publicKey s) (js "your_public_key_here")
    then false else isValid in
  let isValid :=
    if unset (assistantId s)
       || is_literal (assistantId s) (js "your_assistant_id_here")
    then false else isValid in
  isValid.

Definition initialize (s : VapiService) : VapiService := set_initialized true s.

(** [this.baseUrl] *)
Definition baseUrl : jsstring := js "https://api.vapi.ai".

(** [new VapiService()] *)
Definition new (env : Env) : VapiService :=
  let s := {| privateKey := VAPI_PRIVATE_KEY env;
              publicKey := VAPI_PUBLIC_KEY env;
              apiKey := VAPI_PRIVATE_KEY env;
              assistantId := VAPI_ASSISTANT_ID env;
              initialized := false |} in
  if validateConfig s then initialize s else s.

(** [s.slice(n)] for [n] within the string. *)
Definition after_prefix (pre s : jsstring) : option jsstring :=
  if jsstring_eqb (firstn (List.length pre) s) pre
  then Some (skipn (List.length pre) s)
  else None.

Fixpoint up_to_delimiter (s : jsstring) : jsstring :=
  match s with
  | [] => []
  | c :: rest =>
      if N.eqb c 47 || N.eqb c 58 || N.eqb c 63 || N.eqb c 35 then []
      else c :: up_to_delimiter rest
  end.

(** [new URL(u).hostname] for a URL [https://host...] without user
    information, the shape of [baseUrl]; the constructor of [URL] does
    not throw on it. *)
Definition URL_hostname (u : jsstring) : jsstring :=
  match after_prefix (js "https://") u with
  | Some rest => up_to_delimiter rest
  | None => u
  end.

(** The [end] handler of [makeRequest]. *)
Definition on_end (statusCode : N) (body : jsstring) : result Value :=
  match body with
  | [] =>
      if is_2xx statusCode then Ok (VObj [])
      else Throw (js "API Error: " ++ N_toString statusCode)
  | _ =>
      match JSON_parse body with
      | inr e => Throw (js "Parse Error: " ++ e)
      | inl response =>
          if is_2xx statusCode then Ok response
          else
            match read_prop response (js "message") with
            | inr e => Throw (js "Parse Error: " ++ e)
            | inl m =>
                match interpolate (or_else m (VStr body)) with
                | inr e => Throw (js "Parse Error: " ++ e)
                | inl text =>
                    Throw (js "API Error: " ++ N_toString statusCode ++ js " - "
                             ++ text)
                end
            end
      end
  end.

Definition settle_request (o : NetOutcome) : result Value :=
  match o with
  | NetError e => Throw (js "Request Error: " ++ e)
  | NetResponse statusCode body => on_end statusCode body
  | ClientError e => Throw e
  end.

(** The request goes to [url.hostname], with the path as given. *)
Definition makeRequest (opts : Options) (data : Value) : Async Value :=
  let requestOptions :=
    {| hostname := URL_hostname baseUrl;
       path := path opts;
       method := method opts;
       headers := headers opts |} in
  o <- send {| options := requestOptions;
               written := if truthy data then Some data else None |} ;;
  settle (settle_request o).

Definition getAssistant (s : VapiService) : Async Value :=
  throw_if (negb (initialized s)) msg_not_initialized ;;
  throw_if (unset (assistantId s)) msg_no_assistant ;;
  makeRequest
    {| hostname := baseUrl;
       path := js "/assistant/" ++ field_text (assistantId s);
       method := js "GET";
       headers := bearer_headers (apiKey s) |}
    VNull.

Definition healthCheck (s : VapiService) : Async Value :=
  try_catch
    (if negb (initialized s) then
       ret (VObj [ (js "status", VStr (js "not_configured"));
                   (js "message",
                    VStr (js "Vapi service not initialized. Please check environment variables.")) ])
     else
       assistantData <- getAssistant s ;;
       ret (VObj [ (js "status", VStr (js "healthy"));
                   (js "apiKeyPresent", VBool (negb (unset (apiKey s))));
                   (js "assistantId", of_option (assistantId s));
                   (js "assistantName",
                    or_else (get_prop assistantData (js "name"))
                      (VStr (js "Unknown"))) ]))
    (fun message =>
       ret (VObj [ (js "status", VStr (js "error"));
                   (js "message", VStr message) ])).

Definition makeCall (s : VapiService) (phoneNumber customAssistantId : Value)
  : Async Value :=
  let customAssistantId := default_to customAssistantId VNull in
  throw_if (negb (initialized s)) msg_not_initialized ;;
  throw_if (unset (apiKey s)) msg_no_api_key ;;
  throw_if (negb (truthy phoneNumber)) msg_phone_required ;;
  match phoneNumber with
  | VStr p =>
      let clean := cleanPhone p in
      throw_if (negb (Regex.test phoneRegex clean)) msg_phone_format ;;
      result <- makeRequest
        {| hostname := baseUrl;
           path := js "/call/phone";
           method := js "POST";
           headers := bearer_headers (apiKey s) |}
        (VObj [ (js "assistantId",
                 or_else customAssistantId (of_option (assistantId s)));
                (js "phoneNumberId", VNull);
                (js "customer",
                 VObj [ (js "number", VStr (customer_number clean)) ]) ]) ;;
      lift (read_prop result (js "id")) ;;
      ret result
  | _ => throw (TypeError_not_a_function phoneNumber (js "replace"))
  end.

(** [!result || !result.id || !result.transport ||
    !result.transport.websocketCallUrl] *)
Definition incomplete (result : Value) : bool :=
  negb (truthy result)
  || negb (truthy (get_prop result (js "id")))
  || negb (truthy (get_prop result (js "transport")))
  || negb (truthy (get_prop (get_prop result (js "transport"))
                     (js "websocketCallUrl"))).

Definition createWebCall (s : VapiService) (customAssistantId transportConfig : Value)
  : Async Value :=
  let customAssistantId := default_to customAssistantId VNull in
  let transportConfig := default_to transportConfig VNull in
  throw_if (negb (initialized s)) msg_not_initialized ;;
  throw_if (unset (privateKey s)) msg_no_private_key ;;
  result <- makeRequest
    {| hostname := baseUrl;
       path := js "/call";
       method := js "POST";
       headers :=
         [ (js "Authorization", js "Bearer " ++ field_text (privateKey s));
           (js "Content-Type", js "application/json");
           (js "Accept", js "application/json") ] |}
    (VObj [ (js "assistantId",
             or_else customAssistantId (of_option (assistantId s)));
            (js "transport", or_else transportConfig websocket_transport) ]) ;;
  throw_if (incomplete result) msg_invalid_response ;;
  ret (VObj (set_prop (spread result) (js "publicKey") (of_option (publicKey s)))).

Definition getCalls (s : VapiService) (limit : Value) : Async Value :=
  let limit := default_to limit (VNum (js "100")) in
  throw_if (negb (initialized s)) msg_not_initialized ;;
  throw_if (unset (apiKey s)) msg_no_api_key ;;
  limit_text <- lift (interpolate limit) ;;
  makeRequest
    {| hostname := baseUrl;
       path := js "/call?limit=" ++ limit_text;
       method := js "GET";
       headers := bearer_headers (apiKey s) |}
    VNull.

Definition getCall (s : VapiService) (callId : Value) : Async Value :=
  throw_if (negb (initialized s)) msg_not_initialized ;;
  throw_if (unset (privateKey s)) msg_no_private_key ;;
  throw_if (negb (truthy callId)) msg_call_id_required ;;
  callId_text <- lift (interpolate callId) ;;
  makeRequest
    {| hostname := baseUrl;
       path := js "/call/" ++ callId_text;
       method := js "GET";
       headers := bearer_headers (privateKey s) |}
    VNull.

Definition endCall (s : VapiService) (callId : Value) : Async Value :=
  throw_if (negb (initialized s)) msg_not_initialized ;;
  throw_if (unset (apiKey s)) msg_no_api_key ;;
  throw_if (negb (truthy callId)) msg_call_id_required ;;
  callId_text <- lift (interpolate callId) ;;
  makeRequest
    {| hostname := baseUrl;
       path := js "/call/" ++ callId_text;
       method := js "DELETE";
       headers := bearer_headers (apiKey s) |}
    VNull.

Definition getCallTranscript (s : VapiService) (callId : Value) : Async Value :=
  call <- getCall s callId ;;
  transcript <- lift (read_prop call (js "transcript")) ;;
  ret (or_else transcript VNull).

Definition updateAssistant (s : VapiService) (updates : Value) : Async Value :=
  throw_if (negb (initialized s)) msg_not_initialized ;;
  throw_if (unset (assistantId s)) msg_no_assistant ;;
  makeRequest
    {| hostname := baseUrl;
       path := js "/assistant/" ++ field_text (assistantId s);
       method := js "PATCH";
       headers := bearer_headers (apiKey s) |}
    updates.

Definition destroy (s : VapiService) : VapiService := set_initialized false s.

End WithRuntime.
End Part2.

(* ================================================================== *)
(** ** [server/app.js]: the routes in front of the gateway *)

Module App.

(** The methods a route calls on [vapiService].  A method receives the
    arguments of the call as a list: a parameter that is not supplied is
    [undefined], an argument beyond the declared parameters is dropped. *)
Record Gateway : Type := {
  createWebCall : list Value -> Async Value;
  getCalls : list Value -> Async Value;
  getCallTranscript : list Value -> Async Value
}.

Definition arg (i : nat) (args : list Value) : Value := nth i args VUndefined.

Section WithRuntime.
Context {rt : Runtime}.

(** [require('./vapi_integration')], for each revision of that file. *)
Definition server_gateway (s : VapiService) : Gateway :=
  {| createWebCall := fun args => Server.createWebCall s (arg 0 args);
     getCalls := fun args => Server.getCalls s (arg 0 args);
     getCallTranscript := fun args => Server.getCallTranscript s (arg 0 args) |}.

Definition part1_gateway (s : VapiService) : Gateway :=
  {| createWebCall := fun args => Part1.createWebCall s (arg 0 args);
     getCalls := fun args => Part1.getCalls s (arg 0 args);
     getCallTranscript := fun args => Part1.getCallTranscript s (arg 0 args) |}.


(** What a route sends back: [res.status(code).json(body)]; [res.json]
    alone answers 200. *)
Record HttpResponse : Type := {
  status : N;
  json : Value
}.

Definition unavailable : HttpResponse :=
  {| status := 503;
     json := VObj [ (js "success", VBool false);
                    (js "error", VStr (js "Vapi service unavailable")) ] |}.

(** [res.status(500).json({ success: false, error: ... })] *)
Definition failure (error : Value) : HttpResponse :=
  {| status := 500;
     json := VObj [ (js "success", VBool false); (js "error", error) ] |}.

(** [!result || !result.id || !result.transport ||
    !result.transport.websocketCallUrl], the route's own check. *)
Definition invalid_result (result : Value) : bool :=
  negb (truthy result)
  || negb (truthy (get_prop result (js "id")))
  || negb (truthy (get_prop result (js "transport")))
  || negb (truthy (get_prop (get_prop result (js "transport"))
                     (js "websocketCallUrl"))).

(** [POST /api/vapi/call] *)
Definition post_call (vapiService : option Gateway) (body : Value)
  : Async HttpResponse :=
  match vapiService with
  | None => ret unavailable
  | Some gw =>
      try_catch
        (assistantId <- lift (if nullish body
                              then inr (TypeError_destructure body (js "assistantId"))
                              else inl (get_prop body (js "assistantId"))) ;;
         result <- createWebCall gw [assistantId; websocket_transport] ;;
         throw_if (invalid_result result) (js "Invalid response from Vapi service") ;;
         ret {| status := 200;
                json :=
                  VObj [ (js "success", VBool true);
                         (js "data",
                          VObj [ (js "id", get_prop result (js "id"));
                                 (js "transport",
                                  VObj [ (js "provider",
                                          get_prop (get_prop result (js "transport"))
                                            (js "provider"));
                                         (js "websocketCallUrl",
                                          get_prop (get_prop result (js "transport"))
                                            (js "websocketCallUrl")) ]);
                                 (js "publicKey", get_prop result (js "publicKey")) ]) ] |})
        (fun message => ret (failure (VStr message)))
  end.


(** [GET /api/vapi/calls/:callId/transcript] *)
Definition get_transcript (vapiService : option Gateway) (callId : jsstring)
  : Async HttpResponse :=
  match vapiService with
  | None => ret unavailable
  | Some gw =>
      try_catch
        (transcript <- getCallTranscript gw [VStr callId] ;;
         ret {| status := 200;
                json := VObj [ (js "success", VBool true);
                               (js "data",
                                VObj [ (js "transcript", transcript) ]) ] |})
        (fun message =>
           ret (failure (or_else (VStr message)
                           (VStr (js "Failed to get transcript")))))
  end.

(** One [console.log] call, with its arguments. *)
Inductive Observation : Type :=
| Log (args : list Value)
| LogError (args : list Value).

(** [v === 'literal'] *)
Definition is_string (v : Value) (lit : jsstring) : bool :=
  match v with
  | VStr s => jsstring_eqb s lit
  | _ => false
  end.

(** The [switch (type)] of the webhook handler: the lines it logs, or
    the message of the TypeError that the template literal of a line
    throws. *)
Definition observe (type data : Value) : list Observation + jsstring :=
  if is_string type (js "status-update") then
    if truthy (get_prop data (js "callId")) then
      match interpolate (get_prop data (js "callId")) with
      | inr e => inr e
      | inl callId =>
          match interpolate (get_prop data (js "status")) with
          | inr e => inr e
          | inl status =>
              inl [ Log [ VStr (js "Call " ++ callId ++ js " status updated to: "
                                  ++ status) ] ]
          end
      end
    else inl []
  else if is_string type (js "transcript") then
    if truthy (get_prop data (js "callId"))
       && truthy (get_prop data (js "transcript")) then
      match interpolate (get_prop data (js "callId")) with
      | inr e => inr e
      | inl callId =>
          inl [ Log [ VStr (js "New transcript for call " ++ callId ++ js ":");
                      get_prop data (js "transcript") ] ]
      end
    else inl []
  else if is_string type (js "call-ended") then
    if truthy (get_prop data (js "callId")) then
      match interpolate (get_prop data (js "callId")) with
      | inr e => inr e
      | inl callId => inl [ Log [ VStr (js "Call " ++ callId ++ js " ended") ] ]
      end
    else inl []
  else if is_string type (js "speech-update") then
    inl [ Log [ VStr (js "Speech update:"); data ] ]
  else if is_string type (js "conversation-update") then
    inl [ Log [ VStr (js "Conversation update:"); data ] ]
  else if is_string type (js "end-of-call-report") then
    inl [ Log [ VStr (js "End of call report:"); data ] ]
  else
    inl [ Log [ VStr (js "Unhandled webhook type:"); type; data ] ].

(** The answer of the [catch] block of the webhook handler: [res.json]
    without a status, which is 200. *)
Definition caught (message : jsstring) : HttpResponse :=
  {| status := 200;
     json := VObj [ (js "success", VBool false); (js "error", VStr message) ] |}.

(** The handler function that the program registers for
    [POST /api/vapi/webhook], run on the parsed request body: what it
    logs and what it answers.  Whether a request reaches it is a matter of
    the order in which the routes are registered, see [Router]. *)
Definition webhook (body : Value) : list Observation * HttpResponse :=
  if nullish body then
    (* const { type, data } = req.body throws; the catch block answers *)
    ( [ LogError [ VStr (js "Webhook error:");
                   VStr (TypeError_destructure body (js "type")) ] ],
      caught (TypeError_destructure body (js "type")) )
  else
    let type := get_prop body (js "type") in
    let data := get_prop body (js "data") in
    let received := Log [ VStr (js "Received webhook:"); type; data ] in
    if negb (truthy type) || negb (truthy data) then
      ( [ received ],
        {| status := 400;
           json := VObj [ (js "success", VBool false);
                          (js "error", VStr (js "Invalid webhook payload")) ] |} )
    else
      match observe type data with
      | inl lines =>
          ( received :: lines,
            {| status := 200; json := VObj [ (js "success", VBool true) ] |} )
      | inr message =>
          ( [ received; LogError [ VStr (js "Webhook error:"); VStr message ] ],
            caught message )
      end.

End WithRuntime.
End App.

(* ================================================================== *)
(** ** [server/app.js]: the other routes *)

Module Rest.

(** What the other routes use of [vapiService]: further methods, which
    receive the arguments of the call as a list, and two fields. *)
Record VapiInstance : Type := {
  healthCheck : list Value -> Async Value;
  getAssistant : list Value -> Async Value;
  makeCall : list Value -> Async Value;
  getCall : list Value -> Async Value;
  endCall : list Value -> Async Value;
  publicKey : Value;
  assistantId : Value
}.

(** What the service probe of the health route gets from the datastore
    client: the value its query resolves to, or a rejection. *)
Definition DatastoreProbe : Type := result Value.

Section WithRuntime.
Context {rt : Runtime}.

(** [require('./vapi_integration')], for each revision of that file. *)
Definition server_instance (s : VapiService) : VapiInstance :=
  {| healthCheck := fun _ => Server.healthCheck s;
     getAssistant := fun _ => Server.getAssistant s;
     makeCall := fun args => Server.makeCall s (App.arg 0 args) (App.arg 1 args);
     getCall := fun args => Server.getCall s (App.arg 0 args);
     endCall := fun args => Server.endCall s (App.arg 0 args);
     publicKey := of_option (Service.publicKey s);
     assistantId := of_option (Service.assistantId s) |}.

Definition part1_instance (s : VapiService) : VapiInstance :=
  {| healthCheck := fun _ => Part1.healthCheck s;
     getAssistant := fun _ => Part1.getAssistant s;
     makeCall := fun args => Part1.makeCall s (App.arg 0 args) (App.arg 1 args);
     getCall := fun args => Part1.getCall s (App.arg 0 args);
     endCall := fun args => Part1.endCall s (App.arg 0 args);
     publicKey := of_option (Service.publicKey s);
     assistantId := of_option (Service.assistantId s) |}.

Definition part2_instance (s : VapiService) : VapiInstance :=
  {| healthCheck := fun _ => Part2.healthCheck s;
     getAssistant := fun _ => Part2.getAssistant s;
     makeCall := fun args => Part2.makeCall s (App.arg 0 args) (App.arg 1 args);
     getCall := fun args => Part2.getCall s (App.arg 0 args);
     endCall := fun args => Part2.endCall s (App.arg 0 args);
     publicKey := of_option (Service.publicKey s);
     assistantId := of_option (Service.assistantId s) |}.

(** [res.json({ success: true, data })] *)
Definition success (data : Value) : App.HttpResponse :=
  {| App.status := 200;
     App.json := VObj [ (js "success", VBool true); (js "data", data) ] |}.

(** [GET /api/vapi/assistant] *)
Definition get_assistant (vapiService : option VapiInstance) : Async App.HttpResponse :=
  match vapiService with
  | None => ret App.unavailable
  | Some vapi =>
      try_catch
        (assistant <- getAssistant vapi [] ;;
         ret (success assistant))
        (fun message =>
           ret (App.failure (or_else (VStr message)
                               (VStr (js "Failed to get assistant info")))))
  end.

(** [POST /api/vapi/call/phone] *)
Definition post_call_phone (vapiService : option VapiInstance) (body : Value)
  : Async App.HttpResponse :=
  match vapiService with
  | None => ret App.unavailable
  | Some vapi =>
      try_catch
        (fields <- lift (if nullish body
                         then inr (TypeError_destructure body (js "phoneNumber"))
                         else inl (get_prop body (js "phoneNumber"),
                                   get_prop body (js "assistantId"))) ;;
         let (phoneNumber, assistantId) := fields in
         if negb (truthy phoneNumber) then
           ret {| App.status := 400;
                  App.json := VObj [ (js "success", VBool false);
                                     (js "error", VStr (js "Phone number is required")) ] |}
         else
           result <- makeCall vapi [phoneNumber; assistantId] ;;
           ret (success result))
        (fun message =>
           ret (App.failure (or_else (VStr message)
                               (VStr (js "Failed to make phone call")))))
  end.

(** [GET /api/vapi/calls/:callId] *)
Definition get_call (vapiService : option VapiInstance) (callId : jsstring)
  : Async App.HttpResponse :=
  match vapiService with
  | None => ret App.unavailable
  | Some vapi =>
      try_catch
        (call <- getCall vapi [VStr callId] ;;
         ret (success call))
        (fun message =>
           ret (App.failure (or_else (VStr message)
                               (VStr (js "Failed to get call details")))))
  end.

(** [DELETE /api/vapi/calls/:callId] *)
Definition delete_call (vapiService : option VapiInstance) (callId : jsstring)
  : Async App.HttpResponse :=
  match vapiService with
  | None => ret App.unavailable
  | Some vapi =>
      try_catch
        (result <- endCall vapi [VStr callId] ;;
         ret (success result))
        (fun message =>
           ret (App.failure (or_else (VStr message)
                               (VStr (js "Failed to end call")))))
  end.

(** [GET /api/vapi/config] *)
Definition get_config (vapiService : option VapiInstance) : App.HttpResponse :=
  match vapiService with
  | None => App.unavailable
  | Some vapi =>
      {| App.status := 200;
         App.json := VObj [ (js "success", VBool true);
                            (js "publicKey", publicKey vapi);
                            (js "assistantId", assistantId vapi) ] |}
  end.

(** [{ status: 'unavailable', message: 'Service not initialized' }] *)
Definition service_unavailable : Value :=
  VObj [ (js "status", VStr (js "unavailable"));
         (js "message", VStr (js "Service not initialized")) ].

(** The [health.services.vapi] entry. *)
Definition vapi_health (vapiService : option VapiInstance) : Async Value :=
  match vapiService with
  | None => ret service_unavailable
  | Some vapi =>
      try_catch (healthCheck vapi [])
        (fun message =>
           ret (VObj [ (js "status", VStr (js "error"));
                       (js "message", VStr message) ]))
  end.

(** The [health.services.supabase] entry: the probe's [error] property
    decides; a rejection, or a result that cannot be destructured, is a
    failed connection. *)
Definition supabase_health (supabase : option DatastoreProbe) : Value :=
  match supabase with
  | None => service_unavailable
  | Some (Throw _) =>
      VObj [ (js "status", VStr (js "error"));
             (js "message", VStr (js "Connection failed")) ]
  | Some (Ok probe) =>
      if nullish probe then
        VObj [ (js "status", VStr (js "error"));
               (js "message", VStr (js "Connection failed")) ]
      else if truthy (get_prop probe (js "error")) then
        VObj [ (js "status", VStr (js "error"));
               (js "message", get_prop (get_prop probe (js "error")) (js "message")) ]
      else VObj [ (js "status", VStr (js "healthy")) ]
  end.

(** [service.status === 'healthy' || service.status === 'OK'] *)
Definition reports_healthy (service : Value) : bool :=
  App.is_string (get_prop service (js "status")) (js "healthy")
  || App.is_string (get_prop service (js "status")) (js "OK").

(** [GET /api/health].  [timestamp] is [new Date().toISOString()] and
    [npm_package_version] the environment variable of that name. *)
Definition get_health (vapiService : option VapiInstance)
  (supabase : option DatastoreProbe) (timestamp : jsstring)
  (npm_package_version : option jsstring) : Async App.HttpResponse :=
  vapi <- vapi_health vapiService ;;
  let services := [ (js "vapi", vapi); (js "supabase", supabase_health supabase) ] in
  let health :=
    VObj [ (js "status", VStr (js "OK"));
           (js "timestamp", VStr timestamp);
           (js "version", or_else (of_option npm_package_version) (VStr (js "1.0.0")));
           (js "services", VObj services) ] in
  (* Object.values(health.services).some(...) reads vapi.status first *)
  overallHealthy <- lift (if nullish vapi then inr (TypeError_read vapi (js "status"))
                          else inl (reports_healthy vapi
                                    || reports_healthy (supabase_health supabase))) ;;
  ret {| App.status := if overallHealthy then 200 else 503; App.json := health |}.

End WithRuntime.
End Rest.

(* ================================================================== *)
(** ** [server/app.js]: the order of the routes *)

(** Express (the router of its version 4) keeps what [app.get],
    [app.post], [app.delete] and [app.use] register in a stack, in the
    order of the calls, and hands a request to the first layer that
    matches its method and the path of its URL (the part before the query
    string), with the default settings: the case of letters does not
    count and a slash at the end is optional.  No handler of this program
    passes a request on to a later route (the handler of [GET /] passes
    on the error of a missing file, to the error middleware).  The
    middleware registered before the first route (security headers, rate
    limits, CORS, body parsers, static files, logging) either answers
    itself or passes the request on, with or without an error; this module
    is about a request that has been passed on, and about the layer that
    takes it. *)
Module Router.

(** The handlers, named after what they serve. *)
Inductive Handler : Type :=
| Health | Search | Assistant | PhoneCall | WebCall | Calls | CallById | EndCall
| Transcript | Config | Index | ErrorMiddleware | NotFound | Webhook.

(** A layer of the stack: a route, registered with a method and a path;
    the error-handling middleware (a function of four arguments, which
    takes a request only when an error is pending); a middleware mounted
    on ['*'] (which matches every path, takes the whole path as a
    parameter, and is passed over when an error is pending). *)
Inductive Layer : Type :=
| Route (verb path : jsstring) (handler : Handler)
| OnError (handler : Handler)
| UseAll (handler : Handler).

(** The stack of [server/app.js], in the order of the file: the webhook
    route is registered last, after the middleware on ['*']. *)
Definition layers : list Layer :=
  [ Route (js "GET") (js "/api/health") Health;
    Route (js "POST") (js "/api/search") Search;
    Route (js "GET") (js "/api/vapi/assistant") Assistant;
    Route (js "POST") (js "/api/vapi/call/phone") PhoneCall;
    Route (js "POST") (js "/api/vapi/call") WebCall;
    Route (js "GET") (js "/api/vapi/calls") Calls;
    Route (js "GET") (js "/api/vapi/calls/:callId") CallById;
    Route (js "DELETE") (js "/api/vapi/calls/:callId") EndCall;
    Route (js "GET") (js "/api/vapi/calls/:callId/transcript") Transcript;
    Route (js "GET") (js "/api/vapi/config") Config;
    Route (js "GET") (js "/") Index;
    OnError ErrorMiddleware;
    UseAll NotFound;
    Route (js "POST") (js "/api/vapi/webhook") Webhook ].

(** [res.status(404).json({ success: false, error: 'Route not found' })] *)
Definition route_not_found : App.HttpResponse :=
  {| App.status := 404;
     App.json := VObj [ (js "success", VBool false);
                        (js "error", VStr (js "Route not found")) ] |}.

(** [s.split(sep)] for a one-character separator. *)
Fixpoint split (sep : N) (s : jsstring) : list jsstring :=
  match s with
  | [] => [ [] ]
  | c :: rest =>
      if N.eqb c sep then [] :: split sep rest
      else
        match split sep rest with
        | segment :: segments => (c :: segment) :: segments
        | [] => [ [c] ]
        end
  end.

(** The segments of a path, which starts with a slash; the path [/] has
    none. *)
Definition segments (path : jsstring) : option (list jsstring) :=
  match split 47 path with
  | [] :: [ [] ] => Some []
  | [] :: rest => Some rest
  | _ => None
  end.

(** Route paths are matched without regard to the case of ASCII
    letters. *)
Definition lower (c : N) : N :=
  if (N.leb 65 c && N.leb c 90)%N then (c + 32)%N else c.

Definition same_text (a b : jsstring) : bool :=
  jsstring_eqb (map lower a) (map lower b).

(** A segment of a route path that starts with a colon is a parameter. *)
Definition is_parameter (segment : jsstring) : bool :=
  match segment with
  | c :: _ => N.eqb c 58
  | [] => false
  end.

(** The outcome of matching a request path against a route path: the
    paths differ; they agree; or they agree and the value of a parameter
    cannot be decoded, which raises an error. *)
Inductive Match : Type :=
| Differs
| Agrees
| Undecodable.

Section Matching.

(** Whether the value of a parameter can be decoded. *)
Variable decodes : jsstring -> bool.

(** A literal segment matches itself, a parameter any segment that is
    not empty; one slash at the end of the request path is ignored. *)
Fixpoint match_segments (pattern : list jsstring) (path : list jsstring) : Match :=
  match pattern, path with
  | [], [] => Agrees
  | [], [ [] ] => Agrees
  | p :: pattern', x :: path' =>
      if is_parameter p then
        match x with
        | [] => Differs
        | _ =>
            match match_segments pattern' path' with
            | Differs => Differs
            | Agrees => if decodes x then Agrees else Undecodable
            | Undecodable => Undecodable
            end
        end
      else if same_text p x then match_segments pattern' path'
      else Differs
  | _, _ => Differs
  end.

Definition match_path (pattern path : jsstring) : Match :=
  match segments pattern, segments path with
  | Some p, Some x => match_segments p x
  | _, _ => Differs
  end.

(** A route takes the requests of its method, and a [GET] route those of
    [HEAD] as well; [method] is the method as Node gives it, in upper
    case. *)
Definition handles (verb method : jsstring) : bool :=
  jsstring_eqb method verb
  || (jsstring_eqb method (js "HEAD") && jsstring_eqb verb (js "GET")).

(** The layer that takes a request, going down the stack; [pending]
    says that an error was raised on the way.  A parameter that cannot be
    decoded raises an error, whatever the method of the route; routes are
    passed over once an error is pending.  When the stack is exhausted,
    no layer has answered ([None]) and Express answers itself. *)
Fixpoint run (method path : jsstring) (pending : bool) (stack : list Layer)
  : option Handler :=
  match stack with
  | [] => None
  | Route verb pattern handler :: rest =>
      match match_path pattern path with
      | Undecodable => run method path true rest
      | Agrees =>
          if negb pending && handles verb method then Some handler
          else run method path pending rest
      | Differs => run method path pending rest
      end
  | OnError handler :: rest =>
      if pending then Some handler else run method path pending rest
  | UseAll handler :: rest =>
      if pending then run method path pending rest
      else if decodes path then Some handler
      else run method path true rest
  end.

(** [run] on a request path that is already split into its segments. *)
Fixpoint run_on_segments (method path : jsstring) (parts : list jsstring)
  (pending : bool) (stack : list Layer) : option Handler :=
  match stack with
  | [] => None
  | Route verb pattern handler :: rest =>
      match match segments pattern with
            | Some p => match_segments p parts
            | None => Differs
            end
      with
      | Undecodable => run_on_segments method path parts true rest
      | Agrees =>
          if negb pending && handles verb method then Some handler
          else run_on_segments method path parts pending rest
      | Differs => run_on_segments method path parts pending rest
      end
  | OnError handler :: rest =>
      if pending then Some handler
      else run_on_segments method path parts pending rest
  | UseAll handler :: rest =>
      if pending then run_on_segments method path parts pending rest
      else if decodes path then Some handler
      else run_on_segments method path parts true rest
  end.

End Matching.

(** Express decodes the value of a parameter with [decodeURIComponent]. *)
Definition decodes (text : jsstring) : bool :=
  match decodeURIComponent text with
  | Some _ => true
  | None => false
  end.

(** The handler that takes a request with this method and this path
    which comes to the routes without an error, if a layer of the stack
    does. *)
Definition dispatch (method path : jsstring) : option Handler :=
  run decodes method path false layers.

End Router.

(* ================================================================== *)
(** ** Concrete data for the examples *)

Module Sample.

(** A string literal between double quotes, as JSON writes it. *)
Definition quoted (text : string) : jsstring := 34%N :: js text ++ [34%N].

(** The body [{"message":{"toString":1}}]. *)
Definition message_with_toString : jsstring :=
  js "{" ++ quoted "message" ++ js ":{" ++ quoted "toString" ++ js ":1}}".

(** [JSON.parse] on the bodies that the examples use: [{}], [null],
    [{"message":{"toString":1}}], and the empty text, on which Node.js
    throws a SyntaxError with the message below.  The examples apply it to
    no other text; on those this table is not [JSON.parse]. *)
Definition parse (body : jsstring) : Value + jsstring :=
  if jsstring_eqb body (js "{}") then inl (VObj [])
  else if jsstring_eqb body (js "null") then inl VNull
  else if jsstring_eqb body message_with_toString then
    inl (VObj [ (js "message", VObj [ (js "toString", VNum (js "1")) ]) ])
  else inr (js "Unexpected end of JSON input").

(** The integer that a Number holds for the integer [n]: [n] itself up to
    53 bits, and beyond, the nearest one of 53 significant bits, the even
    one of two that are as near. *)
Definition nearest_double (n : N) : N :=
  let shift := (N.size n - 53)%N in
  let q := N.shiftr n shift in
  let r := (n - N.shiftl q shift)%N in
  let half := N.shiftl 1 (shift - 1) in
  if N.eqb shift 0 then n
  else if (N.ltb half r || (N.eqb half r && N.odd q))%bool
       then N.shiftl (q + 1) shift
       else N.shiftl q shift.

(** The multiple of [10 ^ e] that is nearest to [v], among the two
    around [v], if a Number that holds it is [v]. *)
Definition rounds_to (v e : N) : option N :=
  let p := (10 ^ e)%N in
  let lo := (v / p * p)%N in
  let hi := (lo + p)%N in
  match N.eqb (nearest_double lo) v, N.eqb (nearest_double hi) v with
  | true, true =>
      Some (if N.ltb (v - lo) (hi - v) then lo
            else if N.ltb (hi - v) (v - lo) then hi
            else if N.even (v / p) then lo else hi)
  | true, false => Some lo
  | false, true => Some hi
  | false, false => None
  end.

(** The integer with the fewest significant digits that a Number reads
    back as [v]. *)
Definition shortest (v : N) : N :=
  let digits := N.of_nat (List.length (N_toString v)) in
  fold_right (fun k later =>
                match rounds_to v (digits - N.of_nat k) with
                | Some c => c
                | None => later
                end)
    v (seq 1 17).

Fixpoint without_final_zeros (digits : jsstring) : jsstring :=
  match digits with
  | [] => []
  | c :: rest =>
      match without_final_zeros rest with
      | [] => if N.eqb c 48 then [] else [c]
      | kept => c :: kept
      end
  end.

(** [String(v)] for a Number [v] that is a positive integer. *)
Definition Number_toString (v : N) : jsstring :=
  if N.leb (2 ^ 1024) v then js "Infinity"
  else
    let digits := N_toString (shortest v) in
    if Nat.leb (List.length digits) 21 then digits
    else
      match without_final_zeros digits with
      | [] => digits
      | [d] => d :: js "e+" ++ N_toString (N.of_nat (List.length digits - 1))
      | d :: more =>
          d :: js "." ++ more ++ js "e+" ++ N_toString (N.of_nat (List.length digits - 1))
      end.

(** The value of a digit in a radix up to 16. *)
Definition digit_value (radix c : N) : option N :=
  match hex_digit c with
  | Some d => if N.ltb d radix then Some d else None
  | None => None
  end.

(** The value of the digits a string starts with, if it starts with one. *)
Fixpoint read_digits (radix : N) (read : option N) (s : jsstring) : option N :=
  match s with
  | c :: rest =>
      match digit_value radix c with
      | Some d =>
          read_digits radix
            (Some (match read with Some n => n * radix + d | None => d end)%N) rest
      | None => read
      end
  | [] => read
  end.

Fixpoint skip_space (s : jsstring) : jsstring :=
  match s with
  | c :: rest => if Regex.is_space c then skip_space rest else s
  | [] => []
  end.

(** [parseInt] on a string, as the canonical string form of the Number it
    returns: white space is skipped, a sign is read, then the digits up to
    the first other character, in base 16 after the prefix [0x] and in
    base 10 otherwise; without a digit the result is [NaN]. *)
Definition parse_int (s : jsstring) : jsstring :=
  let s := skip_space s in
  let (negative, s) :=
    match s with
    | c :: rest =>
        if N.eqb c 45 then (true, rest)
        else if N.eqb c 43 then (false, rest)
        else (false, s)
    | [] => (false, s)
    end in
  let (radix, s) :=
    match s with
    | z :: x :: rest =>
        if (N.eqb z 48 && (N.eqb x 120 || N.eqb x 88))%bool then (16%N, rest)
        else (10%N, s)
    | _ => (10%N, s)
    end in
  match read_digits radix None s with
  | None => js "NaN"
  | Some 0%N => js "0"
  | Some n =>
      (if negative then js "-" else []) ++ Number_toString (nearest_double n)
  end.

(** How a message names a value that is [null] or [undefined]. *)
Definition nullish_name (v : Value) : jsstring :=
  match v with
  | VNull => js "null"
  | _ => js "undefined"
  end.

(** A runtime that agrees with Node.js on the inputs named above; the
    messages are those of its TypeErrors. *)
Definition runtime : Runtime :=
  {| JSON_parse := parse;
     JSON_parse_empty := ex_intro _ (js "Unexpected end of JSON input") eq_refl;
     parseInt := parse_int;
     TypeError_read := fun v k =>
       js "Cannot read properties of " ++ nullish_name v
         ++ js " (reading '" ++ k ++ js "')";
     TypeError_destructure := fun v k =>
       js "Cannot destructure property '" ++ k ++ js "' of 'req.body' as it is "
         ++ nullish_name v ++ js ".";
     TypeError_not_a_function := fun _ k =>
       js "phoneNumber." ++ k ++ js " is not a function";
     TypeError_to_primitive := fun _ =>
       js "Cannot convert object to primitive value" |}.

(** A complete configuration. *)
Definition env : Env :=
  {| VAPI_PRIVATE_KEY := Some (js "private-key-1");
     VAPI_PUBLIC_KEY := Some (js "public-key-1");
     VAPI_ASSISTANT_ID := Some (js "assistant-1") |}.

(** No configuration at all. *)
Definition empty_env : Env :=
  {| VAPI_PRIVATE_KEY := None;
     VAPI_PUBLIC_KEY := None;
     VAPI_ASSISTANT_ID := None |}.

(** An upstream that cannot be reached. *)
Definition unreachable : Upstream :=
  fun _ => NetError (js "connect ECONNREFUSED").

(** An upstream that gives every request the same answer. *)
Definition answers (statusCode : N) (body : jsstring) : Upstream :=
  fun _ => NetResponse statusCode body.

End Sample.

(* ================================================================== *)
(** ** Vocabulary of the statements *)

Module Spec.

(** The requests a computation sends to the upstream, and how it settles. *)
Definition sent {A} (m : Async A) (up : Upstream) : list Request := fst (m up).
Definition outcome {A} (m : Async A) (up : Upstream) : result A := snd (m up).

(** The computation fails with [message] and nothing reaches the network. *)
Definition fails_before_network {A} (m : Async A) (up : Upstream) (message : jsstring)
  : Prop :=
  m up = ([], Throw message).

(** The request carries [key] as its bearer credential. *)
Definition carries (key : option jsstring) (rq : Request) : Prop :=
  header (js "Authorization") rq = Some (js "Bearer " ++ field_text key).

(** Every request the computation sends carries [key]. *)
Definition authorizes_with {A} (key : option jsstring) (m : Async A) (up : Upstream)
  : Prop :=
  Forall (carries key) (sent m up).

(** The health check's contract: it always resolves; an uninitialised
    service is reported as [idle] without any request; an initialised one
    is probed with [getAssistant], whose success is reported as healthy
    with the assistant's id and name, and whose failure is reported as an
    error carrying the failure's message. *)
Definition health_contract (idle : jsstring) (s : VapiService)
  (healthCheck getAssistant : Async Value) (up : Upstream) : Prop :=
  (exists v, outcome healthCheck up = Ok v)
  /\ (initialized s = false ->
      exists v, healthCheck up = ([], Ok v)
                /\ get_prop v (js "status") = VStr idle)
  /\ (initialized s = true ->
      sent healthCheck up = sent getAssistant up
      /\ match outcome getAssistant up with
         | Ok assistant =>
             exists v, outcome healthCheck up = Ok v
                       /\ get_prop v (js "status") = VStr (js "healthy")
                       /\ get_prop v (js "assistantId") = of_option (assistantId s)
                       /\ get_prop v (js "assistantName")
                          = or_else (get_prop assistant (js "name"))
                              (VStr (js "Unknown"))
         | Throw message =>
             exists v, outcome healthCheck up = Ok v
                       /\ get_prop v (js "status") = VStr (js "error")
                       /\ get_prop v (js "message") = VStr message
         end).

(** What the failure of an error status says after the status code: the
    [message] of the payload when it is truthy, the raw body otherwise. *)
Definition error_detail (payload : Value) (body : jsstring) : Value :=
  or_else (get_prop payload (js "message")) (VStr body).

(** How an [end] handler classifies a response whose body is not empty:
    a body that parses resolves to the parsed payload on a 2xx status and,
    on any other status, to a failure that carries the status code and
    the payload's message or else the raw body, when that detail has a
    text; a body that does not parse is a parse failure on every status,
    and so are, on a status outside 2xx, the payload [null], whose message
    cannot be read, and a detail that cannot be converted to a string. *)
Definition classifies `{Runtime} (on_end : N -> jsstring -> result Value) : Prop :=
  forall (statusCode : N) (body : jsstring),
    (forall payload,
        JSON_parse body = inl payload -> is_2xx statusCode = true ->
        on_end statusCode body = Ok payload)
    /\ (forall payload text,
          JSON_parse body = inl payload -> is_2xx statusCode = false ->
          nullish payload = false ->
          ToString (error_detail payload body) = Some text ->
          on_end statusCode body
          = Throw (js "API Error: " ++ N_toString statusCode ++ js " - " ++ text))
    /\ (forall payload,
          JSON_parse body = inl payload -> is_2xx statusCode = false ->
          nullish payload = false ->
          ToString (error_detail payload body) = None ->
          on_end statusCode body
          = Throw (js "Parse Error: "
                     ++ TypeError_to_primitive (error_detail payload body)))
    /\ (forall payload,
          JSON_parse body = inl payload -> is_2xx statusCode = false ->
          nullish payload = true ->
          on_end statusCode body
          = Throw (js "Parse Error: " ++ TypeError_read payload (js "message")))
    /\ (forall e,
          body <> [] -> JSON_parse body = inr e ->
          on_end statusCode body = Throw (js "Parse Error: " ++ e)).

(** The detail of an error status when the payload is an object: a
    [message] that is a string and not empty is the detail; without a
    [message] the raw body is. *)
Definition detail_is_message_or_body : Prop :=
  forall (props : list (jsstring * Value)) (body : jsstring),
    (forall m, lookup (js "message") props = Some (VStr m) -> m <> [] ->
               ToString (error_detail (VObj props) body) = Some m)
    /\ (lookup (js "message") props = None ->
        ToString (error_detail (VObj props) body) = Some body).

(** The three answers of the webhook handler. *)
Definition acknowledged : App.HttpResponse :=
  {| App.status := 200; App.json := VObj [ (js "success", VBool true) ] |}.

Definition acknowledged_with_error (detail : jsstring) : App.HttpResponse :=
  {| App.status := 200;
     App.json := VObj [ (js "success", VBool false); (js "error", VStr detail) ] |}.

Definition rejected : App.HttpResponse :=
  {| App.status := 400;
     App.json := VObj [ (js "success", VBool false);
                        (js "error", VStr (js "Invalid webhook payload")) ] |}.

(** The value can be converted to a string. *)
Definition has_text (v : Value) : bool :=
  match ToString v with
  | Some _ => true
  | None => false
  end.

(** The payload passes the handler's check: its [type] and its [data]
    are truthy. *)
Definition well_formed (body : Value) : bool :=
  truthy (get_prop body (js "type")) && truthy (get_prop body (js "data")).

(** A payload [{ type, data }]. *)
Definition event (type data : Value) : Value :=
  VObj [ (js "type", type); (js "data", data) ].

(** The event types the handler has a case for: those whose line
    interpolates the call id, and those that log the data as it is. *)
Definition identified_types : list jsstring :=
  [ js "status-update"; js "transcript"; js "call-ended" ].

Definition logged_types : list jsstring :=
  [ js "speech-update"; js "conversation-update"; js "end-of-call-report" ].

Definition recognized_types : list jsstring := identified_types ++ logged_types.

(** What [getCallTranscript] owes to [getCall]: a call object without a
    [transcript] property gives [null]; a failure is passed on as it is,
    and nothing more is sent. *)
Definition transcript_contract (getCall getCallTranscript : Value -> Async Value)
  : Prop :=
  forall (callId : Value) (up : Upstream) (tr : list Request),
    (forall props,
        getCall callId up = (tr, Ok (VObj props)) ->
        lookup (js "transcript") props = None ->
        getCallTranscript callId up = (tr, Ok VNull))
    /\ (forall e,
          getCall callId up = (tr, Throw e) ->
          getCallTranscript callId up = (tr, Throw e)).





(** What [makeCall] does with a phone number once its configuration
    guards have passed: the empty string is refused as missing; any other
    string is stripped of separators and tested against the pattern; a
    string that fails is refused with the format error; neither refusal
    sends anything; a string that passes leads to exactly one request
    handed to [https.request] (which leaves unless the client refuses it),
    a POST to [/call/phone] whose [customer.number] is the stripped number
    with its leading [+]. *)
Definition phone_validation (makeCall : Value -> Value -> Async Value) (up : Upstream)
  : Prop :=
  forall (phoneNumber : jsstring) (customAssistantId : Value),
    (phoneNumber = [] ->
     fails_before_network (makeCall (VStr phoneNumber) customAssistantId) up
       msg_phone_required)
    /\ (phoneNumber <> [] ->
        Regex.test phoneRegex (cleanPhone phoneNumber) = false ->
        fails_before_network (makeCall (VStr phoneNumber) customAssistantId) up
          msg_phone_format)
    /\ (phoneNumber <> [] ->
        Regex.test phoneRegex (cleanPhone phoneNumber) = true ->
        exists rq payload,
          sent (makeCall (VStr phoneNumber) customAssistantId) up = leaving up rq
          /\ path (options rq) = js "/call/phone"
          /\ method (options rq) = js "POST"
          /\ written rq = Some payload
          /\ get_prop (get_prop payload (js "customer")) (js "number")
             = VStr (customer_number (cleanPhone phoneNumber))).

(** Every request of the back-end operations carries [key]. *)
Definition backend_uses (key : option jsstring) (up : Upstream)
  (getAssistant : Async Value) (makeCall : Value -> Value -> Async Value)
  (getCalls getCall endCall updateAssistant : Value -> Async Value) : Prop :=
  authorizes_with key getAssistant up
  /\ (forall phoneNumber customAssistantId,
        authorizes_with key (makeCall phoneNumber customAssistantId) up)
  /\ (forall limit, authorizes_with key (getCalls limit) up)
  /\ (forall callId, authorizes_with key (getCall callId) up)
  /\ (forall callId, authorizes_with key (endCall callId) up)
  /\ (forall updates, authorizes_with key (updateAssistant updates) up).

(** Every request of a web-call creation carries [key], and a request is
    sent only if [gate] is set. *)
Definition web_call_uses (key gate : option jsstring) (createWebCall : Async Value)
  (up : Upstream) : Prop :=
  authorizes_with key createWebCall up
  /\ (sent createWebCall up <> [] -> unset gate = false).

(** A value has a truthy [id] and a truthy [transport.websocketCallUrl]. *)
Definition has_call_fields (v : Value) : bool :=
  truthy (get_prop v (js "id"))
  && truthy (get_prop (get_prop v (js "transport")) (js "websocketCallUrl")).

(** The computation sends a request, and the upstream answers it with
    this status and this body. *)
Definition answered {A} (m : Async A) (up : Upstream) (statusCode : N) (body : jsstring)
  : Prop :=
  exists rq, sent m up = [rq] /\ up rq = NetResponse statusCode body.

(** The service with another private key (and the [apiKey] that goes
    with it). *)
Definition with_private_key (key : option jsstring) (s : VapiService) : VapiService :=
  {| privateKey := key; publicKey := publicKey s; apiKey := key;
     assistantId := assistantId s; initialized := initialized s |}.

(** What is sent does not depend on which private key is set. *)
Definition private_key_not_sent (createWebCall : VapiService -> Async Value)
  (s : VapiService) (up : Upstream) : Prop :=
  forall key key',
    unset key = false -> unset key' = false ->
    sent (createWebCall (with_private_key key s)) up
    = sent (createWebCall (with_private_key key' s)) up.

(** The environment with another private key. *)
Definition with_VAPI_PRIVATE_KEY (key : option jsstring) (env : Env) : Env :=
  {| VAPI_PRIVATE_KEY := key;
     VAPI_PUBLIC_KEY := VAPI_PUBLIC_KEY env;
     VAPI_ASSISTANT_ID := VAPI_ASSISTANT_ID env |}.

(** A credential is configured: present, not empty, and not the
    placeholder literal that the validation knows for it. *)
Definition configured (credential : option jsstring) (placeholder : jsstring) : Prop :=
  exists v, credential = Some v /\ v <> [] /\ v <> placeholder.

(** A credential is present and not empty. *)
Definition present (credential : option jsstring) : Prop :=
  exists v, credential = Some v /\ v <> [].

(** A computation makes a single attempt: it sends at most one request. *)
Definition single_attempt {A} (m : Async A) (up : Upstream) : Prop :=
  List.length (sent m up) <= 1.

(** The kinds of failure a caller can tell apart from the message of a
    rejected request: the upstream could not be reached; it answered with
    something unreadable; it answered with an error status. *)
Inductive FailureKind : Type :=
| TransportFailure
| ParseFailure
| HttpFailure.

(** [message.startsWith(prefix)] *)
Definition starts_with (prefix message : jsstring) : bool :=
  jsstring_eqb (firstn (List.length prefix) message) prefix.

(** The kind a message announces by its prefix. *)
Definition failure_kind (message : jsstring) : option FailureKind :=
  if starts_with (js "Request Error: ") message then Some TransportFailure
  else if starts_with (js "Parse Error: ") message then Some ParseFailure
  else if starts_with (js "API Error: ") message then Some HttpFailure
  else None.

(** How a promise may settle on what became of its request.  When the
    client refused the request, the promise rejects with the client's
    message as it is, without a prefix.  A connection failure is
    announced as a transport failure; a response resolves only on a 2xx
    status, and otherwise is announced as a parse failure or, on a status
    outside 2xx only, as an HTTP failure. *)
Definition settles_by_kind (o : NetOutcome) (r : result Value) : Prop :=
  match o, r with
  | ClientError e, r => r = Throw e
  | NetError _, Ok _ => False
  | NetError _, Throw m => failure_kind m = Some TransportFailure
  | NetResponse statusCode _, Ok _ => is_2xx statusCode = true
  | NetResponse statusCode _, Throw m =>
      failure_kind m = Some ParseFailure
      \/ (failure_kind m = Some HttpFailure /\ is_2xx statusCode = false)
  end.

(** [makeRequest] hands the client the one request it builds from its
    arguments ([request_of]), which leaves unless the client refuses it,
    and settles by what became of that request. *)
Definition kinds_tell_apart (makeRequest : Options -> Value -> Async Value)
  (request_of : Options -> Value -> Request) : Prop :=
  forall (opts : Options) (data : Value) (up : Upstream),
    sent (makeRequest opts data) up = leaving up (request_of opts data)
    /\ settles_by_kind (up (request_of opts data)) (outcome (makeRequest opts data) up).

(** The request [makeRequest] builds: the options as given (with the
    host of [baseUrl] in the last revision) and the data, when truthy, as
    the body. *)
Definition request_as_given (opts : Options) (data : Value) : Request :=
  {| options := opts; written := if truthy data then Some data else None |}.

Definition request_to_base (opts : Options) (data : Value) : Request :=
  {| options := {| hostname := js "api.vapi.ai";
                   path := path opts;
                   method := method opts;
                   headers := headers opts |};
     written := if truthy data then Some data else None |}.

(** Every request the computation sends satisfies [P]. *)
Definition every_request {A} (P : Request -> Prop) (m : Async A) (up : Upstream) : Prop :=
  Forall P (sent m up).

(** The request goes to the provider's host. *)
Definition to_api_host (rq : Request) : Prop :=
  hostname (options rq) = js "api.vapi.ai".

(** The request has no body. *)
Definition bodiless (rq : Request) : Prop := written rq = None.

(** The request has a JSON object as its body. *)
Definition with_object_body (rq : Request) : Prop :=
  exists props, written rq = Some (VObj props).

(** A phone number as it is sent: [+], a digit from 1 to 9, then 8 to 14
    digits. *)
Definition plus_and_digits (number : jsstring) : Prop :=
  exists d ds,
    number = 43%N :: d :: ds
    /\ Regex.in_range 49 57 d = true
    /\ forallb Regex.is_digit ds = true
    /\ 8 <= List.length ds <= 14.

(** The request carries such a number as [customer.number]. *)
Definition calls_normalized_number (rq : Request) : Prop :=
  exists payload number,
    written rq = Some payload
    /\ get_prop (get_prop payload (js "customer")) (js "number") = VStr number
    /\ plus_and_digits number.

(** The operations of each revision, on given arguments. *)
Definition server_reads `{Runtime} (s : VapiService) (a : Value) : list (Async Value) :=
  [ Server.getAssistant s; Server.healthCheck s; Server.getCalls s a;
    Server.getCall s a; Server.endCall s a; Server.getCallTranscript s a ].

Definition server_creations `{Runtime} (s : VapiService) (a b : Value)
  : list (Async Value) :=
  [ Server.makeCall s a b; Server.createWebCall s a ].

Definition part1_reads `{Runtime} (s : VapiService) (a : Value) : list (Async Value) :=
  [ Part1.getAssistant s; Part1.healthCheck s; Part1.getCalls s a;
    Part1.getCall s a; Part1.endCall s a; Part1.getCallTranscript s a ].

Definition part1_creations `{Runtime} (s : VapiService) (a b : Value)
  : list (Async Value) :=
  [ Part1.makeCall s a b; Part1.createWebCall s a ].

Definition part2_reads `{Runtime} (s : VapiService) (a : Value) : list (Async Value) :=
  [ Part2.getAssistant s; Part2.healthCheck s; Part2.getCalls s a;
    Part2.getCall s a; Part2.endCall s a; Part2.getCallTranscript s a ].

Definition part2_creations `{Runtime} (s : VapiService) (a b : Value)
  : list (Async Value) :=
  [ Part2.makeCall s a b; Part2.createWebCall s a b ].

Definition updates `{Runtime} (s : VapiService) (a : Value) : list (Async Value) :=
  [ Server.updateAssistant s a; Part1.updateAssistant s a; Part2.updateAssistant s a ].

(** What a web call resolves to: an object whose [publicKey] is the
    service's own. *)
Definition has_own_public_key (s : VapiService) (v : Value) : Prop :=
  exists props,
    v = VObj props /\ lookup (js "publicKey") props = Some (of_option (publicKey s)).

(** The computation sends something only if [P] holds. *)
Definition sends_only_if {A} (m : Async A) (up : Upstream) (P : Prop) : Prop :=
  sent m up <> [] -> P.

(** A phone number that is a non-empty string. *)
Definition nonempty_string (v : Value) : Prop := exists p, v = VStr p /\ p <> [].

(** The answer of the phone route to a body without a phone number. *)
Definition phone_number_missing : App.HttpResponse :=
  {| App.status := 400;
     App.json := VObj [ (js "success", VBool false);
                        (js "error", VStr (js "Phone number is required")) ] |}.

(** A promise resolved. *)
Definition resolved {A} (r : result A) : bool :=
  match r with
  | Ok _ => true
  | Throw _ => false
  end.

(** The datastore probe came back, and without an error. *)
Definition datastore_healthy (supabase : option Rest.DatastoreProbe) : bool :=
  match supabase with
  | Some (Ok probe) => negb (nullish probe) && negb (truthy (get_prop probe (js "error")))
  | _ => false
  end.

(** What the health route answers in front of a gateway: it sends what
    the gateway's health check sends; the body always says [OK]; the
    status is 200 when the gateway is initialised and its assistant can be
    read, or when the datastore is healthy, and 503 otherwise. *)
Definition health_route_contract `{Runtime} (vapi : Rest.VapiInstance) (s : VapiService)
  (healthCheck getAssistant : Async Value) (up : Upstream) : Prop :=
  forall (supabase : option Rest.DatastoreProbe) (timestamp : jsstring)
         (version : option jsstring),
  exists response,
    Rest.get_health (Some vapi) supabase timestamp version up
    = (sent healthCheck up, Ok response)
    /\ get_prop (App.json response) (js "status") = VStr (js "OK")
    /\ App.status response
       = (if (initialized s && resolved (outcome getAssistant up))
             || datastore_healthy supabase
          then 200%N else 503%N).

(** A route relays a gateway call: it sends what the call sends, answers
    200 with the value the call resolves to, and 500 with the message of
    the failure (or the route's own text when the message is empty) when
    the call rejects. *)
Definition relays (route : Async App.HttpResponse) (call : Async Value)
  (fallback : jsstring) (up : Upstream) : Prop :=
  route up
  = (sent call up,
     Ok (match outcome call up with
         | Ok v => Rest.success v
         | Throw e =>
             App.failure (VStr (match e with [] => fallback | _ => e end))
         end)).

End Spec.
Import Spec.

(* ================================================================== *)
(** * Properties *)

(** ** Strings and property lists *)

Lemma jsstring_eqb_refl (a : jsstring) : jsstring_eqb a a = true.
Proof.
  induction a as [|x a IH]; simpl; [reflexivity|].
  now rewrite N.eqb_refl, IH.
Qed.

Lemma jsstring_eqb_eq (a b : jsstring) : jsstring_eqb a b = true <-> a = b.
Proof.
  split.
  - revert b; induction a as [|x a IH]; intros [|y b]; simpl; try discriminate.
    + reflexivity.
    + intros H. apply andb_true_iff in H as [Hx Hr].
      apply N.eqb_eq in Hx. apply IH in Hr. now subst.
  - intros ->. apply jsstring_eqb_refl.
Qed.

Lemma jsstring_eqb_neq (a b : jsstring) : jsstring_eqb a b = false <-> a <> b.
Proof.
  split.
  - intros H E. apply jsstring_eqb_eq in E. congruence.
  - intros H. destruct (jsstring_eqb a b) eqn:E; [|reflexivity].
    apply jsstring_eqb_eq in E. contradiction.
Qed.

Lemma lookup_set_prop_other (props : list (jsstring * Value)) (k k' : jsstring) (v : Value) :
  k <> k' -> lookup k (set_prop props k' v) = lookup k props.
Proof.
  intros Hk. induction props as [|[k0 v0] rest IH]; simpl.
  - apply jsstring_eqb_neq in Hk. now rewrite Hk.
  - destruct (jsstring_eqb k' k0) eqn:E0; simpl.
    + apply jsstring_eqb_eq in E0. subst k0.
      apply jsstring_eqb_neq in Hk. now rewrite Hk.
    + destruct (jsstring_eqb k k0); [reflexivity | exact IH].
Qed.

Lemma lookup_set_prop_same (props : list (jsstring * Value)) (k : jsstring) (v : Value) :
  lookup k (set_prop props k v) = Some v.
Proof.
  induction props as [|[k0 v0] rest IH]; simpl.
  - now rewrite jsstring_eqb_refl.
  - destruct (jsstring_eqb k k0) eqn:E0; simpl; rewrite E0; [reflexivity | exact IH].
Qed.

(** A value with a truthy property is an object. *)
Lemma truthy_prop_object (v : Value) (k : jsstring) :
  truthy (get_prop v k) = true -> exists props, v = VObj props.
Proof.
  destruct v; simpl; try discriminate. intros _. now eexists.
Qed.

(** ** Regular expressions: the matcher decides the language *)

Lemma nullable_Matches (r : Regex.regex) :
  Regex.nullable r = true <-> Regex.Matches r [].
Proof.
  split.
  - induction r; simpl; intros H; try discriminate.
    + constructor.
    + apply andb_true_iff in H as [H1 H2].
      change (@nil N) with (@nil N ++ @nil N). constructor; auto.
    + apply orb_true_iff in H as [H|H]; [apply Regex.MAltL | apply Regex.MAltR]; auto.
    + constructor.
  - intros H. remember (@nil N) as s eqn:Es.
    induction H; simpl; try reflexivity; try discriminate.
    + apply app_eq_nil in Es as [E1 E2]. rewrite IHMatches1, IHMatches2; auto.
    + rewrite IHMatches; auto.
    + rewrite IHMatches; auto. apply orb_true_r.
Qed.

Lemma Matches_deriv (r : Regex.regex) (c : N) (s : jsstring) :
  Regex.Matches r (c :: s) -> Regex.Matches (Regex.deriv c r) s.
Proof.
  intros H. remember (c :: s) as cs eqn:Ecs. revert c s Ecs.
  induction H; intros c0 s0 Ecs; simpl; try discriminate.
  - injection Ecs as -> <-. rewrite H. constructor.
  - destruct s1 as [|c1 s1'].
    + simpl in Ecs. subst s2.
      apply nullable_Matches in H. rewrite H.
      apply Regex.MAltR. now apply IHMatches2.
    + simpl in Ecs. injection Ecs as -> <-.
      assert (Hd : Regex.Matches (Regex.Seq (Regex.deriv c0 r1) r2) (s1' ++ s2))
        by (constructor; auto).
      destruct (Regex.nullable r1); [now apply Regex.MAltL | exact Hd].
  - apply Regex.MAltL. now apply IHMatches.
  - apply Regex.MAltR. now apply IHMatches.
  - destruct s1 as [|c1 s1'].
    + simpl in Ecs. now apply IHMatches2.
    + simpl in Ecs. injection Ecs as -> <-.
      constructor; auto.
Qed.

Lemma deriv_Matches (r : Regex.regex) (c : N) (s : jsstring) :
  Regex.Matches (Regex.deriv c r) s -> Regex.Matches r (c :: s).
Proof.
  revert s. induction r; intros s H; simpl in H.
  - inversion H.
  - inversion H.
  - destruct (p c) eqn:Ep; inversion H; subst. now constructor.
  - assert (Hseq : forall t, Regex.Matches (Regex.Seq (Regex.deriv c r1) r2) t ->
                             Regex.Matches (Regex.Seq r1 r2) (c :: t)).
    { intros t Ht. inversion Ht; subst.
      change (c :: s1 ++ s2) with ((c :: s1) ++ s2). constructor; auto. }
    destruct (Regex.nullable r1) eqn:En.
    + inversion H; subst.
      * now apply Hseq.
      * change (c :: s) with ([] ++ c :: s). constructor; auto.
        now apply nullable_Matches.
    + now apply Hseq.
  - inversion H; subst; [apply Regex.MAltL | apply Regex.MAltR]; auto.
  - inversion H; subst.
    change (c :: s1 ++ s2) with ((c :: s1) ++ s2). constructor; auto.
Qed.

Lemma test_Matches (r : Regex.regex) (s : jsstring) :
  Regex.test r s = true <-> Regex.Matches r s.
Proof.
  revert r. induction s as [|c s IH]; intros r; simpl.
  - apply nullable_Matches.
  - rewrite IH. split; [apply deriv_Matches | apply Matches_deriv].
Qed.

Lemma Matches_Class_inv (p : N -> bool) (s : jsstring) :
  Regex.Matches (Regex.Class p) s <-> exists c, s = [c] /\ p c = true.
Proof.
  split.
  - intros H. inversion H; subst. eauto.
  - intros (c & -> & Hc). now constructor.
Qed.

Lemma Matches_Seq_Class (p : N -> bool) (r : Regex.regex) (s : jsstring) :
  Regex.Matches (Regex.Seq (Regex.Class p) r) s <->
  exists c t, s = c :: t /\ p c = true /\ Regex.Matches r t.
Proof.
  split.
  - intros H. inversion H as [| |r1 r2 s1 s2 H1 H2| | | |]; subst.
    apply Matches_Class_inv in H1 as (c & -> & Hc). simpl. eauto.
  - intros (c & t & -> & Hc & Ht).
    change (c :: t) with ([c] ++ t). constructor; [now constructor | exact Ht].
Qed.

Lemma Matches_Opt (r : Regex.regex) (s : jsstring) :
  Regex.Matches (Regex.Opt r) s <-> s = [] \/ Regex.Matches r s.
Proof.
  unfold Regex.Opt. split.
  - intros H. inversion H as [| | |r1 r2 s' H1|r1 r2 s' H1| |]; subst.
    + inversion H1. now left.
    + now right.
  - intros [-> | H]; [apply Regex.MAltL; constructor | now apply Regex.MAltR].
Qed.

Lemma Matches_times (p : N -> bool) (n : nat) (s : jsstring) :
  Regex.Matches (Regex.times n (Regex.Class p)) s <->
  List.length s = n /\ forallb p s = true.
Proof.
  revert s. induction n as [|n IH]; intros s; simpl.
  - split.
    + intros H. inversion H. auto.
    + intros [Hl _]. destruct s; [constructor | discriminate].
  - rewrite Matches_Seq_Class. split.
    + intros (c & t & -> & Hc & Ht). apply IH in Ht as [Hl Hf].
      simpl. rewrite Hc, Hf, Hl. auto.
    + intros [Hl Hf]. destruct s as [|c t]; [discriminate|].
      simpl in Hl, Hf. apply andb_true_iff in Hf as [Hc Hf].
      exists c, t. repeat split; auto. apply IH. split; [lia | exact Hf].
Qed.

Lemma Matches_upto (p : N -> bool) (n : nat) (s : jsstring) :
  Regex.Matches (Regex.upto n (Regex.Class p)) s <->
  List.length s <= n /\ forallb p s = true.
Proof.
  revert s. induction n as [|n IH]; intros s; simpl.
  - split.
    + intros H. inversion H. auto.
    + intros [Hl _]. destruct s; [constructor | simpl in Hl; lia].
  - rewrite Matches_Opt, Matches_Seq_Class. split.
    + intros [-> | (c & t & -> & Hc & Ht)].
      * simpl. split; [lia | reflexivity].
      * apply IH in Ht as [Hl Hf]. simpl. rewrite Hc, Hf. split; [lia | reflexivity].
    + intros [Hl Hf]. destruct s as [|c t]; [now left | right].
      simpl in Hl, Hf. apply andb_true_iff in Hf as [Hc Hf].
      exists c, t. repeat split; auto. apply IH. split; [lia | exact Hf].
Qed.

Lemma Matches_Repeat (p : N -> bool) (lo hi : nat) (s : jsstring) :
  lo <= hi ->
  Regex.Matches (Regex.Repeat lo hi (Regex.Class p)) s <->
  (lo <= List.length s <= hi /\ forallb p s = true).
Proof.
  intros Hle. unfold Regex.Repeat. split.
  - intros H. inversion H as [| |r1 r2 s1 s2 H1 H2| | | |]; subst.
    apply Matches_times in H1 as [Hl1 Hf1].
    apply Matches_upto in H2 as [Hl2 Hf2].
    rewrite length_app, forallb_app, Hf1, Hf2. split; [lia | reflexivity].
  - intros [Hl Hf].
    rewrite <- (firstn_skipn lo s) in Hf |- *.
    rewrite forallb_app in Hf. apply andb_true_iff in Hf as [Hf1 Hf2].
    constructor.
    + apply Matches_times. split; [|exact Hf1].
      rewrite length_firstn. lia.
    + apply Matches_upto. split; [|exact Hf2].
      rewrite length_skipn. lia.
Qed.

(** X1.  The pattern of [makeCall] accepts exactly the international
    format: an optional [+], a digit from 1 to 9, then 8 to 14 digits. *)
Theorem phoneRegex_international_format (s : jsstring) :
  Regex.test phoneRegex s = international_format s.
Proof.
  apply eq_true_iff_eq. rewrite test_Matches. unfold phoneRegex.
  assert (Hbody : forall t,
    Regex.Matches (Regex.Seq (Regex.Class (Regex.in_range 49 57))
                     (Regex.Repeat 8 14 (Regex.Class Regex.is_digit))) t <->
    match t with
    | [] => false
    | d :: rest =>
        Regex.in_range 49 57 d && forallb Regex.is_digit rest
        && (8 <=? List.length rest) && (List.length rest <=? 14)
    end = true).
  { intros t. rewrite Matches_Seq_Class. split.
    - intros (c & u & -> & Hc & Hu).
      apply Matches_Repeat in Hu as [[H8 H14] Hf]; [|lia].
      apply Nat.leb_le in H8, H14. now rewrite Hc, Hf, H8, H14.
    - destruct t as [|d rest]; [discriminate|]. intros H.
      apply andb_true_iff in H as [H H14]. apply andb_true_iff in H as [H H8].
      apply andb_true_iff in H as [Hd Hf].
      apply Nat.leb_le in H8, H14.
      exists d, rest. split; [reflexivity|]. split; [exact Hd|].
      apply Matches_Repeat; [lia|]. auto. }
  unfold international_format. split.
  - intros H. inversion H as [| |r1 r2 s1 s2 H1 H2| | | |]; subst.
    apply Matches_Opt in H1 as [-> | H1].
    + simpl. pose proof H2 as H2'. apply Hbody in H2.
      destruct s2 as [|d rest]; [discriminate|].
      simpl. destruct (N.eqb d 43) eqn:Ed; [|exact H2].
      apply N.eqb_eq in Ed. subst d. simpl in H2. discriminate.
    + apply Matches_Class_inv in H1 as (c & -> & Hc).
      unfold Regex.is_char in Hc. simpl. rewrite Hc. simpl.
      now apply Hbody.
  - destruct (Regex.startsWith_char 43 s) eqn:Ep.
    + destruct s as [|c t]; [discriminate|]. simpl in Ep. simpl.
      intros H. apply Hbody in H.
      change (c :: t) with ([c] ++ t). constructor; [|exact H].
      apply Matches_Opt. right. now constructor.
    + intros H. apply Hbody in H.
      change s with ([] ++ s). constructor; [|exact H].
      apply Matches_Opt. now left.
Qed.

(** ** Running asynchronous computations *)

Lemma bind_ret {A B} (a : A) (k : A -> Async B) (up : Upstream) :
  bind (ret a) k up = k a up.
Proof. unfold bind, ret. now destruct (k a up). Qed.

Lemma bind_throw {A B} (e : jsstring) (k : A -> Async B) (up : Upstream) :
  bind (throw e) k up = ([], Throw e).
Proof. reflexivity. Qed.

Lemma bind_throw_if_true {B} (e : jsstring) (k : unit -> Async B) (up : Upstream) :
  bind (throw_if true e) k up = ([], Throw e).
Proof. reflexivity. Qed.

Lemma bind_throw_if_false {B} (e : jsstring) (k : unit -> Async B) (up : Upstream) :
  bind (throw_if false e) k up = k tt up.
Proof. unfold throw_if. apply bind_ret. Qed.

Lemma bind_send {B} (rq : Request) (k : NetOutcome -> Async B) (up : Upstream) :
  bind (send rq) k up = (leaving up rq ++ fst (k (up rq) up), snd (k (up rq) up)).
Proof. unfold bind, send. now destruct (k (up rq) up). Qed.

(** A request handed to the client leaves, or nothing does. *)
Lemma leaving_cases (up : Upstream) (rq : Request) :
  (exists e, up rq = ClientError e /\ leaving up rq = [])
  \/ ((forall e, up rq <> ClientError e) /\ leaving up rq = [rq]).
Proof.
  unfold leaving. destruct (up rq) as [e|statusCode body|e].
  - right. split; [discriminate | reflexivity].
  - right. split; [discriminate | reflexivity].
  - left. now exists e.
Qed.

Lemma Forall_leaving (P : Request -> Prop) (up : Upstream) (rq : Request) :
  P rq -> Forall P (leaving up rq).
Proof.
  intros HP. destruct (leaving_cases up rq) as [(e & _ & ->) | [_ ->]]; auto.
Qed.

Lemma length_leaving (up : Upstream) (rq : Request) : List.length (leaving up rq) <= 1.
Proof.
  destruct (leaving_cases up rq) as [(e & _ & ->) | [_ ->]]; simpl; lia.
Qed.


Lemma bind_settle {A B} (r : result A) (k : A -> Async B) (up : Upstream) :
  bind (settle r) k up =
  match r with
  | Ok a => k a up
  | Throw e => ([], Throw e)
  end.
Proof. unfold bind, settle. destruct r; [now destruct (k a up) | reflexivity]. Qed.

Lemma bind_assoc {A B C} (m : Async A) (k : A -> Async B) (h : B -> Async C)
  (up : Upstream) :
  bind (bind m k) h up = bind m (fun a => bind (k a) h) up.
Proof.
  unfold bind. destruct (m up) as [t1 [a|e]]; [|reflexivity].
  destruct (k a up) as [t2 [b|e]]; [|reflexivity].
  destruct (h b up) as [t3 r]. now rewrite app_assoc.
Qed.

Create Rewrite HintDb async.
#[local] Hint Rewrite @bind_ret @bind_throw @bind_throw_if_true @bind_throw_if_false
  @bind_send @bind_settle : async.

(** What [makeRequest] does in each revision: one request handed to the
    client, settled by the [end] or [error] handler or by the client's
    refusal. *)
Lemma Server_makeRequest_run `{Runtime} (opts : Options) (data : Value) (up : Upstream) :
  let rq := {| options := opts; written := if truthy data then Some data else None |} in
  Server.makeRequest opts data up = (leaving up rq, Server.settle_request (up rq)).
Proof.
  unfold Server.makeRequest, bind, send, settle. simpl. now rewrite app_nil_r.
Qed.

Lemma Part1_makeRequest_run `{Runtime} (opts : Options) (data : Value) (up : Upstream) :
  let rq := {| options := opts; written := if truthy data then Some data else None |} in
  Part1.makeRequest opts data up = (leaving up rq, Part1.settle_request (up rq)).
Proof.
  unfold Part1.makeRequest, bind, send, settle. simpl. now rewrite app_nil_r.
Qed.

Lemma Part2_makeRequest_run `{Runtime} (opts : Options) (data : Value) (up : Upstream) :
  let rq := {| options := {| hostname := Part2.URL_hostname Part2.baseUrl;
                             path := path opts;
                             method := method opts;
                             headers := headers opts |};
               written := if truthy data then Some data else None |} in
  Part2.makeRequest opts data up = (leaving up rq, Part2.settle_request (up rq)).
Proof.
  unfold Part2.makeRequest, bind, send, settle. simpl. now rewrite app_nil_r.
Qed.

(** ** Initialisation guards *)

(** C4, as amended.  In the two revisions that guard their operations
    ([Part1], [Part2]), every gateway operation of an uninitialised
    service fails with the not-initialised error and sends nothing.  The
    operations of [server/vapi_integration.js] never read the flag: they
    behave the same whatever its value. *)
Theorem C4_uninitialized_operations :
  forall (rt : Runtime) (s : VapiService) (up : Upstream) (a b : Value),
    initialized s = false ->
    (fails_before_network (Part1.getAssistant s) up msg_not_initialized
     /\ fails_before_network (Part1.makeCall s a b) up msg_not_initialized
     /\ fails_before_network (Part1.createWebCall s a) up msg_not_initialized
     /\ fails_before_network (Part1.getCalls s a) up msg_not_initialized
     /\ fails_before_network (Part1.getCall s a) up msg_not_initialized
     /\ fails_before_network (Part1.endCall s a) up msg_not_initialized
     /\ fails_before_network (Part1.updateAssistant s a) up msg_not_initialized)
    /\ (fails_before_network (Part2.getAssistant s) up msg_not_initialized
        /\ fails_before_network (Part2.makeCall s a b) up msg_not_initialized
        /\ fails_before_network (Part2.createWebCall s a b) up msg_not_initialized
        /\ fails_before_network (Part2.getCalls s a) up msg_not_initialized
        /\ fails_before_network (Part2.getCall s a) up msg_not_initialized
        /\ fails_before_network (Part2.endCall s a) up msg_not_initialized
        /\ fails_before_network (Part2.updateAssistant s a) up msg_not_initialized)
    /\ (forall flag : bool,
          Server.getAssistant (set_initialized flag s) = Server.getAssistant s
          /\ Server.makeCall (set_initialized flag s) a b = Server.makeCall s a b
          /\ Server.createWebCall (set_initialized flag s) a = Server.createWebCall s a
          /\ Server.getCalls (set_initialized flag s) a = Server.getCalls s a
          /\ Server.getCall (set_initialized flag s) a = Server.getCall s a
          /\ Server.endCall (set_initialized flag s) a = Server.endCall s a
          /\ Server.updateAssistant (set_initialized flag s) a
             = Server.updateAssistant s a).
Proof.
  intros rt s up a b Hinit.
  unfold fails_before_network.
  split; [|split].
  - unfold Part1.getAssistant, Part1.makeCall, Part1.createWebCall, Part1.getCalls,
      Part1.getCall, Part1.endCall, Part1.updateAssistant.
    rewrite Hinit. simpl negb. repeat split; apply bind_throw_if_true.
  - unfold Part2.getAssistant, Part2.makeCall, Part2.createWebCall, Part2.getCalls,
      Part2.getCall, Part2.endCall, Part2.updateAssistant.
    rewrite Hinit. simpl negb. repeat split; apply bind_throw_if_true.
  - intros flag. repeat split.
Qed.

(** The guard of C4 at work: a service built from an empty environment
    in the guarded revision. *)
Lemma C4_uninitialized_witness :
  initialized (Part1.new Sample.empty_env) = false
  /\ fails_before_network
       (@Part1.getCalls Sample.runtime (Part1.new Sample.empty_env) VUndefined)
       Sample.unreachable msg_not_initialized.
Proof.
  split; [reflexivity|].
  exact (proj1 (proj2 (proj2 (proj2 (proj1
    (C4_uninitialized_operations Sample.runtime (Part1.new Sample.empty_env)
       Sample.unreachable VUndefined VUndefined eq_refl)))))).
Defined.

(** C4 as stated fails on [server/vapi_integration.js]: a destroyed
    service is uninitialised, and [getCalls] still sends its request. *)
Lemma C4_server_reaches_network :
  initialized (Server.destroy (Server.new Sample.env)) = false
  /\ sent (@Server.getCalls Sample.runtime (Server.destroy (Server.new Sample.env))
             VUndefined) Sample.unreachable
     = [ {| options :=
              {| hostname := js "api.vapi.ai";
                 path := js "/call?limit=100";
                 method := js "GET";
                 headers := [ (js "Authorization", js "Bearer private-key-1");
                              (js "Content-Type", js "application/json") ] |};
            written := None |} ].
Proof. split; reflexivity. Qed.

(** ** The health check *)

Ltac health_contract_tac healthCheck getAssistant :=
  unfold health_contract, outcome, sent, healthCheck, try_catch;
  match goal with
  | |- context [initialized ?s] => destruct (initialized s)
  end; simpl;
  [ unfold bind;
    match goal with
    | |- context [getAssistant ?s ?up] => destruct (getAssistant s up) as [tr [a|e]]
    end; simpl;
    (split; [eexists; reflexivity|]);
    (split; [discriminate|]);
    intros _; rewrite ?app_nil_r; (split; [reflexivity|]);
    eexists; (split; [reflexivity|]); repeat split
  | (split; [eexists; reflexivity|]);
    (split; [|discriminate]);
    intros _; eexists; split; reflexivity ].

(** C5, as amended.  In every revision the health check resolves and
    never throws: without initialisation it sends nothing and reports
    [not_configured] ([Part1], [Part2]) or [initializing]
    ([server/vapi_integration.js]); with it, it sends what [getAssistant]
    sends and reports [healthy], with the assistant id and name, exactly
    when [getAssistant] succeeds, and [error] with the failure's message
    otherwise. *)
Theorem C5_healthCheck_contract :
  forall (rt : Runtime) (s : VapiService) (up : Upstream),
    health_contract (js "not_configured") s
      (Part1.healthCheck s) (Part1.getAssistant s) up
    /\ health_contract (js "not_configured") s
         (Part2.healthCheck s) (Part2.getAssistant s) up
    /\ health_contract (js "initializing") s
         (Server.healthCheck s) (Server.getAssistant s) up.
Proof.
  intros rt s up. split; [|split].
  - health_contract_tac (@Part1.healthCheck) (@Part1.getAssistant rt).
  - health_contract_tac (@Part2.healthCheck) (@Part2.getAssistant rt).
  - health_contract_tac (@Server.healthCheck) (@Server.getAssistant rt).
Qed.

(** C5 as stated fails on [server/vapi_integration.js]: an unconfigured
    service reports [initializing], not [not_configured]. *)
Lemma C5_server_reports_initializing :
  @Server.healthCheck Sample.runtime (Server.new Sample.empty_env) Sample.unreachable
  = ([], Ok (VObj [ (js "status", VStr (js "initializing")) ]))
  /\ js "initializing" <> js "not_configured".
Proof. split; [reflexivity | discriminate]. Qed.

(** ** The transport client *)

Lemma JSON_parse_nonempty `{Runtime} (body : jsstring) (payload : Value) :
  JSON_parse body = inl payload -> body <> [].
Proof.
  intros Hp ->. destruct JSON_parse_empty as [m Hm]. congruence.
Qed.

Ltac classifies_tac on_end :=
  intros statusCode body; unfold on_end, read_prop, interpolate, error_detail;
  repeat split; intros;
  try match goal with
      | Hp : JSON_parse _ = inl _ |- _ => pose proof (JSON_parse_nonempty Hp)
      end;
  (destruct body as [|c body']; [congruence|]);
  repeat match goal with
         | Hr : _ = _ |- _ => rewrite Hr
         end;
  reflexivity.

Lemma error_detail_text : detail_is_message_or_body.
Proof.
  intros props body. unfold error_detail, or_else, get_prop. split.
  - intros m -> Hm. destruct m; [congruence | reflexivity].
  - intros ->. reflexivity.
Qed.

(** C6, as amended.  Every revision classifies a non-empty body as
    [classifies] says: the failure of a status outside 2xx carries the
    status code and the payload's message or else the raw body, unless the
    payload is [null] or the message cannot be converted to a string, in
    which case it is a parse failure without the status code, as for a
    body that does not parse.  A connection failure is a failure of its
    own kind.  The last revision ([Part2]) resolves an empty body to the
    empty object on a 2xx status and to a failure carrying the status code
    on any other; the two others hand the empty body to [JSON.parse] and
    report a parse failure. *)
Theorem C6_response_classification :
  forall (rt : Runtime),
    (classifies Part2.on_end /\ classifies Part1.on_end /\ classifies Server.on_end)
    /\ detail_is_message_or_body
    /\ (forall statusCode,
          Part2.on_end statusCode []
          = if is_2xx statusCode then Ok (VObj [])
            else Throw (js "API Error: " ++ N_toString statusCode))
    /\ (forall statusCode,
          exists e, Part1.on_end statusCode [] = Throw (js "Parse Error: " ++ e)
                    /\ Server.on_end statusCode [] = Throw (js "Parse Error: " ++ e))
    /\ (forall e,
          Part2.settle_request (NetError e) = Throw (js "Request Error: " ++ e)
          /\ Part1.settle_request (NetError e) = Throw (js "Request Error: " ++ e)
          /\ Server.settle_request (NetError e) = Throw (js "Request Error: " ++ e)).
Proof.
  intros rt. split; [split; [|split]|split; [|split; [|split]]].
  - classifies_tac (@Part2.on_end).
  - classifies_tac (@Part1.on_end).
  - classifies_tac (@Server.on_end).
  - apply error_detail_text.
  - reflexivity.
  - intros statusCode. destruct JSON_parse_empty as [m Hm]. exists m.
    unfold Part1.on_end, Server.on_end. rewrite Hm. split; reflexivity.
  - intros e. repeat split.
Qed.

(** The classification of C6 at work: a 404 whose body [{}] has no
    message. *)
Lemma C6_api_error_witness :
  @Part2.on_end Sample.runtime 404 (js "{}") = Throw (js "API Error: 404 - {}").
Proof.
  exact (proj1 (proj2 (proj1 (proj1 (C6_response_classification Sample.runtime))
                         404%N (js "{}")))
           (VObj []) (js "{}") eq_refl eq_refl eq_refl eq_refl).
Defined.

(** C6 as stated fails in every revision: a 502 whose body is [null], or
    whose body is an object with a message that has no text, is reported
    as a parse failure that does not carry the status code; and in
    [server/vapi_integration.js] an empty body on a 200 is a parse
    failure, not an empty object. *)
Lemma C6_status_code_lost :
  is_2xx 502 = false
  /\ @Part2.on_end Sample.runtime 502 (js "null")
     = Throw (js "Parse Error: Cannot read properties of null (reading 'message')")
  /\ @Server.on_end Sample.runtime 502 (js "null")
     = Throw (js "Parse Error: Cannot read properties of null (reading 'message')")
  /\ @Part2.on_end Sample.runtime 502 Sample.message_with_toString
     = Throw (js "Parse Error: Cannot convert object to primitive value")
  /\ is_2xx 200 = true
  /\ @Server.on_end Sample.runtime 200 []
     = Throw (js "Parse Error: Unexpected end of JSON input").
Proof. repeat split. Qed.

(** ** The order of the routes *)

(** Once an error is pending, routes are passed over. *)
Lemma run_pending_routes (d : jsstring -> bool) (method path : jsstring)
  (stack : list Router.Layer) :
  Forall (fun layer =>
            match layer with
            | Router.Route _ _ _ => True
            | _ => False
            end) stack ->
  Router.run d method path true stack = None.
Proof.
  induction 1 as [|layer stack Hl _ IH]; [reflexivity|].
  destruct layer as [verb pattern handler| |]; try contradiction.
  simpl. now destruct (Router.match_path d pattern path).
Qed.

(** In a stack in which routes are followed by the error middleware and
    the middleware on ['*'], and these by routes only, a request is
    answered by one of the former, or by none at all: no route registered
    further down is reached.  A path that can be decoded is answered. *)
Lemma run_stops_at_catch_all (d : jsstring -> bool) (method path : jsstring)
  (routes rest : list Router.Layer) (on_error catch_all : Router.Handler)
  (P : Router.Handler -> Prop) :
  Forall (fun layer =>
            match layer with
            | Router.Route _ _ handler => P handler
            | _ => False
            end) routes ->
  Forall (fun layer =>
            match layer with
            | Router.Route _ _ _ => True
            | _ => False
            end) rest ->
  P on_error -> P catch_all ->
  forall pending,
    (exists handler,
        Router.run d method path pending
          (routes ++ Router.OnError on_error :: Router.UseAll catch_all :: rest)
        = Some handler
        /\ P handler)
    \/ (Router.run d method path pending
          (routes ++ Router.OnError on_error :: Router.UseAll catch_all :: rest)
        = None
        /\ d path = false).
Proof.
  intros Hroutes Hrest He Hc.
  induction Hroutes as [|layer routes Hl _ IH]; intros pending.
  - simpl. destruct pending; [eauto|].
    destruct (d path); [eauto|]. right. now rewrite run_pending_routes.
  - destruct layer as [verb pattern handler| |]; try contradiction.
    simpl. destruct (Router.match_path d pattern path).
    + apply IH.
    + destruct (negb pending && Router.handles verb method); [eauto | apply IH].
    + apply IH.
Qed.

Lemma run_before_webhook (method path : jsstring) (pending : bool) :
  (exists handler,
      Router.run Router.decodes method path pending Router.layers = Some handler
      /\ handler <> Router.Webhook)
  \/ (Router.run Router.decodes method path pending Router.layers = None
      /\ Router.decodes path = false).
Proof.
  unfold Router.layers.
  match goal with
  | |- context [Router.run _ _ _ _ (?l1 :: ?l2 :: ?l3 :: ?l4 :: ?l5 :: ?l6 :: ?l7 :: ?l8
                                      :: ?l9 :: ?l10 :: ?l11 :: ?rest)] =>
      change (l1 :: l2 :: l3 :: l4 :: l5 :: l6 :: l7 :: l8 :: l9 :: l10 :: l11 :: rest)
        with ([l1; l2; l3; l4; l5; l6; l7; l8; l9; l10; l11] ++ rest)
  end.
  apply run_stops_at_catch_all with (P := fun handler => handler <> Router.Webhook);
    [repeat constructor; discriminate | repeat constructor | discriminate | discriminate].
Qed.

(** Whether an error is pending or not when the request comes to the
    routes, the webhook handler does not get it. *)
Lemma webhook_never_run (method path : jsstring) (pending : bool) :
  Router.run Router.decodes method path pending Router.layers <> Some Router.Webhook.
Proof.
  destruct (run_before_webhook method path pending) as [(handler & -> & Hne) | [-> _]];
    [|discriminate].
  intros E. apply Hne. now injection E.
Qed.

Lemma webhook_never_dispatched (method path : jsstring) :
  Router.dispatch method path <> Some Router.Webhook.
Proof. apply webhook_never_run. Qed.

Lemma decodable_path_answered (method path : jsstring) :
  Router.decodes path = true ->
  exists handler, Router.dispatch method path = Some handler.
Proof.
  intros Hd.
  destruct (run_before_webhook method path false) as [(handler & E & _) | [_ E]];
    [eauto|].
  rewrite Hd in E. discriminate.
Qed.

(** A text without [%] is decoded to itself. *)
Lemma decodeURIComponent_unescaped (text : jsstring) :
  forallb (fun c => negb (N.eqb c 37)) text = true ->
  decodeURIComponent text = Some text.
Proof.
  induction text as [|c text IH]; [reflexivity|].
  simpl forallb. intros H. apply andb_true_iff in H as [Hc Ht].
  cbn [decodeURIComponent]. rewrite Hc, (IH Ht). reflexivity.
Qed.

Lemma decodes_unescaped (text : jsstring) :
  forallb (fun c => negb (N.eqb c 37)) text = true -> Router.decodes text = true.
Proof.
  intros H. unfold Router.decodes. now rewrite decodeURIComponent_unescaped.
Qed.

Lemma webhook_path_not_found :
  Router.dispatch (js "POST") (js "/api/vapi/webhook") = Some Router.NotFound.
Proof. reflexivity. Qed.

Lemma split_prefix (sep : N) (p rest : jsstring) :
  forallb (fun c => negb (N.eqb c sep)) p = true ->
  Router.split sep (p ++ sep :: rest) = p :: Router.split sep rest.
Proof.
  induction p as [|c p IH]; simpl.
  - intros _. now rewrite N.eqb_refl.
  - intros H. apply andb_true_iff in H as [Hc Hp]. apply negb_true_iff in Hc.
    rewrite Hc, (IH Hp). reflexivity.
Qed.

Lemma split_whole (sep : N) (p : jsstring) :
  forallb (fun c => negb (N.eqb c sep)) p = true -> Router.split sep p = [p].
Proof.
  induction p as [|c p IH]; simpl; [reflexivity|].
  intros H. apply andb_true_iff in H as [Hc Hp]. apply negb_true_iff in Hc.
  rewrite Hc, (IH Hp). reflexivity.
Qed.

Lemma segments_call (callId : jsstring) :
  forallb (fun c => negb (N.eqb c 47)) callId = true ->
  Router.segments (js "/api/vapi/calls/" ++ callId)
  = Some [js "api"; js "vapi"; js "calls"; callId].
Proof.
  intros H. unfold Router.segments.
  change (js "/api/vapi/calls/" ++ callId)
    with ([] ++ 47%N :: (js "api" ++ 47%N :: (js "vapi" ++ 47%N
            :: (js "calls" ++ 47%N :: callId)))).
  do 4 rewrite split_prefix by reflexivity. now rewrite (split_whole _ _ H).
Qed.

Lemma segments_transcript (callId : jsstring) :
  forallb (fun c => negb (N.eqb c 47)) callId = true ->
  Router.segments (js "/api/vapi/calls/" ++ callId ++ js "/transcript")
  = Some [js "api"; js "vapi"; js "calls"; callId; js "transcript"].
Proof.
  intros H. unfold Router.segments.
  change (js "/api/vapi/calls/" ++ callId ++ js "/transcript")
    with ([] ++ 47%N :: (js "api" ++ 47%N :: (js "vapi" ++ 47%N
            :: (js "calls" ++ 47%N :: (callId ++ 47%N :: js "transcript"))))).
  do 4 rewrite split_prefix by reflexivity.
  rewrite split_prefix by assumption. reflexivity.
Qed.

Lemma run_by_segments (d : jsstring -> bool) (method path : jsstring)
  (parts : list jsstring) (stack : list Router.Layer) :
  Router.segments path = Some parts ->
  forall pending,
    Router.run d method path pending stack
    = Router.run_on_segments d method path parts pending stack.
Proof.
  intros Hs. induction stack as [|layer rest IH]; intros pending; [reflexivity|].
  destruct layer as [verb pattern handler|handler|handler]; simpl.
  - unfold Router.match_path. rewrite Hs, !IH. reflexivity.
  - now rewrite IH.
  - now rewrite !IH.
Qed.

(** The routes with a call id, for any way of decoding. *)
Lemma call_route_reached (d : jsstring -> bool) (c : N) (rest : jsstring) :
  Router.segments (js "/api/vapi/calls/" ++ c :: rest)
  = Some [js "api"; js "vapi"; js "calls"; c :: rest] ->
  d (c :: rest) = true ->
  Router.run d (js "GET") (js "/api/vapi/calls/" ++ c :: rest) false Router.layers
  = Some Router.CallById.
Proof.
  intros Hs Hd. rewrite (@run_by_segments _ _ _ _ _ Hs).
  generalize (js "/api/vapi/calls/" ++ c :: rest). intros whole.
  vm_compute. rewrite Hd. reflexivity.
Qed.

Lemma end_call_route_reached (d : jsstring -> bool) (c : N) (rest : jsstring) :
  Router.segments (js "/api/vapi/calls/" ++ c :: rest)
  = Some [js "api"; js "vapi"; js "calls"; c :: rest] ->
  d (c :: rest) = true ->
  Router.run d (js "DELETE") (js "/api/vapi/calls/" ++ c :: rest) false Router.layers
  = Some Router.EndCall.
Proof.
  intros Hs Hd. rewrite (@run_by_segments _ _ _ _ _ Hs).
  generalize (js "/api/vapi/calls/" ++ c :: rest). intros whole.
  vm_compute. rewrite Hd. reflexivity.
Qed.

Lemma transcript_route_reached (d : jsstring -> bool) (c : N) (rest : jsstring) :
  Router.segments (js "/api/vapi/calls/" ++ (c :: rest) ++ js "/transcript")
  = Some [js "api"; js "vapi"; js "calls"; c :: rest; js "transcript"] ->
  d (c :: rest) = true ->
  Router.run d (js "GET") (js "/api/vapi/calls/" ++ (c :: rest) ++ js "/transcript")
    false Router.layers
  = Some Router.Transcript.
Proof.
  intros Hs Hd. rewrite (@run_by_segments _ _ _ _ _ Hs).
  generalize (js "/api/vapi/calls/" ++ (c :: rest) ++ js "/transcript"). intros whole.
  vm_compute. rewrite Hd. reflexivity.
Qed.

(** The routes with a call id are reached by every call id that is one
    segment and can be decoded. *)
Lemma call_routes_reached (callId : jsstring) :
  callId <> [] -> forallb (fun c => negb (N.eqb c 47)) callId = true ->
  Router.decodes callId = true ->
  Router.dispatch (js "GET") (js "/api/vapi/calls/" ++ callId)
  = Some Router.CallById
  /\ Router.dispatch (js "DELETE") (js "/api/vapi/calls/" ++ callId)
     = Some Router.EndCall
  /\ Router.dispatch (js "GET") (js "/api/vapi/calls/" ++ callId ++ js "/transcript")
     = Some Router.Transcript.
Proof.
  intros Hne Hslash Hdec.
  pose proof (segments_call _ Hslash) as Hcall.
  pose proof (segments_transcript _ Hslash) as Htr.
  destruct callId as [|c rest]; [now elim Hne|].
  unfold Router.dispatch. split; [|split].
  - now apply call_route_reached.
  - now apply end_call_route_reached.
  - now apply transcript_route_reached.
Qed.

(** X17.  Whatever its method and its path, and whether or not the
    middleware before the routes has raised an error, a request is taken
    by a handler that is registered before the webhook route, or, when its
    path cannot be decoded, possibly by none of the stack: the webhook
    handler is never run.  A path without [%] can be decoded.  A [POST] of the
    webhook path is answered by the middleware on ['*'], with 404, whereas
    the path of every other route, with the method of the route, reaches
    the handler of that route; a call id that cannot be decoded goes to
    the error middleware. *)
Theorem webhook_route_is_shadowed :
  (forall method path pending,
      Router.run Router.decodes method path pending Router.layers
      <> Some Router.Webhook)
  /\ (forall method path,
        Router.decodes path = true ->
        exists handler, Router.dispatch method path = Some handler)
  /\ (forall text,
        forallb (fun c => negb (N.eqb c 37)) text = true -> Router.decodes text = true)
  /\ Router.dispatch (js "POST") (js "/api/vapi/webhook") = Some Router.NotFound
  /\ App.status Router.route_not_found = 404%N
  /\ map (fun request => Router.dispatch (js (fst request)) (js (snd request)))
       [ ("GET", "/api/health"); ("POST", "/api/search");
         ("GET", "/api/vapi/assistant"); ("POST", "/api/vapi/call/phone");
         ("POST", "/api/vapi/call"); ("GET", "/api/vapi/calls");
         ("GET", "/api/vapi/config"); ("GET", "/") ]%string
     = map Some
         [ Router.Health; Router.Search; Router.Assistant; Router.PhoneCall;
           Router.WebCall; Router.Calls; Router.Config; Router.Index ]
  /\ (forall callId,
        callId <> [] -> forallb (fun c => negb (N.eqb c 47)) callId = true ->
        Router.decodes callId = true ->
        Router.dispatch (js "GET") (js "/api/vapi/calls/" ++ callId)
        = Some Router.CallById
        /\ Router.dispatch (js "DELETE") (js "/api/vapi/calls/" ++ callId)
           = Some Router.EndCall
        /\ Router.dispatch (js "GET")
             (js "/api/vapi/calls/" ++ callId ++ js "/transcript")
           = Some Router.Transcript)
  /\ Router.dispatch (js "GET") (js "/api/vapi/calls/%") = Some Router.ErrorMiddleware
  /\ Router.dispatch (js "GET") (js "/%") = None.
Proof.
  split; [|split; [|split; [|split; [|split; [|split; [|split; [|split]]]]]]].
  - apply webhook_never_run.
  - intros method path. apply decodable_path_answered.
  - apply decodes_unescaped.
  - reflexivity.
  - reflexivity.
  - reflexivity.
  - apply call_routes_reached.
  - reflexivity.
  - reflexivity.
Qed.

(** ** The webhook handler *)

Lemma event_type (type data : Value) : get_prop (event type data) (js "type") = type.
Proof. reflexivity. Qed.

Lemma event_data (type data : Value) : get_prop (event type data) (js "data") = data.
Proof. reflexivity. Qed.

Lemma well_formed_event (type data : Value) :
  well_formed (event type data) = truthy type && truthy data.
Proof. reflexivity. Qed.

(** The answer of the handler to a body that can be destructured. *)
Lemma webhook_answer `{Runtime} (body : Value) :
  nullish body = false ->
  snd (App.webhook body)
  = if well_formed body then
      match App.observe (get_prop body (js "type")) (get_prop body (js "data")) with
      | inl _ => acknowledged
      | inr message => acknowledged_with_error message
      end
    else rejected.
Proof.
  intros Hn. unfold App.webhook, well_formed. rewrite Hn.
  destruct (truthy (get_prop body (js "type")));
    destruct (truthy (get_prop body (js "data"))); try reflexivity.
  simpl. now destruct (App.observe _ _).
Qed.

Lemma is_string_other (t lit : jsstring) : t <> lit -> App.is_string (VStr t) lit = false.
Proof. intros H. simpl. now apply jsstring_eqb_neq. Qed.

Lemma interpolate_text `{Runtime} (v : Value) :
  has_text v = true -> exists text, interpolate v = inl text.
Proof.
  unfold has_text, interpolate. destruct (ToString v); [eauto | discriminate].
Qed.

Lemma interpolate_no_text `{Runtime} (v : Value) :
  has_text v = false -> interpolate v = inr (TypeError_to_primitive v).
Proof.
  unfold has_text, interpolate. now destruct (ToString v).
Qed.

(** The lines of the handler raise only through the call id and the
    status of the data. *)
Lemma observe_with_text `{Runtime} (type data : Value) :
  has_text (get_prop data (js "callId")) = true ->
  has_text (get_prop data (js "status")) = true ->
  exists lines, App.observe type data = inl lines.
Proof.
  intros Hc Hs.
  destruct (interpolate_text _ Hc) as [c Ec]. destruct (interpolate_text _ Hs) as [t Et].
  unfold App.observe. rewrite Ec, Et.
  repeat match goal with
         | |- context [if ?b then _ else _] => destruct b
         end; eauto.
Qed.

Lemma observe_logged `{Runtime} (type : jsstring) (data : Value) :
  In type logged_types -> exists lines, App.observe (VStr type) data = inl lines.
Proof.
  unfold logged_types. simpl.
  intros [<- | [<- | [<- | []]]]; eexists; reflexivity.
Qed.

Lemma observe_unknown `{Runtime} (type : jsstring) (data : Value) :
  ~ In type recognized_types ->
  App.observe (VStr type) data
  = inl [ App.Log [ VStr (js "Unhandled webhook type:"); VStr type; data ] ].
Proof.
  intros Hout. unfold App.observe.
  unfold recognized_types, identified_types, logged_types in Hout. simpl in Hout.
  rewrite !is_string_other by (intros ->; apply Hout; tauto).
  reflexivity.
Qed.

Lemma observe_raises `{Runtime} (type : jsstring) (data : Value) :
  In type identified_types ->
  truthy (get_prop data (js "callId")) = true ->
  (type = js "transcript" -> truthy (get_prop data (js "transcript")) = true) ->
  has_text (get_prop data (js "callId")) = false ->
  App.observe (VStr type) data
  = inr (TypeError_to_primitive (get_prop data (js "callId"))).
Proof.
  intros Hin Hc Ht Hno. apply interpolate_no_text in Hno.
  unfold identified_types in Hin. simpl in Hin.
  destruct Hin as [<- | [<- | [<- | []]]]; unfold App.observe; simpl App.is_string;
    cbv iota; rewrite Hc, Hno; try reflexivity.
  rewrite (Ht eq_refl). reflexivity.
Qed.

(** C7, as amended.  The handler function, on any request body.  A body
    that cannot be destructured ([null] or [undefined]) makes it raise,
    and it still answers 200, with the error detail.  Any other body is
    rejected with 400 exactly when its [type] or its [data] is falsy
    (which includes missing); otherwise the answer is 200: the plain
    acknowledgement, or, when a log line raises, the error detail.  A log
    line raises only through a call id or a status that cannot be
    converted to a string; the three types that log the data as it is,
    and every type without a case of its own, are always acknowledged. *)
Theorem C7_webhook_responses :
  forall (rt : Runtime) (body : Value),
    (nullish body = true ->
     snd (App.webhook body)
     = acknowledged_with_error (TypeError_destructure body (js "type")))
    /\ (nullish body = false -> well_formed body = false ->
        snd (App.webhook body) = rejected)
    /\ (nullish body = false -> well_formed body = true ->
        snd (App.webhook body) = acknowledged
        \/ exists detail, snd (App.webhook body) = acknowledged_with_error detail)
    /\ App.status (snd (App.webhook body))
       = (if nullish body || well_formed body then 200%N else 400%N)
    /\ (forall type data,
          In type recognized_types -> truthy data = true ->
          App.status (snd (App.webhook (event (VStr type) data))) = 200%N)
    /\ (forall type data,
          truthy type = true -> truthy data = true ->
          has_text (get_prop data (js "callId")) = true ->
          has_text (get_prop data (js "status")) = true ->
          snd (App.webhook (event type data)) = acknowledged)
    /\ (forall type data,
          In type logged_types -> truthy data = true ->
          snd (App.webhook (event (VStr type) data)) = acknowledged)
    /\ (forall type data,
          In type identified_types -> truthy data = true ->
          truthy (get_prop data (js "callId")) = true ->
          (type = js "transcript" -> truthy (get_prop data (js "transcript")) = true) ->
          has_text (get_prop data (js "callId")) = false ->
          snd (App.webhook (event (VStr type) data))
          = acknowledged_with_error
              (TypeError_to_primitive (get_prop data (js "callId"))))
    /\ (forall type data,
          ~ In type recognized_types -> type <> [] -> truthy data = true ->
          App.webhook (event (VStr type) data)
          = ( [ App.Log [ VStr (js "Received webhook:"); VStr type; data ];
                App.Log [ VStr (js "Unhandled webhook type:"); VStr type; data ] ],
              acknowledged )).
Proof.
  intros rt body.
  split; [|split; [|split; [|split; [|split; [|split; [|split; [|split]]]]]]].
  - intros Hn. unfold App.webhook. now rewrite Hn.
  - intros Hn Hw. now rewrite webhook_answer, Hw.
  - intros Hn Hw. rewrite webhook_answer, Hw by assumption.
    destruct (App.observe _ _); eauto.
  - destruct (nullish body) eqn:Hn.
    + unfold App.webhook. now rewrite Hn.
    + rewrite webhook_answer by assumption. simpl orb.
      destruct (well_formed body); [|reflexivity].
      now destruct (App.observe _ _).
  - intros type data Hin Hd.
    assert (Ht : truthy (VStr type) = true).
    { unfold recognized_types, identified_types, logged_types in Hin. simpl in Hin.
      repeat (destruct Hin as [<- | Hin]; [reflexivity|]). contradiction. }
    rewrite webhook_answer by reflexivity.
    rewrite well_formed_event, Ht, Hd. simpl andb. cbv iota.
    now destruct (App.observe _ _).
  - intros type data Ht Hd Hc Hs.
    rewrite webhook_answer by reflexivity.
    rewrite well_formed_event, event_type, event_data, Ht, Hd.
    destruct (@observe_with_text rt type data Hc Hs) as [lines ->]. reflexivity.
  - intros type data Hin Hd.
    assert (Ht : truthy (VStr type) = true).
    { unfold logged_types in Hin. simpl in Hin.
      destruct Hin as [<- | [<- | [<- | []]]]; reflexivity. }
    rewrite webhook_answer by reflexivity.
    rewrite well_formed_event, event_type, event_data, Ht, Hd.
    destruct (@observe_logged rt type data Hin) as [lines ->]. reflexivity.
  - intros type data Hin Hd Hc Htr Hno.
    assert (Ht : truthy (VStr type) = true).
    { unfold identified_types in Hin. simpl in Hin.
      destruct Hin as [<- | [<- | [<- | []]]]; reflexivity. }
    rewrite webhook_answer by reflexivity.
    rewrite well_formed_event, event_type, event_data, Ht, Hd.
    now rewrite (@observe_raises rt type data Hin Hc Htr Hno).
  - intros type data Hout Hne Hd.
    unfold App.webhook. simpl nullish. cbv iota.
    rewrite event_type, event_data, Hd.
    assert (Ht : truthy (VStr type) = true) by (destruct type; [congruence | reflexivity]).
    rewrite Ht. simpl negb. simpl orb. cbv iota.
    now rewrite (@observe_unknown rt type data Hout).
Qed.

(** The acknowledgement of C7 at work: a transcript event. *)
Lemma C7_recognized_type_witness :
  snd (@App.webhook Sample.runtime (event (VStr (js "transcript")) (VObj [])))
  = acknowledged.
Proof.
  apply (proj1 (proj2 (proj2 (proj2 (proj2 (proj2
           (C7_webhook_responses Sample.runtime VNull)))))));
    reflexivity.
Defined.

(** C7 as stated fails: a payload whose [type] is present and empty is
    rejected by the handler with 400 although neither field is missing.
    (A request for the webhook path is not answered with 200 either: it is
    taken by the middleware on ['*'], which answers 404.) *)
Lemma C7_present_empty_type_rejected :
  lookup (js "type") [ (js "type", VStr []); (js "data", VObj []) ] = Some (VStr [])
  /\ lookup (js "data") [ (js "type", VStr []); (js "data", VObj []) ] = Some (VObj [])
  /\ App.status (snd (@App.webhook Sample.runtime (event (VStr []) (VObj [])))) = 400%N
  /\ Router.dispatch (js "POST") (js "/api/vapi/webhook") = Some Router.NotFound
  /\ App.status Router.route_not_found = 404%N.
Proof. repeat split. Qed.

(** C10.  The handler function does what the claim says: its check is a
    truthiness test, so that an object payload is rejected with 400
    exactly when its [type] or its [data] is falsy (the empty string, 0,
    [false], [null]) or absent, as is an array; the empty object is a
    truthy [data].  But the program registers the route after the
    middleware on ['*']: no request is ever handed to the handler, and a
    [POST] of the webhook path is answered by that middleware, with 404,
    whereas a route registered before it, such as the web-call route, is
    reached. *)
Theorem C10_webhook_check_never_runs :
  forall (rt : Runtime) (props : list (jsstring * Value)) (type data : Value),
    (snd (App.webhook (VObj props)) = rejected <-> well_formed (VObj props) = false)
    /\ (snd (App.webhook (event (VStr []) data)) = rejected
        /\ snd (App.webhook (event type (VNum (js "0")))) = rejected
        /\ snd (App.webhook (event type (VBool false))) = rejected
        /\ snd (App.webhook (event type VNull)) = rejected)
    /\ (snd (App.webhook (VObj [ (js "data", data) ])) = rejected
        /\ snd (App.webhook (VObj [ (js "type", type) ])) = rejected
        /\ snd (App.webhook (VObj [])) = rejected)
    /\ (forall items, snd (App.webhook (VArr items)) = rejected)
    /\ snd (App.webhook (event type (VObj [])))
       = (if truthy type then acknowledged else rejected)
    /\ (forall method path, Router.dispatch method path <> Some Router.Webhook)
    /\ Router.dispatch (js "POST") (js "/api/vapi/webhook") = Some Router.NotFound
    /\ App.status Router.route_not_found = 404%N
    /\ Router.dispatch (js "POST") (js "/api/vapi/call") = Some Router.WebCall.
Proof.
  intros rt props type data.
  split; [|split; [|split; [|split; [|split; [|split; [|split; [|split]]]]]]].
  - rewrite webhook_answer by reflexivity.
    destruct (well_formed (VObj props)).
    + split; [|discriminate]. destruct (App.observe _ _); discriminate.
    + split; reflexivity.
  - repeat split; rewrite webhook_answer by reflexivity;
      rewrite well_formed_event; try reflexivity;
      destruct (truthy type); reflexivity.
  - repeat split; rewrite webhook_answer by reflexivity; try reflexivity.
    unfold well_formed.
    change (get_prop (VObj [(js "type", type)]) (js "data")) with VUndefined.
    simpl truthy. now rewrite andb_false_r.
  - reflexivity.
  - rewrite webhook_answer by reflexivity.
    rewrite well_formed_event, event_type, event_data. simpl truthy.
    rewrite andb_true_r. destruct (truthy type); [|reflexivity].
    destruct (@observe_with_text rt type (VObj []) eq_refl eq_refl) as [lines ->].
    reflexivity.
  - apply webhook_never_dispatched.
  - apply webhook_path_not_found.
  - reflexivity.
  - reflexivity.
Qed.

(** ** Transcripts *)

Ltac transcript_contract_tac getCallTranscript :=
  intros callId up tr; unfold getCallTranscript, bind; split;
  [ intros props Hcall Hnone; rewrite Hcall; unfold read_prop; simpl;
    rewrite Hnone; simpl; rewrite app_nil_r; reflexivity
  | intros e Hcall; rewrite Hcall; reflexivity ].

(** C8.  In every revision [getCallTranscript] resolves to [null] when
    [getCall] resolves to a call object without a [transcript] property,
    and rejects with the failure of [getCall] when [getCall] rejects; the
    transcript route then answers 200 with [{ transcript: null }]. *)
Theorem C8_getCallTranscript_null_or_propagates :
  forall (rt : Runtime) (s : VapiService),
    transcript_contract (Server.getCall s) (Server.getCallTranscript s)
    /\ transcript_contract (Part1.getCall s) (Part1.getCallTranscript s)
    /\ transcript_contract (Part2.getCall s) (Part2.getCallTranscript s)
    /\ (forall gw callId up tr,
          App.getCallTranscript gw [VStr callId] up = (tr, Ok VNull) ->
          App.get_transcript (Some gw) callId up
          = (tr, Ok {| App.status := 200;
                       App.json :=
                         VObj [ (js "success", VBool true);
                                (js "data", VObj [ (js "transcript", VNull) ]) ] |})).
Proof.
  intros rt s. split; [|split; [|split]].
  - transcript_contract_tac (@Server.getCallTranscript).
  - transcript_contract_tac (@Part1.getCallTranscript).
  - transcript_contract_tac (@Part2.getCallTranscript).
  - intros gw callId up tr Hgw.
    unfold App.get_transcript, try_catch, bind. rewrite Hgw. simpl.
    now rewrite app_nil_r.
Qed.

(** The contract of C8 at work: the upstream answers [{}], a call object
    without a transcript. *)
Lemma C8_missing_transcript_witness :
  @Part2.getCallTranscript Sample.runtime (Part2.new Sample.env) (VStr (js "call-1"))
    (Sample.answers 200 (js "{}"))
  = (sent (@Part2.getCall Sample.runtime (Part2.new Sample.env) (VStr (js "call-1")))
       (Sample.answers 200 (js "{}")),
     Ok VNull).
Proof.
  apply (proj1 (proj1 (proj2 (proj2 (C8_getCallTranscript_null_or_propagates
                                        Sample.runtime (Part2.new Sample.env))))
                 (VStr (js "call-1")) (Sample.answers 200 (js "{}")) _))
    with (props := []); reflexivity.
Defined.

(** ** Listing calls *)

Lemma Forall_sent_throw_if {A} (P : Request -> Prop) (c : bool) (e : jsstring)
  (k : unit -> Async A) (up : Upstream) :
  Forall P (sent (k tt) up) -> Forall P (sent (bind (throw_if c e) k) up).
Proof.
  unfold sent. destruct c.
  - rewrite bind_throw_if_true. constructor.
  - now rewrite bind_throw_if_false.
Qed.

Lemma sent_try_catch_ret {A B} (m : Async A) (k : A -> B) (h : jsstring -> B)
  (up : Upstream) :
  sent (try_catch (bind m (fun a => ret (k a))) (fun e => ret (h e))) up = sent m up.
Proof.
  unfold sent, try_catch, bind, ret.
  destruct (m up) as [tr [a|e]]; simpl; now rewrite app_nil_r.
Qed.

Lemma relays_try_catch (call : Async Value) (fallback : jsstring) (up : Upstream) :
  relays
    (try_catch (bind call (fun v => ret (Rest.success v)))
       (fun message => ret (App.failure (or_else (VStr message) (VStr fallback)))))
    call fallback up.
Proof.
  unfold relays, try_catch, bind, ret, sent, outcome.
  destruct (call up) as [tr [v|e]]; simpl; rewrite app_nil_r; [reflexivity|].
  destruct e; reflexivity.
Qed.

Lemma Part2_host : Part2.URL_hostname Part2.baseUrl = js "api.vapi.ai".
Proof. reflexivity. Qed.








(** ** Phone numbers *)

Lemma sent_bind_silent {A B} (m : Async A) (k : A -> Async B) (up : Upstream) :
  (forall a, sent (k a) up = []) -> sent (bind m k) up = sent m up.
Proof.
  intros Hk. unfold sent, bind. destruct (m up) as [tr [a|e]]; [|reflexivity].
  specialize (Hk a). unfold sent in Hk. destruct (k a up) as [t2 r]. simpl in *.
  subst t2. apply app_nil_r.
Qed.

Lemma sent_read_then_ret `{Runtime} {A} (v : Value) (k : jsstring) (a : A) (up : Upstream) :
  sent (bind (lift (read_prop v k)) (fun _ => ret a)) up = [].
Proof. unfold read_prop. destruct (nullish v); reflexivity. Qed.

(** The separators and nothing else are removed, and the order of the
    other characters is kept. *)
Lemma cleanPhone_spec (phoneNumber : jsstring) :
  cleanPhone phoneNumber
  = filter (fun c => negb (Regex.is_space c || N.eqb c 45 || N.eqb c 40 || N.eqb c 41))
      phoneNumber.
Proof. reflexivity. Qed.

Lemma customer_number_plus (clean : jsstring) :
  Regex.startsWith_char 43 (customer_number clean) = true.
Proof.
  unfold customer_number. destruct (Regex.startsWith_char 43 clean) eqn:E; [exact E|].
  reflexivity.
Qed.

Lemma truthy_nonempty (p : jsstring) : p <> [] -> truthy (VStr p) = true.
Proof. destruct p; [congruence | reflexivity]. Qed.

Lemma sent_bind_throw_if_false {B} (e : jsstring) (k : unit -> Async B) (up : Upstream) :
  sent (bind (throw_if false e) k) up = sent (k tt) up.
Proof. unfold sent. now rewrite bind_throw_if_false. Qed.

Ltac phone_validation_tac makeCall run :=
  intros phoneNumber customAssistantId;
  unfold fails_before_network, makeCall;
  repeat match goal with
         | Hg : _ = _ |- _ => rewrite Hg
         end;
  change (negb true) with false;
  split; [|split];
  [ intros ->; rewrite ?bind_throw_if_false; reflexivity
  | intros Hne Hre; rewrite ?bind_throw_if_false; rewrite (truthy_nonempty Hne);
    change (negb true) with false; rewrite bind_throw_if_false;
    cbv beta iota zeta; rewrite Hre; reflexivity
  | intros Hne Hre; eexists; eexists;
    split;
    [ rewrite ?sent_bind_throw_if_false; rewrite (truthy_nonempty Hne);
      change (negb true) with false; rewrite sent_bind_throw_if_false;
      cbv beta iota zeta; rewrite Hre; change (negb true) with false;
      rewrite sent_bind_throw_if_false;
      rewrite sent_bind_silent by (intros; apply sent_read_then_ret);
      unfold sent; rewrite run; reflexivity
    | repeat split ] ].

(** C3, as amended.  Past the configuration guards (the API key, and in
    the guarded revisions the initialisation flag), [makeCall] validates
    the phone number as [phone_validation] says: the empty string is
    refused as a missing number, every other string by the pattern after
    the separators are stripped.  The number sent always starts with [+].
    The input [(555) 123-4567] is stripped to [5551234567], matches, and
    is sent as [+5551234567]. *)
Theorem C3_makeCall_phone_validation :
  forall (rt : Runtime) (s : VapiService) (up : Upstream),
    unset (apiKey s) = false ->
    phone_validation (Server.makeCall s) up
    /\ (initialized s = true ->
        phone_validation (Part1.makeCall s) up
        /\ phone_validation (Part2.makeCall s) up)
    /\ (forall clean, Regex.startsWith_char 43 (customer_number clean) = true)
    /\ (cleanPhone (js "(555) 123-4567") = js "5551234567"
        /\ Regex.test phoneRegex (js "5551234567") = true
        /\ customer_number (js "5551234567") = js "+5551234567").
Proof.
  intros rt s up Hkey. split; [|split; [|split]].
  - phone_validation_tac (@Server.makeCall) (@Server_makeRequest_run).
  - intros Hinit. split.
    + phone_validation_tac (@Part1.makeCall) (@Part1_makeRequest_run).
    + phone_validation_tac (@Part2.makeCall) (@Part2_makeRequest_run).
  - apply customer_number_plus.
  - repeat split.
Qed.

(** The guard of C3 holds of a freshly constructed, configured service. *)
Lemma C3_phone_validation_witness :
  unset (apiKey (Server.new Sample.env)) = false
  /\ phone_validation (@Server.makeCall Sample.runtime (Server.new Sample.env))
       Sample.unreachable.
Proof.
  split; [reflexivity|].
  exact (proj1 (C3_makeCall_phone_validation Sample.runtime (Server.new Sample.env)
                  Sample.unreachable eq_refl)).
Defined.

(** C3 as stated fails on the empty string: it does not match the
    pattern, yet it is refused as a missing number, not with the format
    error. *)
Lemma C3_empty_string_reported_missing :
  Regex.test phoneRegex (cleanPhone []) = false
  /\ @Server.makeCall Sample.runtime (Server.new Sample.env) (VStr []) VUndefined
       Sample.unreachable
     = ([], Throw msg_phone_required)
  /\ @Part2.makeCall Sample.runtime (Part2.new Sample.env) (VStr []) VUndefined
       Sample.unreachable
     = ([], Throw msg_phone_required)
  /\ msg_phone_required <> msg_phone_format.
Proof. repeat split. discriminate. Qed.

(** ** Credentials *)

Lemma Forall_sent_bind {A B} (P : Request -> Prop) (m : Async A) (k : A -> Async B)
  (up : Upstream) :
  Forall P (sent m up) -> (forall a, Forall P (sent (k a) up)) ->
  Forall P (sent (bind m k) up).
Proof.
  unfold sent, bind. intros Hm Hk. destruct (m up) as [t1 [a|e]]; [|exact Hm].
  specialize (Hk a). destruct (k a up) as [t2 r]. simpl in *.
  apply Forall_app. now split.
Qed.

Lemma Forall_sent_silent {A} (P : Request -> Prop) (m : Async A) (up : Upstream) :
  sent m up = [] -> Forall P (sent m up).
Proof. intros ->. constructor. Qed.

Lemma Forall_sent_Server_makeRequest `{Runtime} (P : Request -> Prop) (opts : Options)
  (data : Value) (up : Upstream) :
  P {| options := opts; written := if truthy data then Some data else None |} ->
  Forall P (sent (Server.makeRequest opts data) up).
Proof. intros HP. unfold sent. rewrite Server_makeRequest_run. simpl. now apply Forall_leaving. Qed.

Lemma Forall_sent_Part1_makeRequest `{Runtime} (P : Request -> Prop) (opts : Options)
  (data : Value) (up : Upstream) :
  P {| options := opts; written := if truthy data then Some data else None |} ->
  Forall P (sent (Part1.makeRequest opts data) up).
Proof. intros HP. unfold sent. rewrite Part1_makeRequest_run. simpl. now apply Forall_leaving. Qed.

Lemma Forall_sent_Part2_makeRequest `{Runtime} (P : Request -> Prop)
  (opts : Options) (data : Value) (up : Upstream) :
  P {| options := {| hostname := Part2.URL_hostname Part2.baseUrl;
                     path := path opts;
                     method := method opts;
                     headers := headers opts |};
       written := if truthy data then Some data else None |} ->
  Forall P (sent (Part2.makeRequest opts data) up).
Proof. intros HP. unfold sent. rewrite Part2_makeRequest_run. simpl. now apply Forall_leaving. Qed.

(** The constructors set [apiKey] to the private key, and [destroy]
    leaves both alone. *)
Lemma constructors_set_apiKey (env : Env) :
  apiKey (Server.new env) = privateKey (Server.new env)
  /\ apiKey (Part1.new env) = privateKey (Part1.new env)
  /\ apiKey (Part2.new env) = privateKey (Part2.new env)
  /\ (forall s, apiKey s = privateKey s ->
                apiKey (Server.destroy s) = privateKey (Server.destroy s)).
Proof.
  unfold Server.new, Server.initialize, Part1.new, Part2.new.
  repeat split.
  - now destruct (Server.validateConfig _).
  - now destruct (Part1.validateConfig _).
  - now destruct (Part2.validateConfig _).
  - intros s H. exact H.
Qed.

Lemma sent_lift {A} (r : A + jsstring) (up : Upstream) : sent (lift r) up = [].
Proof. now destruct r. Qed.

Lemma sent_throw_if (c : bool) (e : jsstring) (up : Upstream) :
  sent (throw_if c e) up = [].
Proof. now destruct c. Qed.

Ltac requests_tac :=
  cbv beta zeta;
  repeat first
    [ apply Forall_sent_throw_if
    | apply Forall_sent_Server_makeRequest
    | apply Forall_sent_Part1_makeRequest
    | apply Forall_sent_Part2_makeRequest
    | apply Forall_sent_silent;
      solve [reflexivity | apply sent_lift | apply sent_throw_if
            | apply sent_read_then_ret]
    | apply Forall_sent_bind; [|intros] ].

Ltac backend_uses_tac getAssistant makeCall getCalls getCall endCall updateAssistant :=
  unfold backend_uses, authorizes_with;
  repeat split; intros;
  unfold getAssistant, makeCall, getCalls, getCall, endCall, updateAssistant;
  repeat match goal with
         | Hk : apiKey _ = _ |- _ => rewrite Hk
         end;
  try match goal with
      | |- context [match ?p with VStr _ => _ | _ => _ end] => destruct p
      end;
  requests_tac; reflexivity.

Ltac web_call_uses_tac createWebCall :=
  unfold web_call_uses, authorizes_with; split;
  [ unfold createWebCall; requests_tac; reflexivity
  | intros Hsent;
    match goal with
    | |- unset ?k = false => destruct (unset k) eqn:?; [|reflexivity]
    end;
    exfalso; apply Hsent; unfold sent, createWebCall; cbv beta zeta;
    try match goal with
        | |- context [initialized ?s] => destruct (initialized s)
        end;
    repeat match goal with
           | Hg : unset _ = true |- _ => rewrite Hg; clear Hg
           end;
    simpl negb;
    rewrite ?bind_throw_if_false, ?bind_throw_if_true; reflexivity ].

(** C2, as amended.  On a service whose [apiKey] is its private key, as
    every constructor leaves it: phone calls, call listing, call reading,
    call ending and assistant reading and updating carry the private key
    in every revision.  Web-call creation sends something only if the
    private key is set; what it sends carries the public key in
    [server/vapi_integration.js] and in [Part1], where it is the same
    whichever private key is set, and carries the private key in [Part2]. *)
Theorem C2_credential_per_operation :
  forall (rt : Runtime) (s : VapiService) (up : Upstream),
    apiKey s = privateKey s ->
    (forall a, web_call_uses (publicKey s) (privateKey s) (Server.createWebCall s a) up)
    /\ (forall a, web_call_uses (publicKey s) (privateKey s) (Part1.createWebCall s a) up)
    /\ (forall a,
          private_key_not_sent (fun s' => Server.createWebCall s' a) s up
          /\ private_key_not_sent (fun s' => Part1.createWebCall s' a) s up)
    /\ (forall a t,
          web_call_uses (privateKey s) (privateKey s) (Part2.createWebCall s a t) up)
    /\ backend_uses (privateKey s) up (Server.getAssistant s) (Server.makeCall s)
         (Server.getCalls s) (Server.getCall s) (Server.endCall s)
         (Server.updateAssistant s)
    /\ backend_uses (privateKey s) up (Part1.getAssistant s) (Part1.makeCall s)
         (Part1.getCalls s) (Part1.getCall s) (Part1.endCall s)
         (Part1.updateAssistant s)
    /\ backend_uses (privateKey s) up (Part2.getAssistant s) (Part2.makeCall s)
         (Part2.getCalls s) (Part2.getCall s) (Part2.endCall s)
         (Part2.updateAssistant s).
Proof.
  intros rt s up Hkey.
  split; [|split; [|split; [|split; [|split; [|split]]]]].
  - intros a. web_call_uses_tac (@Server.createWebCall).
  - intros a. web_call_uses_tac (@Part1.createWebCall).
  - intros a. split; intros key key' Hset Hset'.
    + unfold Server.createWebCall. cbv beta zeta. simpl.
      rewrite Hset, Hset'. now rewrite !sent_bind_throw_if_false.
    + unfold Part1.createWebCall. cbv beta zeta. simpl.
      rewrite Hset, Hset'. destruct (initialized s); simpl negb.
      * now rewrite !sent_bind_throw_if_false.
      * reflexivity.
  - intros a t. web_call_uses_tac (@Part2.createWebCall).
  - backend_uses_tac (@Server.getAssistant) (@Server.makeCall) (@Server.getCalls)
      (@Server.getCall) (@Server.endCall) (@Server.updateAssistant).
  - backend_uses_tac (@Part1.getAssistant) (@Part1.makeCall) (@Part1.getCalls)
      (@Part1.getCall) (@Part1.endCall) (@Part1.updateAssistant).
  - backend_uses_tac (@Part2.getAssistant) (@Part2.makeCall) (@Part2.getCalls)
      (@Part2.getCall) (@Part2.endCall) (@Part2.updateAssistant).
Qed.

(** The hypothesis of C2 holds of a freshly constructed service. *)
Lemma C2_credential_witness :
  apiKey (Server.new Sample.env) = privateKey (Server.new Sample.env)
  /\ web_call_uses (publicKey (Server.new Sample.env)) (privateKey (Server.new Sample.env))
       (@Server.createWebCall Sample.runtime (Server.new Sample.env) VUndefined)
       Sample.unreachable.
Proof.
  split; [reflexivity|].
  exact (proj1 (C2_credential_per_operation Sample.runtime (Server.new Sample.env)
                  Sample.unreachable eq_refl) VUndefined).
Defined.

(** C2 as stated fails on [Part2]: its web-call request carries the
    private key, not the public one. *)
Lemma C2_part2_web_call_sends_private_key :
  privateKey (Part2.new Sample.env) = Some (js "private-key-1")
  /\ publicKey (Part2.new Sample.env) = Some (js "public-key-1")
  /\ map (header (js "Authorization"))
       (sent (@Part2.createWebCall Sample.runtime (Part2.new Sample.env)
                VUndefined VUndefined) Sample.unreachable)
     = [ Some (js "Bearer private-key-1") ]
  /\ js "Bearer private-key-1" <> js "Bearer public-key-1".
Proof. repeat split. discriminate. Qed.

(** ** The web-call response *)

Lemma incomplete_has_call_fields (v : Value) :
  Part2.incomplete v = negb (has_call_fields v).
Proof.
  unfold Part2.incomplete, has_call_fields.
  destruct (truthy (get_prop v (js "id"))) eqn:Hid.
  - destruct (truthy_prop_object _ _ Hid) as [props ->].
    change (truthy (VObj props)) with true.
    destruct (truthy (get_prop (get_prop (VObj props) (js "transport"))
                        (js "websocketCallUrl"))) eqn:Hurl.
    + destruct (truthy_prop_object _ _ Hurl) as [tprops ->]. reflexivity.
    + simpl. apply orb_true_r.
  - simpl. rewrite orb_true_r. reflexivity.
Qed.

Lemma invalid_result_has_call_fields (v : Value) :
  App.invalid_result v = negb (has_call_fields v).
Proof. apply incomplete_has_call_fields. Qed.

Lemma has_call_fields_publicKey (v : Value) (key : Value) :
  has_call_fields v = true ->
  has_call_fields (VObj (set_prop (spread v) (js "publicKey") key)) = true.
Proof.
  intros H. pose proof H as H'. unfold has_call_fields in H'.
  apply andb_true_iff in H' as [Hid _].
  destruct (truthy_prop_object _ _ Hid) as [props ->].
  unfold has_call_fields, get_prop in *. simpl spread.
  rewrite !lookup_set_prop_other by discriminate. exact H.
Qed.

Lemma has_call_fields_pruned (i p u k : Value) :
  has_call_fields
    (VObj [ (js "id", i);
            (js "transport", VObj [ (js "provider", p); (js "websocketCallUrl", u) ]);
            (js "publicKey", k) ])
  = truthy i && truthy u.
Proof. reflexivity. Qed.

(** A request followed by a continuation: the request is sent first, and
    the continuation runs on what the response resolves to. *)
Lemma Server_makeRequest_then `{Runtime} {B} (opts : Options) (data : Value)
  (k : Value -> Async B) (up : Upstream) :
  let rq := {| options := opts; written := if truthy data then Some data else None |} in
  bind (Server.makeRequest opts data) k up
  = match Server.settle_request (up rq) with
    | Ok v => (leaving up rq ++ fst (k v up), snd (k v up))
    | Throw e => (leaving up rq, Throw e)
    end.
Proof.
  intros rq. unfold bind at 1. rewrite Server_makeRequest_run. fold rq.
  destruct (Server.settle_request (up rq)); [|reflexivity].
  now destruct (k a up).
Qed.

Lemma Part1_makeRequest_then `{Runtime} {B} (opts : Options) (data : Value)
  (k : Value -> Async B) (up : Upstream) :
  let rq := {| options := opts; written := if truthy data then Some data else None |} in
  bind (Part1.makeRequest opts data) k up
  = match Part1.settle_request (up rq) with
    | Ok v => (leaving up rq ++ fst (k v up), snd (k v up))
    | Throw e => (leaving up rq, Throw e)
    end.
Proof.
  intros rq. unfold bind at 1. rewrite Part1_makeRequest_run. fold rq.
  destruct (Part1.settle_request (up rq)); [|reflexivity].
  now destruct (k a up).
Qed.

Lemma Part2_makeRequest_then `{Runtime} {B} (opts : Options) (data : Value)
  (k : Value -> Async B) (up : Upstream) :
  let rq := {| options := {| hostname := Part2.URL_hostname Part2.baseUrl;
                             path := path opts;
                             method := method opts;
                             headers := headers opts |};
               written := if truthy data then Some data else None |} in
  bind (Part2.makeRequest opts data) k up
  = match Part2.settle_request (up rq) with
    | Ok v => (leaving up rq ++ fst (k v up), snd (k v up))
    | Throw e => (leaving up rq, Throw e)
    end.
Proof.
  intros rq. unfold bind at 1. rewrite Part2_makeRequest_run. fold rq.
  destruct (Part2.settle_request (up rq)); [|reflexivity].
  now destruct (k a up).
Qed.

(** When a computation starts with a request, [answered] tells what
    became of it. *)
Lemma answered_Server_makeRequest `{Runtime} {B} (opts : Options) (data : Value)
  (k : Value -> Async B) (up : Upstream) (statusCode : N) (body : jsstring) :
  answered (bind (Server.makeRequest opts data) k) up statusCode body ->
  up {| options := opts; written := if truthy data then Some data else None |}
  = NetResponse statusCode body.
Proof.
  unfold answered, sent. rewrite Server_makeRequest_then. cbv zeta.
  intros (rq & Hs & Hup).
  match goal with
  | |- up ?rq0 = _ =>
      destruct (leaving_cases up rq0) as [(e & He & Hl) | [_ Hl]]; rewrite Hl in Hs
  end.
  - rewrite He in Hs. discriminate.
  - destruct (Server.settle_request _); simpl in Hs; inversion Hs; subst rq; exact Hup.
Qed.

Lemma answered_Part1_makeRequest `{Runtime} {B} (opts : Options) (data : Value)
  (k : Value -> Async B) (up : Upstream) (statusCode : N) (body : jsstring) :
  answered (bind (Part1.makeRequest opts data) k) up statusCode body ->
  up {| options := opts; written := if truthy data then Some data else None |}
  = NetResponse statusCode body.
Proof.
  unfold answered, sent. rewrite Part1_makeRequest_then. cbv zeta.
  intros (rq & Hs & Hup).
  match goal with
  | |- up ?rq0 = _ =>
      destruct (leaving_cases up rq0) as [(e & He & Hl) | [_ Hl]]; rewrite Hl in Hs
  end.
  - rewrite He in Hs. discriminate.
  - destruct (Part1.settle_request _); simpl in Hs; inversion Hs; subst rq; exact Hup.
Qed.

Lemma answered_Part2_makeRequest `{Runtime} {B} (opts : Options) (data : Value)
  (k : Value -> Async B) (up : Upstream) (statusCode : N) (body : jsstring) :
  answered (bind (Part2.makeRequest opts data) k) up statusCode body ->
  up {| options := {| hostname := Part2.URL_hostname Part2.baseUrl;
                      path := path opts;
                      method := method opts;
                      headers := headers opts |};
        written := if truthy data then Some data else None |}
  = NetResponse statusCode body.
Proof.
  unfold answered, sent. rewrite Part2_makeRequest_then. cbv zeta.
  intros (rq & Hs & Hup).
  match goal with
  | |- up ?rq0 = _ =>
      destruct (leaving_cases up rq0) as [(e & He & Hl) | [_ Hl]]; rewrite Hl in Hs
  end.
  - rewrite He in Hs. discriminate.
  - destruct (Part2.settle_request _); simpl in Hs; inversion Hs; subst rq; exact Hup.
Qed.

(** C1, as amended.  In [Part2], [createWebCall] resolves only to an
    object with a truthy [id] and a truthy [transport.websocketCallUrl],
    and when the transport client resolves the response to a payload
    without either, it fails with the invalid-response error.  The two
    other revisions do not look at the payload: whatever the transport
    client resolves to (other than [null]) is returned with [publicKey]
    added.  The route [POST /api/vapi/call] applies the check itself to
    what the gateway returns, so that a 200 answer always has both fields. *)
Theorem C1_web_call_response_validation :
  forall (rt : Runtime) (s : VapiService) (a t : Value) (up : Upstream),
    (forall tr v,
        Part2.createWebCall s a t up = (tr, Ok v) -> has_call_fields v = true)
    /\ (forall statusCode body payload,
          initialized s = true -> unset (privateKey s) = false ->
          answered (Part2.createWebCall s a t) up statusCode body ->
          Part2.on_end statusCode body = Ok payload ->
          has_call_fields payload = false ->
          outcome (Part2.createWebCall s a t) up = Throw msg_invalid_response)
    /\ (forall statusCode body payload,
          unset (privateKey s) = false ->
          answered (Server.createWebCall s a) up statusCode body ->
          Server.on_end statusCode body = Ok payload ->
          nullish payload = false ->
          outcome (Server.createWebCall s a) up
          = Ok (VObj (set_prop (spread payload) (js "publicKey")
                        (of_option (publicKey s)))))
    /\ (forall statusCode body payload,
          initialized s = true -> unset (privateKey s) = false ->
          answered (Part1.createWebCall s a) up statusCode body ->
          Part1.on_end statusCode body = Ok payload ->
          nullish payload = false ->
          outcome (Part1.createWebCall s a) up
          = Ok (VObj (set_prop (spread payload) (js "publicKey")
                        (of_option (publicKey s)))))
    /\ (forall gw body tr response,
          App.post_call (Some gw) body up = (tr, Ok response) ->
          App.status response = 200%N ->
          has_call_fields (get_prop (App.json response) (js "data")) = true).
Proof.
  intros rt s a t up. split; [|split; [|split; [|split]]].
  - intros tr v. unfold Part2.createWebCall. cbv beta zeta.
    destruct (initialized s); simpl negb;
      [|rewrite bind_throw_if_true; discriminate].
    rewrite bind_throw_if_false.
    destruct (unset (privateKey s));
      [rewrite bind_throw_if_true; discriminate|].
    rewrite bind_throw_if_false.
    rewrite Part2_makeRequest_then. cbv zeta.
    match goal with
    | |- context [Part2.settle_request ?o] =>
        destruct (Part2.settle_request o) as [result|e]
    end; [|discriminate].
    destruct (Part2.incomplete result) eqn:Hinc.
    + rewrite bind_throw_if_true. discriminate.
    + rewrite bind_throw_if_false. unfold ret. simpl.
      intros H. injection H as _ <-.
      apply has_call_fields_publicKey.
      rewrite incomplete_has_call_fields in Hinc.
      now apply negb_false_iff in Hinc.
  - intros statusCode body payload Hinit Hkey Hup Hend Hmiss.
    unfold outcome. unfold Part2.createWebCall in *. cbv beta zeta in *.
    rewrite Hinit, Hkey in *. simpl negb in *. rewrite !bind_throw_if_false in *.
    unfold answered in Hup. rewrite !sent_bind_throw_if_false in Hup.
    apply answered_Part2_makeRequest in Hup.
    rewrite Part2_makeRequest_then. cbv zeta. rewrite Hup.
    simpl Part2.settle_request. rewrite Hend.
    rewrite incomplete_has_call_fields, Hmiss. reflexivity.
  - intros statusCode body payload Hkey Hup Hend Hnn.
    unfold outcome. unfold Server.createWebCall in *. cbv beta zeta in *.
    rewrite Hkey in *. rewrite !bind_throw_if_false in *.
    unfold answered in Hup. rewrite !sent_bind_throw_if_false in Hup.
    apply answered_Server_makeRequest in Hup.
    rewrite Server_makeRequest_then. cbv zeta. rewrite Hup.
    simpl Server.settle_request. rewrite Hend.
    unfold read_prop. rewrite Hnn. reflexivity.
  - intros statusCode body payload Hinit Hkey Hup Hend Hnn.
    unfold outcome. unfold Part1.createWebCall in *. cbv beta zeta in *.
    rewrite Hinit, Hkey in *. simpl negb in *. rewrite !bind_throw_if_false in *.
    unfold answered in Hup. rewrite !sent_bind_throw_if_false in Hup.
    apply answered_Part1_makeRequest in Hup.
    rewrite Part1_makeRequest_then. cbv zeta. rewrite Hup.
    simpl Part1.settle_request. rewrite Hend.
    unfold read_prop. rewrite Hnn. reflexivity.
  - intros gw body tr response. unfold App.post_call, try_catch.
    destruct (nullish body).
    + cbv beta iota delta [lift]. rewrite bind_throw. simpl.
      intros H. injection H as _ <-. discriminate.
    + cbv beta iota delta [lift]. rewrite bind_ret.
      unfold bind at 1.
      destruct (App.createWebCall gw _ up) as [t1 [result|e]].
      * destruct (App.invalid_result result) eqn:Hinv.
        -- rewrite bind_throw_if_true. simpl.
           intros H. injection H as _ <-. discriminate.
        -- rewrite bind_throw_if_false. unfold ret.
           intros H. injection H as _ <-. intros _.
           rewrite invalid_result_has_call_fields in Hinv.
           apply negb_false_iff in Hinv.
           unfold has_call_fields in Hinv.
           change (get_prop (App.json _) (js "data")) with
             (VObj [ (js "id", get_prop result (js "id"));
                     (js "transport",
                      VObj [ (js "provider",
                              get_prop (get_prop result (js "transport")) (js "provider"));
                             (js "websocketCallUrl",
                              get_prop (get_prop result (js "transport"))
                                (js "websocketCallUrl")) ]);
                     (js "publicKey", get_prop result (js "publicKey")) ]).
           rewrite has_call_fields_pruned. exact Hinv.
      * simpl. intros H. injection H as _ <-. discriminate.
Qed.

(** The check of C1 at work in [Part2]: a 200 with the body [{}]. *)
Lemma C1_incomplete_payload_witness :
  outcome (@Part2.createWebCall Sample.runtime (Part2.new Sample.env)
             VUndefined VUndefined)
    (Sample.answers 200 (js "{}"))
  = Throw msg_invalid_response.
Proof.
  apply (proj1 (proj2 (C1_web_call_response_validation Sample.runtime
                         (Part2.new Sample.env) VUndefined VUndefined
                         (Sample.answers 200 (js "{}")))))
    with (statusCode := 200%N) (body := js "{}") (payload := VObj []);
    try reflexivity.
  eexists. split; reflexivity.
Defined.

(** C1 as stated fails on [server/vapi_integration.js]: on a 200 with the
    body [{}] its [createWebCall] resolves, to an object without [id]
    and without [transport]. *)
Lemma C1_server_returns_incomplete_object :
  is_2xx 200 = true
  /\ outcome (@Server.createWebCall Sample.runtime (Server.new Sample.env) VUndefined)
       (Sample.answers 200 (js "{}"))
     = Ok (VObj [ (js "publicKey", VStr (js "public-key-1")) ])
  /\ has_call_fields (VObj [ (js "publicKey", VStr (js "public-key-1")) ]) = false.
Proof. repeat split. Qed.

(** ** Configuration *)

Lemma unset_false_present (o : option jsstring) : unset o = false <-> present o.
Proof.
  unfold unset, present. split.
  - destruct o as [[|c v]|]; simpl; try discriminate.
    intros _. eexists. split; [reflexivity | discriminate].
  - intros (v & -> & Hv). destruct v; [congruence | reflexivity].
Qed.

Lemma configured_checks (o : option jsstring) (placeholder : jsstring) :
  unset o || is_literal o placeholder = false <-> configured o placeholder.
Proof.
  unfold configured. rewrite orb_false_iff, unset_false_present. split.
  - intros [(v & -> & Hv) Hl]. simpl in Hl. apply jsstring_eqb_neq in Hl. eauto.
  - intros (v & -> & Hv & Hp). split.
    + exists v. auto.
    + simpl. now apply jsstring_eqb_neq.
Qed.

(** X2.  A service comes out of the constructor initialised exactly when
    the three credentials are configured; the revision of
    [server/vapi_integration.js] asks only that they be present. *)
Theorem initialized_iff_configured :
  forall (env : Env),
    (initialized (Part1.new env) = true <->
     configured (VAPI_PRIVATE_KEY env) (js "your_private_key_here")
     /\ configured (VAPI_PUBLIC_KEY env) (js "your_public_key_here")
     /\ configured (VAPI_ASSISTANT_ID env) (js "your_assistant_id_here"))
    /\ (initialized (Part2.new env) = true <->
        configured (VAPI_PRIVATE_KEY env) (js "your_private_key_here")
        /\ configured (VAPI_PUBLIC_KEY env) (js "your_public_key_here")
        /\ configured (VAPI_ASSISTANT_ID env) (js "your_assistant_id_here"))
    /\ (initialized (Server.new env) = true <->
        present (VAPI_PRIVATE_KEY env) /\ present (VAPI_PUBLIC_KEY env)
        /\ present (VAPI_ASSISTANT_ID env)).
Proof.
  intros [priv pub asst].
  rewrite <- !configured_checks, <- !unset_false_present.
  unfold Part1.new, Part1.validateConfig, Part1.initialize,
    Part2.new, Part2.validateConfig, Part2.initialize,
    Server.new, Server.initialize, Server.validateConfig.
  simpl.
  destruct (unset priv || is_literal priv (js "your_private_key_here"));
    destruct (unset pub || is_literal pub (js "your_public_key_here"));
    destruct (unset asst || is_literal asst (js "your_assistant_id_here"));
    destruct (unset priv); destruct (unset pub); destruct (unset asst);
    simpl; intuition congruence.
Qed.

(** ** One attempt per operation *)

Lemma single_attempt_throw_if {A} (c : bool) (e : jsstring) (k : unit -> Async A)
  (up : Upstream) :
  single_attempt (k tt) up -> single_attempt (bind (throw_if c e) k) up.
Proof.
  unfold single_attempt, sent. destruct c.
  - rewrite bind_throw_if_true. simpl. lia.
  - now rewrite bind_throw_if_false.
Qed.

Lemma single_attempt_then_silent {A B} (m : Async A) (k : A -> Async B) (up : Upstream) :
  single_attempt m up -> (forall a, sent (k a) up = []) ->
  single_attempt (bind m k) up.
Proof. unfold single_attempt. intros Hm Hk. now rewrite sent_bind_silent. Qed.

Lemma sent_throw_if_then_ret {A} (c : bool) (e : jsstring) (a : A) (up : Upstream) :
  sent (bind (throw_if c e) (fun _ => ret a)) up = [].
Proof. now destruct c. Qed.

Lemma sent_read_then_or {rt : Runtime} (v d : Value) (k : jsstring) (up : Upstream) :
  sent (bind (lift (read_prop v k)) (fun x => ret (or_else x d))) up = [].
Proof. unfold read_prop. destruct (nullish v); reflexivity. Qed.

Lemma single_attempt_try_catch_ret {A B} (m : Async A) (k : A -> B) (h : jsstring -> B)
  (up : Upstream) :
  single_attempt m up ->
  single_attempt (try_catch (bind m (fun a => ret (k a))) (fun e => ret (h e))) up.
Proof. unfold single_attempt. now rewrite sent_try_catch_ret. Qed.

Lemma single_attempt_after_lift {A B} (r : A + jsstring) (k : A -> Async B)
  (up : Upstream) :
  (forall a, single_attempt (k a) up) -> single_attempt (bind (lift r) k) up.
Proof.
  unfold single_attempt, sent. intros Hk. destruct r as [a|e]; simpl lift.
  - rewrite bind_ret. apply Hk.
  - rewrite bind_throw. simpl. lia.
Qed.

Ltac single_attempt_tac :=
  cbv beta zeta;
  repeat first
    [ apply single_attempt_throw_if
    | apply single_attempt_after_lift; intros
    | apply single_attempt_try_catch_ret
    | apply single_attempt_then_silent;
      [| intros;
         solve [ apply sent_read_then_ret | apply sent_throw_if_then_ret
               | apply sent_read_then_or ] ] ];
  try solve
    [ unfold single_attempt, sent;
      first [ rewrite Server_makeRequest_run | rewrite Part1_makeRequest_run
            | rewrite Part2_makeRequest_run ];
      apply length_leaving
    | unfold single_attempt; simpl; lia ].

(** X3.  The transport client is single-attempt: no operation of any
    revision sends more than one request, the health check and the transcript
    lookup included. *)
Theorem every_operation_single_attempt :
  forall (rt : Runtime) (s : VapiService) (up : Upstream) (a b : Value),
    (single_attempt (Server.getAssistant s) up
     /\ single_attempt (Server.healthCheck s) up
     /\ single_attempt (Server.makeCall s a b) up
     /\ single_attempt (Server.createWebCall s a) up
     /\ single_attempt (Server.getCalls s a) up
     /\ single_attempt (Server.getCall s a) up
     /\ single_attempt (Server.endCall s a) up
     /\ single_attempt (Server.getCallTranscript s a) up
     /\ single_attempt (Server.updateAssistant s a) up)
    /\ (single_attempt (Part1.getAssistant s) up
        /\ single_attempt (Part1.healthCheck s) up
        /\ single_attempt (Part1.makeCall s a b) up
        /\ single_attempt (Part1.createWebCall s a) up
        /\ single_attempt (Part1.getCalls s a) up
        /\ single_attempt (Part1.getCall s a) up
        /\ single_attempt (Part1.endCall s a) up
        /\ single_attempt (Part1.getCallTranscript s a) up
        /\ single_attempt (Part1.updateAssistant s a) up)
    /\ (single_attempt (Part2.getAssistant s) up
        /\ single_attempt (Part2.healthCheck s) up
        /\ single_attempt (Part2.makeCall s a b) up
        /\ single_attempt (Part2.createWebCall s a b) up
        /\ single_attempt (Part2.getCalls s a) up
        /\ single_attempt (Part2.getCall s a) up
        /\ single_attempt (Part2.endCall s a) up
        /\ single_attempt (Part2.getCallTranscript s a) up
        /\ single_attempt (Part2.updateAssistant s a) up).
Proof.
  intros rt s up a b.
  repeat split;
    unfold Server.healthCheck, Part1.healthCheck, Part2.healthCheck,
      Server.getCallTranscript, Part1.getCallTranscript, Part2.getCallTranscript;
    unfold Server.getAssistant, Server.makeCall, Server.createWebCall, Server.getCalls,
      Server.getCall, Server.endCall, Server.updateAssistant,
      Part1.getAssistant, Part1.makeCall, Part1.createWebCall, Part1.getCalls,
      Part1.getCall, Part1.endCall, Part1.updateAssistant,
      Part2.getAssistant, Part2.makeCall, Part2.createWebCall, Part2.getCalls,
      Part2.getCall, Part2.endCall, Part2.updateAssistant;
    try match goal with
        | |- context [initialized ?s] => destruct (initialized s); simpl negb
        end;
    try match goal with
        | |- context [match ?p with VStr _ => _ | _ => _ end] => destruct p
        end;
    single_attempt_tac.
Qed.

(** ** What the browser receives *)

(** X4.  The web-call route always answers.  It answers 200 only with the
    pruned object [{ id, transport: { provider, websocketCallUrl },
    publicKey }], whose [id] and [websocketCallUrl] are truthy, and 500
    with the message of the failure otherwise: no other field of the
    upstream payload reaches the browser. *)
Theorem web_call_route_prunes :
  forall (rt : Runtime) (gw : App.Gateway) (body : Value) (up : Upstream),
    exists tr response,
      App.post_call (Some gw) body up = (tr, Ok response)
      /\ ((App.status response = 200%N
           /\ exists i p u k,
               App.json response
               = VObj [ (js "success", VBool true);
                        (js "data",
                         VObj [ (js "id", i);
                                (js "transport",
                                 VObj [ (js "provider", p);
                                        (js "websocketCallUrl", u) ]);
                                (js "publicKey", k) ]) ]
               /\ truthy i = true /\ truthy u = true)
          \/ (App.status response = 500%N
              /\ exists e,
                  App.json response
                  = VObj [ (js "success", VBool false); (js "error", VStr e) ])).
Proof.
  intros rt gw body up. unfold App.post_call, try_catch.
  destruct (nullish body); cbv beta iota delta [lift].
  - rewrite bind_throw. simpl. eexists. eexists. split; [reflexivity|].
    right. split; [reflexivity|]. eexists. reflexivity.
  - rewrite bind_ret. unfold bind at 1.
    destruct (App.createWebCall gw _ up) as [t1 [result|e]].
    + destruct (App.invalid_result result) eqn:Hinv.
      * rewrite bind_throw_if_true. simpl. eexists. eexists. split; [reflexivity|].
        right. split; [reflexivity|]. eexists. reflexivity.
      * rewrite bind_throw_if_false. unfold ret.
        eexists. eexists. split; [reflexivity|].
        left. split; [reflexivity|].
        do 4 eexists. split; [reflexivity|].
        rewrite invalid_result_has_call_fields in Hinv.
        apply negb_false_iff in Hinv. unfold has_call_fields in Hinv.
        now apply andb_true_iff in Hinv.
    + simpl. eexists. eexists. split; [reflexivity|].
      right. split; [reflexivity|]. eexists. reflexivity.
Qed.

(** X5.  In [Part2] the transport of a web call is the caller's when the
    caller supplies one, whole, and the websocket profile otherwise. *)
Theorem web_call_transport_choice :
  forall (rt : Runtime) (s : VapiService) (a t : Value) (up : Upstream),
    Forall (fun rq =>
              exists payload,
                written rq = Some payload
                /\ get_prop payload (js "transport")
                   = (if truthy t then t else websocket_transport))
      (sent (Part2.createWebCall s a t) up).
Proof.
  intros rt s a t up. unfold Part2.createWebCall. requests_tac.
  eexists. split; [reflexivity|].
  destruct t; reflexivity.
Qed.

(** ** Failure kinds *)

Lemma failure_kind_request (e : jsstring) :
  failure_kind (js "Request Error: " ++ e) = Some TransportFailure.
Proof. vm_compute. reflexivity. Qed.

Lemma failure_kind_parse (e : jsstring) :
  failure_kind (js "Parse Error: " ++ e) = Some ParseFailure.
Proof. vm_compute. reflexivity. Qed.

Lemma failure_kind_api (e : jsstring) :
  failure_kind (js "API Error: " ++ e) = Some HttpFailure.
Proof. vm_compute. reflexivity. Qed.

Ltac settles_tac settle_request on_end :=
  intros [e|statusCode body|e]; unfold settles_by_kind, settle_request;
  [ apply failure_kind_request | | reflexivity ];
  unfold on_end, read_prop, interpolate;
  try (destruct body as [|c body'];
       [ destruct (is_2xx statusCode);
         [ reflexivity | right; split; [apply failure_kind_api | reflexivity] ] |]);
  (destruct (JSON_parse _) as [response|e]; [|left; apply failure_kind_parse]);
  (destruct (is_2xx statusCode); [reflexivity|]);
  (destruct (nullish response); [left; apply failure_kind_parse|]);
  (destruct (ToString _);
   [ right; split; [apply failure_kind_api | reflexivity]
   | left; apply failure_kind_parse ]).

Lemma Server_settles `{Runtime} (o : NetOutcome) :
  settles_by_kind o (Server.settle_request o).
Proof. revert o. settles_tac (@Server.settle_request) (@Server.on_end). Qed.

Lemma Part1_settles `{Runtime} (o : NetOutcome) :
  settles_by_kind o (Part1.settle_request o).
Proof. revert o. settles_tac (@Part1.settle_request) (@Part1.on_end). Qed.

Lemma Part2_settles `{Runtime} (o : NetOutcome) :
  settles_by_kind o (Part2.settle_request o).
Proof. revert o. settles_tac (@Part2.settle_request) (@Part2.on_end). Qed.

Ltac kinds_tac run settles :=
  intros opts data up; unfold sent, outcome, request_as_given, request_to_base;
  rewrite run; cbv zeta; rewrite ?Part2_host; simpl fst; simpl snd;
  split; [reflexivity | apply settles].

(** X6.  In every revision [makeRequest] hands [https.request] one
    request and settles by what becomes of it.  When the client refuses
    the request, nothing leaves and the promise rejects with the client's
    message as it is.  Otherwise the message of a rejection tells its
    kind: [Request Error] when the upstream could not be reached, and only
    then; [Parse Error] or [API Error] when it answered, the latter only
    on a status outside 2xx; and the promise resolves only on a 2xx
    status. *)
Theorem failure_kinds_tell_apart :
  forall (rt : Runtime),
    kinds_tell_apart Server.makeRequest request_as_given
    /\ kinds_tell_apart Part1.makeRequest request_as_given
    /\ kinds_tell_apart Part2.makeRequest request_to_base.
Proof.
  intros rt. split; [|split].
  - kinds_tac (@Server_makeRequest_run) (@Server_settles).
  - kinds_tac (@Part1_makeRequest_run) (@Part1_settles).
  - kinds_tac (@Part2_makeRequest_run) (@Part2_settles).
Qed.

(** ** Where requests go and what they carry *)

Lemma Forall_sent_try_catch {A} (P : Request -> Prop) (m : Async A)
  (h : jsstring -> Async A) (up : Upstream) :
  Forall P (sent m up) -> (forall e, Forall P (sent (h e) up)) ->
  Forall P (sent (try_catch m h) up).
Proof.
  unfold sent, try_catch. intros Hm Hh. destruct (m up) as [t1 [a|e]]; [exact Hm|].
  specialize (Hh e). destruct (h e up) as [t2 r]. simpl in *.
  apply Forall_app. now split.
Qed.

Ltac unfold_operations :=
  unfold Server.healthCheck, Part1.healthCheck, Part2.healthCheck,
    Server.getCallTranscript, Part1.getCallTranscript, Part2.getCallTranscript;
  unfold Server.getAssistant, Server.makeCall, Server.createWebCall, Server.getCalls,
    Server.getCall, Server.endCall, Server.updateAssistant,
    Part1.getAssistant, Part1.makeCall, Part1.createWebCall, Part1.getCalls,
    Part1.getCall, Part1.endCall, Part1.updateAssistant,
    Part2.getAssistant, Part2.makeCall, Part2.createWebCall, Part2.getCalls,
    Part2.getCall, Part2.endCall, Part2.updateAssistant.

Ltac every_request_tac :=
  unfold every_request; unfold_operations; cbv beta zeta;
  try (apply Forall_sent_try_catch;
       [| intros; apply Forall_sent_silent; reflexivity ]);
  try match goal with
      | |- context [if negb (initialized ?s) then _ else _] =>
          destruct (initialized s); simpl negb; cbv iota
      end;
  try match goal with
      | |- context [match ?p with VStr _ => _ | _ => _ end] => destruct p
      end;
  requests_tac.

(** X7.  Every request of every operation, in every revision, goes to the
    host [api.vapi.ai]: in the last revision too, where the host is taken
    from the URL in [baseUrl], and whatever the call id, the limit or any
    other argument is. *)
Theorem requests_go_to_the_api_host :
  forall (rt : Runtime) (s : VapiService) (up : Upstream) (a b : Value),
    Forall (fun operation => every_request to_api_host operation up)
      (server_reads s a ++ server_creations s a b
       ++ part1_reads s a ++ part1_creations s a b
       ++ part2_reads s a ++ part2_creations s a b
       ++ updates s a).
Proof.
  intros rt s up a b.
  repeat (apply Forall_cons || apply Forall_nil); every_request_tac; reflexivity.
Qed.

(** X8.  The reading operations (assistant, health, call list, call,
    transcript) and the ending of a call never send a body; a phone call
    and a web call always send a JSON object; [updateAssistant] sends its
    argument, and nothing when the argument is falsy. *)
Theorem request_bodies :
  forall (rt : Runtime) (s : VapiService) (up : Upstream) (a b : Value),
    Forall (fun operation => every_request bodiless operation up)
      (server_reads s a ++ part1_reads s a ++ part2_reads s a)
    /\ Forall (fun operation => every_request with_object_body operation up)
         (server_creations s a b ++ part1_creations s a b ++ part2_creations s a b)
    /\ Forall (fun operation =>
                 every_request
                   (fun rq => written rq = if truthy a then Some a else None)
                   operation up)
         (updates s a).
Proof.
  intros rt s up a b. split; [|split].
  - repeat (apply Forall_cons || apply Forall_nil); every_request_tac; reflexivity.
  - repeat (apply Forall_cons || apply Forall_nil); every_request_tac;
      eexists; reflexivity.
  - repeat (apply Forall_cons || apply Forall_nil); every_request_tac; reflexivity.
Qed.

(** ** The number a phone call is placed to *)

Lemma phoneRegex_accepts (s : jsstring) :
  Regex.test phoneRegex s = true <->
  exists d ds,
    (s = d :: ds \/ s = 43%N :: d :: ds)
    /\ Regex.in_range 49 57 d = true
    /\ forallb Regex.is_digit ds = true
    /\ 8 <= List.length ds <= 14.
Proof.
  rewrite test_Matches. unfold phoneRegex. split.
  - intros H. inversion H as [| |r1 r2 s1 s2 H1 H2| | | |]; subst.
    apply Matches_Seq_Class in H2 as (d & ds & -> & Hd & Hrep).
    apply Matches_Repeat in Hrep as [Hlen Hds]; [|lia].
    exists d, ds. split; [|auto].
    apply Matches_Opt in H1 as [-> | H1]; [now left|].
    apply Matches_Class_inv in H1 as (c & -> & Hc).
    unfold Regex.is_char in Hc. apply N.eqb_eq in Hc. subst c. now right.
  - intros (d & ds & Hs & Hd & Hds & Hlen).
    assert (Hbody : Regex.Matches
                      (Regex.Seq (Regex.Class (Regex.in_range 49 57))
                         (Regex.Repeat 8 14 (Regex.Class Regex.is_digit))) (d :: ds)).
    { apply Matches_Seq_Class. exists d, ds. repeat split; auto.
      apply Matches_Repeat; [lia | auto]. }
    destruct Hs as [-> | ->].
    + change (d :: ds) with ([] ++ d :: ds). constructor; [|exact Hbody].
      apply Matches_Opt. now left.
    + change (43%N :: d :: ds) with ([43%N] ++ d :: ds). constructor; [|exact Hbody].
      apply Matches_Opt. right. now constructor.
Qed.

Lemma customer_number_shape (clean : jsstring) :
  Regex.test phoneRegex clean = true -> plus_and_digits (customer_number clean).
Proof.
  intros H. apply phoneRegex_accepts in H as (d & ds & Hs & Hd & Hds & Hlen).
  exists d, ds. split; [|auto].
  unfold customer_number. destruct Hs as [-> | ->].
  - simpl Regex.startsWith_char.
    assert (Hne : N.eqb d 43 = false).
    { unfold Regex.in_range in Hd. apply andb_true_iff in Hd as [Hlo _].
      apply N.leb_le in Hlo. apply N.eqb_neq. lia. }
    rewrite Hne. reflexivity.
  - reflexivity.
Qed.

Lemma Forall_sent_throw_if_passed {A} (P : Request -> Prop) (c : bool) (e : jsstring)
  (k : unit -> Async A) (up : Upstream) :
  (c = false -> Forall P (sent (k tt) up)) ->
  Forall P (sent (bind (throw_if c e) k) up).
Proof.
  unfold sent. destruct c.
  - intros _. rewrite bind_throw_if_true. constructor.
  - intros H. rewrite bind_throw_if_false. now apply H.
Qed.

Ltac normalized_number_tac past_guards :=
  unfold every_request; unfold_operations; cbv beta zeta;
  past_guards;
  match goal with
  | |- context [match ?p with VStr _ => _ | _ => _ end] => destruct p
  end;
  try (apply Forall_sent_silent; reflexivity);
  cbv beta zeta; apply Forall_sent_throw_if_passed; intros Hre;
  apply negb_false_iff in Hre;
  requests_tac;
  eexists; eexists; split; [reflexivity|]; split; [reflexivity|];
  now apply customer_number_shape.

(** X9.  Whatever [makeCall] is given, in every revision, the number in a
    request it sends is a [+], a digit from 1 to 9 and then 8 to 14
    digits: nothing else is ever placed as [customer.number]. *)
Theorem only_normalized_numbers_are_called :
  forall (rt : Runtime) (s : VapiService) (up : Upstream)
         (phoneNumber customAssistantId : Value),
    Forall (fun operation => every_request calls_normalized_number operation up)
      [ Server.makeCall s phoneNumber customAssistantId;
        Part1.makeCall s phoneNumber customAssistantId;
        Part2.makeCall s phoneNumber customAssistantId ].
Proof.
  intros rt s up phoneNumber customAssistantId.
  repeat (apply Forall_cons || apply Forall_nil).
  - normalized_number_tac ltac:(do 2 apply Forall_sent_throw_if).
  - normalized_number_tac ltac:(do 3 apply Forall_sent_throw_if).
  - normalized_number_tac ltac:(do 3 apply Forall_sent_throw_if).
Qed.

Lemma digit_not_separator (c : N) : Regex.is_digit c = true -> separator c = false.
Proof.
  unfold Regex.is_digit. intros H. apply andb_true_iff in H as [Hlo Hhi].
  apply N.leb_le in Hlo, Hhi.
  assert (Hc : (c = 48 \/ c = 49 \/ c = 50 \/ c = 51 \/ c = 52 \/ c = 53 \/ c = 54
                \/ c = 55 \/ c = 56 \/ c = 57)%N) by lia.
  repeat (destruct Hc as [-> | Hc]; [reflexivity|]). subst c. reflexivity.
Qed.

Lemma digits_stay (ds : jsstring) :
  forallb Regex.is_digit ds = true -> cleanPhone ds = ds.
Proof.
  unfold cleanPhone, Regex.remove_all.
  induction ds as [|c ds IH]; simpl; [reflexivity|].
  intros H. apply andb_true_iff in H as [Hc Hds].
  rewrite (digit_not_separator _ Hc). simpl. now rewrite IH.
Qed.

Lemma in_range_digit (d : N) : Regex.in_range 49 57 d = true -> Regex.is_digit d = true.
Proof.
  unfold Regex.in_range, Regex.is_digit. intros H.
  apply andb_true_iff in H as [Hlo Hhi]. apply N.leb_le in Hlo, Hhi.
  apply andb_true_iff. split; apply N.leb_le; lia.
Qed.

(** A number in the sent form passes through [makeCall]'s validation
    unchanged. *)
Lemma normalized_number_fixed (number : jsstring) :
  plus_and_digits number ->
  cleanPhone number = number
  /\ Regex.test phoneRegex number = true
  /\ customer_number number = number.
Proof.
  intros (d & ds & -> & Hd & Hds & Hlen). split; [|split].
  - change (cleanPhone (43%N :: d :: ds)) with (43%N :: cleanPhone (d :: ds)).
    f_equal. apply digits_stay. simpl. now rewrite (in_range_digit _ Hd).
  - apply phoneRegex_accepts. exists d, ds. auto.
  - reflexivity.
Qed.

Lemma cleanPhone_nonempty (p : jsstring) : cleanPhone p <> [] -> p <> [].
Proof. intros H ->. now apply H. Qed.

Ltac resubmission_tac :=
  unfold_operations; cbv beta zeta;
  repeat match goal with
         | Hg : _ = _ |- _ => rewrite Hg
         end;
  reflexivity.

(** X10.  Normalisation is idempotent: when a phone number is accepted,
    calling [makeCall] again with the number that was sent (the stripped
    number with its [+]) does exactly what the first call did, in every
    revision. *)
Theorem resubmitting_the_sent_number :
  forall (rt : Runtime) (s : VapiService) (up : Upstream)
         (phoneNumber : jsstring) (customAssistantId : Value),
    Regex.test phoneRegex (cleanPhone phoneNumber) = true ->
    Server.makeCall s (VStr (customer_number (cleanPhone phoneNumber)))
      customAssistantId up
    = Server.makeCall s (VStr phoneNumber) customAssistantId up
    /\ Part1.makeCall s (VStr (customer_number (cleanPhone phoneNumber)))
         customAssistantId up
       = Part1.makeCall s (VStr phoneNumber) customAssistantId up
    /\ Part2.makeCall s (VStr (customer_number (cleanPhone phoneNumber)))
         customAssistantId up
       = Part2.makeCall s (VStr phoneNumber) customAssistantId up.
Proof.
  intros rt s up phoneNumber customAssistantId Hre.
  pose proof (customer_number_shape _ Hre) as Hshape.
  destruct (normalized_number_fixed Hshape) as (Hclean & Htest & Hnum).
  assert (Htp : truthy (VStr phoneNumber) = true).
  { apply truthy_nonempty, cleanPhone_nonempty. intros E. rewrite E in Hre.
    discriminate. }
  assert (Htn : truthy (VStr (customer_number (cleanPhone phoneNumber))) = true).
  { destruct Hshape as (d & ds & -> & _). reflexivity. }
  repeat split; resubmission_tac.
Qed.

(** The hypothesis of X10 holds of [(555) 123-4567]. *)
Lemma resubmitting_witness :
  Regex.test phoneRegex (cleanPhone (js "(555) 123-4567")) = true
  /\ @Server.makeCall Sample.runtime (Server.new Sample.env)
       (VStr (customer_number (cleanPhone (js "(555) 123-4567")))) VUndefined
       Sample.unreachable
     = @Server.makeCall Sample.runtime (Server.new Sample.env)
         (VStr (js "(555) 123-4567")) VUndefined Sample.unreachable.
Proof.
  split; [reflexivity|].
  exact (proj1 (resubmitting_the_sent_number Sample.runtime (Server.new Sample.env)
                  Sample.unreachable (js "(555) 123-4567") VUndefined eq_refl)).
Defined.

(** ** What a web call resolves to *)

Ltac destruct_guards :=
  repeat match goal with
         | |- context [throw_if ?c _] =>
             lazymatch c with
             | true => fail
             | false => fail
             | _ => destruct c; simpl negb
             end
         end.

Ltac own_public_key_tac run_then :=
  intros tr v; unfold_operations; cbv beta zeta;
  destruct_guards;
  rewrite ?bind_throw_if_false, ?bind_throw_if_true; try discriminate;
  rewrite run_then; cbv zeta;
  match goal with
  | |- context [match ?r with Ok _ => _ | Throw _ => _ end] => destruct r as [result|e]
  end; try discriminate;
  destruct_guards; unfold read_prop;
  repeat match goal with
         | |- context [nullish ?x] => destruct (nullish x)
         end;
  cbv beta iota delta [lift];
  rewrite ?bind_throw_if_false, ?bind_throw_if_true, ?bind_ret, ?bind_throw;
  simpl; try discriminate;
  intros Hv; injection Hv as _ <-;
  (eexists; split; [reflexivity | apply lookup_set_prop_same]).

(** X11.  Whenever [createWebCall] resolves, in any revision, it resolves
    to an object whose [publicKey] is the service's own public key: a
    [publicKey] property in the upstream payload is overwritten. *)
Theorem web_call_hands_out_own_public_key :
  forall (rt : Runtime) (s : VapiService) (a t : Value) (up : Upstream),
    (forall tr v, Server.createWebCall s a up = (tr, Ok v) -> has_own_public_key s v)
    /\ (forall tr v, Part1.createWebCall s a up = (tr, Ok v) -> has_own_public_key s v)
    /\ (forall tr v, Part2.createWebCall s a t up = (tr, Ok v) -> has_own_public_key s v).
Proof.
  intros rt s a t up. unfold has_own_public_key. split; [|split].
  - own_public_key_tac @Server_makeRequest_then.
  - own_public_key_tac @Part1_makeRequest_then.
  - own_public_key_tac @Part2_makeRequest_then.
Qed.

(** A web call that resolves, for X11: the upstream answers [{}] to the
    revision that does not check the payload. *)
Lemma own_public_key_witness :
  has_own_public_key (Server.new Sample.env)
    (VObj [ (js "publicKey", VStr (js "public-key-1")) ]).
Proof.
  exact (proj1 (web_call_hands_out_own_public_key Sample.runtime
                  (Server.new Sample.env) VUndefined VUndefined
                  (Sample.answers 200 (js "{}")))
           _ _ eq_refl).
Defined.

(** ** What must hold before anything is sent *)

Lemma sent_guard_inv {A} (c : bool) (e : jsstring) (k : unit -> Async A) (up : Upstream) :
  sent (bind (throw_if c e) k) up <> [] -> c = false /\ sent (k tt) up <> [].
Proof.
  destruct c.
  - unfold sent. rewrite bind_throw_if_true. intros H. now contradiction H.
  - rewrite sent_bind_throw_if_false. auto.
Qed.

Lemma truthy_string_nonempty (v : Value) :
  negb (truthy v) = false -> (exists p, v = VStr p) -> nonempty_string v.
Proof.
  intros Ht [p ->]. exists p. split; [reflexivity|].
  intros ->. discriminate.
Qed.

Ltac guards_passed :=
  repeat match goal with
         | Hs : sent (bind (throw_if _ _) _) _ <> [] |- _ =>
             apply sent_guard_inv in Hs; destruct Hs as [? Hs]
         end;
  repeat match goal with
         | Hg : negb (initialized _) = false |- _ => apply negb_false_iff in Hg
         | Hg : unset _ = false |- _ => apply unset_false_present in Hg
         end.

Ltac sends_only_if_tac :=
  unfold sends_only_if; unfold_operations; cbv beta zeta; intros Hsent;
  try (rewrite sent_bind_silent in Hsent by (intros; apply sent_read_then_or));
  guards_passed;
  repeat split;
  try assumption;
  try (apply negb_false_iff; assumption);
  try (apply truthy_string_nonempty; [assumption|];
       match goal with
       | Hs : sent (match ?a with VStr _ => _ | _ => _ end) _ <> [] |- _ =>
           destruct a; try (exfalso; apply Hs; reflexivity)
       end;
       eexists; reflexivity).

(** X12.  No request leaves without the credential and the argument it
    needs.  In every revision: the assistant is read or updated only if
    the assistant id is set; calls are listed only if the API key is set;
    a call is read (also for its transcript) or ended only if the key is
    set and the call id is truthy; a phone call is placed only if the API
    key is set and the phone number is a non-empty string.  In the two
    guarded revisions each of these also needs the service initialised. *)
Theorem no_request_without_credential_and_argument :
  forall (rt : Runtime) (s : VapiService) (up : Upstream) (a b : Value),
    (sends_only_if (Server.getAssistant s) up (present (assistantId s))
     /\ sends_only_if (Server.updateAssistant s a) up (present (assistantId s))
     /\ sends_only_if (Server.getCalls s a) up (present (apiKey s))
     /\ sends_only_if (Server.getCall s a) up
          (present (privateKey s) /\ truthy a = true)
     /\ sends_only_if (Server.getCallTranscript s a) up
          (present (privateKey s) /\ truthy a = true)
     /\ sends_only_if (Server.endCall s a) up (present (apiKey s) /\ truthy a = true)
     /\ sends_only_if (Server.makeCall s a b) up
          (present (apiKey s) /\ nonempty_string a))
    /\ (sends_only_if (Part1.getAssistant s) up
          (initialized s = true /\ present (assistantId s))
        /\ sends_only_if (Part1.updateAssistant s a) up
             (initialized s = true /\ present (assistantId s))
        /\ sends_only_if (Part1.getCalls s a) up
             (initialized s = true /\ present (apiKey s))
        /\ sends_only_if (Part1.getCall s a) up
             (initialized s = true /\ present (privateKey s) /\ truthy a = true)
        /\ sends_only_if (Part1.getCallTranscript s a) up
             (initialized s = true /\ present (privateKey s) /\ truthy a = true)
        /\ sends_only_if (Part1.endCall s a) up
             (initialized s = true /\ present (apiKey s) /\ truthy a = true)
        /\ sends_only_if (Part1.makeCall s a b) up
             (initialized s = true /\ present (apiKey s) /\ nonempty_string a))
    /\ (sends_only_if (Part2.getAssistant s) up
          (initialized s = true /\ present (assistantId s))
        /\ sends_only_if (Part2.updateAssistant s a) up
             (initialized s = true /\ present (assistantId s))
        /\ sends_only_if (Part2.getCalls s a) up
             (initialized s = true /\ present (apiKey s))
        /\ sends_only_if (Part2.getCall s a) up
             (initialized s = true /\ present (privateKey s) /\ truthy a = true)
        /\ sends_only_if (Part2.getCallTranscript s a) up
             (initialized s = true /\ present (privateKey s) /\ truthy a = true)
        /\ sends_only_if (Part2.endCall s a) up
             (initialized s = true /\ present (apiKey s) /\ truthy a = true)
        /\ sends_only_if (Part2.makeCall s a b) up
             (initialized s = true /\ present (apiKey s) /\ nonempty_string a)).
Proof.
  intros rt s up a b.
  split; [|split];
    repeat match goal with
           | |- _ /\ _ => split
           end;
    sends_only_if_tac.
Qed.

(** ** The private key and the browser *)

Lemma Server_createWebCall_any_private_key `{Runtime} (s : VapiService) (a : Value)
  (key key' : option jsstring) :
  unset key = false -> unset key' = false ->
  Server.createWebCall (with_private_key key s) a
  = Server.createWebCall (with_private_key key' s) a.
Proof.
  intros Hk Hk'. unfold Server.createWebCall. cbv beta zeta. simpl.
  now rewrite Hk, Hk'.
Qed.

Lemma Part1_createWebCall_any_private_key `{Runtime} (s : VapiService) (a : Value)
  (key key' : option jsstring) :
  unset key = false -> unset key' = false ->
  Part1.createWebCall (with_private_key key s) a
  = Part1.createWebCall (with_private_key key' s) a.
Proof.
  intros Hk Hk'. unfold Part1.createWebCall. cbv beta zeta. simpl.
  now rewrite Hk, Hk'.
Qed.

Lemma Server_new_with_private_key (env : Env) (key key' : option jsstring) :
  unset key = false -> unset key' = false ->
  Server.new (with_VAPI_PRIVATE_KEY key' env)
  = with_private_key key' (Server.new (with_VAPI_PRIVATE_KEY key env)).
Proof.
  intros Hk Hk'.
  unfold Server.new, Server.initialize, Server.validateConfig, with_private_key,
    with_VAPI_PRIVATE_KEY, set_initialized.
  simpl. rewrite Hk, Hk'.
  destruct (unset (VAPI_PUBLIC_KEY env)); [reflexivity|].
  destruct (unset (VAPI_ASSISTANT_ID env)); reflexivity.
Qed.

Lemma Part1_new_with_private_key (env : Env) (key key' : option jsstring) :
  unset key || is_literal key (js "your_private_key_here") = false ->
  unset key' || is_literal key' (js "your_private_key_here") = false ->
  Part1.new (with_VAPI_PRIVATE_KEY key' env)
  = with_private_key key' (Part1.new (with_VAPI_PRIVATE_KEY key env)).
Proof.
  intros Hk Hk'.
  unfold Part1.new, Part1.initialize, Part1.validateConfig, with_private_key,
    with_VAPI_PRIVATE_KEY, set_initialized.
  simpl. rewrite Hk, Hk'.
  destruct (unset (VAPI_PUBLIC_KEY env) || _); [reflexivity|].
  destruct (unset (VAPI_ASSISTANT_ID env) || _); reflexivity.
Qed.

Lemma with_private_key_unset (key : option jsstring) (s : VapiService) :
  unset (privateKey (with_private_key key s)) = unset key.
Proof. reflexivity. Qed.

(** The web-call route in front of a service whose private key is
    another one. *)
Lemma Server_post_call_any_private_key `{Runtime} (s : VapiService) (body : Value)
  (up : Upstream) (key key' : option jsstring) :
  unset key = false -> unset key' = false ->
  App.post_call (Some (App.server_gateway (with_private_key key s))) body up
  = App.post_call (Some (App.server_gateway (with_private_key key' s))) body up.
Proof.
  intros Hk Hk'.
  unfold App.post_call, try_catch. destruct (nullish body); [reflexivity|].
  cbv beta iota delta [lift]. rewrite !bind_ret.
  unfold bind at 1 3.
  change (App.createWebCall (App.server_gateway ?x) [?y; ?z])
    with (Server.createWebCall x y).
  now rewrite (@Server_createWebCall_any_private_key _ s _ key key' Hk Hk').
Qed.

Lemma Part1_post_call_any_private_key `{Runtime} (s : VapiService) (body : Value)
  (up : Upstream) (key key' : option jsstring) :
  unset key = false -> unset key' = false ->
  App.post_call (Some (App.part1_gateway (with_private_key key s))) body up
  = App.post_call (Some (App.part1_gateway (with_private_key key' s))) body up.
Proof.
  intros Hk Hk'.
  unfold App.post_call, try_catch. destruct (nullish body); [reflexivity|].
  cbv beta iota delta [lift]. rewrite !bind_ret.
  unfold bind at 1 3.
  change (App.createWebCall (App.part1_gateway ?x) [?y; ?z])
    with (Part1.createWebCall x y).
  now rewrite (@Part1_createWebCall_any_private_key _ s _ key key' Hk Hk').
Qed.

(** X13.  The private key stays in the back end.  With
    [server/vapi_integration.js] behind it, what the web-call route sends
    upstream and answers to the browser is the same whichever private key
    the service was constructed with, as long as one is present; with
    [Part1], whichever private key passes the configuration check, while a
    key that does not pass it leaves the service uninitialised, and the
    route then answers 500 and sends nothing.  In every revision the
    configuration route answers the same whatever the private key is. *)
Theorem private_key_stays_in_the_back_end :
  forall (rt : Runtime) (env : Env) (body : Value) (up : Upstream)
         (key key' : option jsstring),
    (present key -> present key' ->
     App.post_call
       (Some (App.server_gateway (Server.new (with_VAPI_PRIVATE_KEY key env)))) body up
     = App.post_call
         (Some (App.server_gateway (Server.new (with_VAPI_PRIVATE_KEY key' env)))) body up)
    /\ (configured key (js "your_private_key_here") ->
        configured key' (js "your_private_key_here") ->
        App.post_call
          (Some (App.part1_gateway (Part1.new (with_VAPI_PRIVATE_KEY key env)))) body up
        = App.post_call
            (Some (App.part1_gateway (Part1.new (with_VAPI_PRIVATE_KEY key' env)))) body up)
    /\ (~ configured key (js "your_private_key_here") -> nullish body = false ->
        App.post_call
          (Some (App.part1_gateway (Part1.new (with_VAPI_PRIVATE_KEY key env)))) body up
        = ([], Ok (App.failure (VStr msg_not_initialized))))
    /\ (Rest.get_config
          (Some (Rest.server_instance (Server.new (with_VAPI_PRIVATE_KEY key env))))
        = Rest.get_config
            (Some (Rest.server_instance (Server.new (with_VAPI_PRIVATE_KEY key' env))))
        /\ Rest.get_config
             (Some (Rest.part1_instance (Part1.new (with_VAPI_PRIVATE_KEY key env))))
           = Rest.get_config
               (Some (Rest.part1_instance (Part1.new (with_VAPI_PRIVATE_KEY key' env))))
        /\ Rest.get_config
             (Some (Rest.part2_instance (Part2.new (with_VAPI_PRIVATE_KEY key env))))
           = Rest.get_config
               (Some (Rest.part2_instance (Part2.new (with_VAPI_PRIVATE_KEY key' env))))).
Proof.
  intros rt env body up key key'.
  split; [|split; [|split]].
  - intros Hk Hk'. apply unset_false_present in Hk, Hk'.
    pose proof (@Server_new_with_private_key env key key' Hk Hk') as E1.
    pose proof (@Server_new_with_private_key env key key Hk Hk) as E2.
    rewrite E1.
    etransitivity;
      [|apply (@Server_post_call_any_private_key rt _ body up key key' Hk Hk')].
    now rewrite <- E2.
  - intros Hk Hk'. apply configured_checks in Hk, Hk'.
    pose proof (@Part1_new_with_private_key env key key' Hk Hk') as E1.
    pose proof (@Part1_new_with_private_key env key key Hk Hk) as E2.
    apply orb_false_iff in Hk as [Hk _]. apply orb_false_iff in Hk' as [Hk' _].
    rewrite E1.
    etransitivity;
      [|apply (@Part1_post_call_any_private_key rt _ body up key key' Hk Hk')].
    now rewrite <- E2.
  - intros Hk Hn.
    assert (Hbad : unset key || is_literal key (js "your_private_key_here") = true).
    { destruct (unset key || is_literal key (js "your_private_key_here")) eqn:E;
        [reflexivity|]. apply configured_checks in E. contradiction. }
    unfold App.post_call, try_catch. rewrite Hn.
    cbv beta iota delta [lift]. rewrite bind_ret. unfold bind at 1.
    change (App.createWebCall (App.part1_gateway ?x) [?y; ?z])
      with (Part1.createWebCall x y).
    unfold Part1.createWebCall, Part1.new, Part1.validateConfig. simpl.
    rewrite Hbad. simpl. reflexivity.
  - unfold Rest.get_config, Rest.server_instance, Rest.part1_instance,
      Rest.part2_instance, Server.new, Server.initialize, Part1.new, Part1.initialize,
      Part2.new, Part2.initialize.
    repeat split;
      repeat match goal with
             | |- context [if ?c then _ else _] => destruct c
             end; reflexivity.
Qed.

(** Two private keys, for X13. *)
Lemma private_key_witness :
  @App.post_call Sample.runtime
    (Some (@App.server_gateway Sample.runtime
             (Server.new (with_VAPI_PRIVATE_KEY (Some (js "private-key-1")) Sample.env))))
    (VObj []) (Sample.answers 200 (js "{}"))
  = @App.post_call Sample.runtime
      (Some (@App.server_gateway Sample.runtime
               (Server.new (with_VAPI_PRIVATE_KEY (Some (js "private-key-2")) Sample.env))))
      (VObj []) (Sample.answers 200 (js "{}")).
Proof.
  apply (proj1 (private_key_stays_in_the_back_end Sample.runtime Sample.env
                  (VObj []) (Sample.answers 200 (js "{}"))
                  (Some (js "private-key-1")) (Some (js "private-key-2"))));
    eexists; (split; [reflexivity | discriminate]).
Defined.

(** ** The routes in front of the gateway *)

(** X14.  Each of the assistant, call, end-call and phone-call routes
    relays one gateway call: a failure of the gateway, whatever its kind
    (configuration, validation, upstream), is answered with 500 and the
    failure's message, a success with 200 and the value.  The phone route
    relays once the body has a truthy phone number; without a service
    every one of them answers 503 and sends nothing. *)
Theorem routes_relay_the_gateway :
  forall (rt : Runtime) (vapi : Rest.VapiInstance) (callId : jsstring) (body : Value)
         (up : Upstream),
    relays (Rest.get_assistant (Some vapi)) (Rest.getAssistant vapi [])
      (js "Failed to get assistant info") up
    /\ relays (Rest.get_call (Some vapi) callId) (Rest.getCall vapi [VStr callId])
         (js "Failed to get call details") up
    /\ relays (Rest.delete_call (Some vapi) callId) (Rest.endCall vapi [VStr callId])
         (js "Failed to end call") up
    /\ (truthy (get_prop body (js "phoneNumber")) = true ->
        relays (Rest.post_call_phone (Some vapi) body)
          (Rest.makeCall vapi [ get_prop body (js "phoneNumber");
                                get_prop body (js "assistantId") ])
          (js "Failed to make phone call") up)
    /\ (Rest.get_assistant None up = ([], Ok App.unavailable)
        /\ Rest.get_call None callId up = ([], Ok App.unavailable)
        /\ Rest.delete_call None callId up = ([], Ok App.unavailable)
        /\ Rest.post_call_phone None body up = ([], Ok App.unavailable)).
Proof.
  intros rt vapi callId body up.
  split; [apply relays_try_catch|].
  split; [apply relays_try_catch|].
  split; [apply relays_try_catch|].
  split; [|repeat split].
  intros Hp.
  assert (Hn : nullish body = false).
  { destruct body; try reflexivity; discriminate. }
  pose proof (relays_try_catch
                (Rest.makeCall vapi [ get_prop body (js "phoneNumber");
                                      get_prop body (js "assistantId") ])
                (js "Failed to make phone call") up) as Hrel.
  unfold relays in *. rewrite <- Hrel.
  unfold Rest.post_call_phone, try_catch. rewrite Hn.
  cbv beta iota delta [lift]. rewrite bind_ret. rewrite Hp. reflexivity.
Qed.

Lemma Server_makeCall_bad_format `{Runtime} (s : VapiService) (p : jsstring) (a : Value)
  (up : Upstream) :
  unset (apiKey s) = false -> p <> [] ->
  Regex.test phoneRegex (cleanPhone p) = false ->
  Server.makeCall s (VStr p) a up = ([], Throw msg_phone_format).
Proof.
  intros Hk Hp Hre. unfold Server.makeCall. cbv beta zeta.
  rewrite Hk, (truthy_nonempty Hp). change (negb true) with false.
  rewrite !bind_throw_if_false. cbv beta iota zeta. now rewrite Hre.
Qed.

Lemma Part1_makeCall_bad_format `{Runtime} (s : VapiService) (p : jsstring) (a : Value)
  (up : Upstream) :
  initialized s = true -> unset (apiKey s) = false -> p <> [] ->
  Regex.test phoneRegex (cleanPhone p) = false ->
  Part1.makeCall s (VStr p) a up = ([], Throw msg_phone_format).
Proof.
  intros Hi Hk Hp Hre. unfold Part1.makeCall. cbv beta zeta.
  rewrite Hi, Hk, (truthy_nonempty Hp). change (negb true) with false.
  rewrite !bind_throw_if_false. cbv beta iota zeta. now rewrite Hre.
Qed.

Lemma Part2_makeCall_bad_format `{Runtime} (s : VapiService) (p : jsstring) (a : Value)
  (up : Upstream) :
  initialized s = true -> unset (apiKey s) = false -> p <> [] ->
  Regex.test phoneRegex (cleanPhone p) = false ->
  Part2.makeCall s (VStr p) a up = ([], Throw msg_phone_format).
Proof.
  intros Hi Hk Hp Hre. unfold Part2.makeCall. cbv beta zeta.
  rewrite Hi, Hk, (truthy_nonempty Hp). change (negb true) with false.
  rewrite !bind_throw_if_false. cbv beta iota zeta. now rewrite Hre.
Qed.

Ltac phone_route_tac bad_format :=
  unfold Rest.post_call_phone, try_catch;
  match goal with
  | Hn : nullish _ = false |- _ => rewrite Hn
  end;
  cbv beta iota delta [lift]; rewrite bind_ret;
  match goal with
  | Hb : get_prop _ (js "phoneNumber") = VStr _ |- _ => rewrite Hb
  end;
  match goal with
  | Hp : _ <> [] |- _ => rewrite (truthy_nonempty Hp)
  end;
  change (negb true) with false; cbv iota;
  unfold bind; simpl Rest.makeCall; unfold App.arg; simpl nth;
  rewrite bad_format by assumption; reflexivity.

(** X15.  The phone route answers 400, without calling the gateway, only
    when the body has no truthy phone number.  A phone number that is a
    non-empty string but not in the international format is refused by
    [makeCall] and answered with 500 and the format message, in every
    revision (configured, and initialised where that is checked); nothing
    is sent upstream in either case. *)
Theorem phone_route_refusals :
  forall (rt : Runtime) (vapi : Rest.VapiInstance) (s : VapiService) (body : Value)
         (up : Upstream),
    (nullish body = false -> truthy (get_prop body (js "phoneNumber")) = false ->
     Rest.post_call_phone (Some vapi) body up = ([], Ok phone_number_missing))
    /\ (forall p,
          get_prop body (js "phoneNumber") = VStr p -> p <> [] ->
          Regex.test phoneRegex (cleanPhone p) = false ->
          unset (apiKey s) = false ->
          Rest.post_call_phone (Some (Rest.server_instance s)) body up
          = ([], Ok (App.failure (VStr msg_phone_format)))
          /\ (initialized s = true ->
              Rest.post_call_phone (Some (Rest.part1_instance s)) body up
              = ([], Ok (App.failure (VStr msg_phone_format)))
              /\ Rest.post_call_phone (Some (Rest.part2_instance s)) body up
                 = ([], Ok (App.failure (VStr msg_phone_format))))).
Proof.
  intros rt vapi s body up. split.
  - intros Hn Hp. unfold Rest.post_call_phone, try_catch. rewrite Hn.
    cbv beta iota delta [lift]. rewrite bind_ret. now rewrite Hp.
  - intros p Hb Hp Hre Hk.
    assert (Hn : nullish body = false).
    { destruct body; try reflexivity; discriminate. }
    split; [|intros Hi; split].
    + phone_route_tac (@Server_makeCall_bad_format).
    + phone_route_tac (@Part1_makeCall_bad_format).
    + phone_route_tac (@Part2_makeCall_bad_format).
Qed.

(** The second refusal of X15 at work: the number [12345]. *)
Lemma phone_route_witness :
  @Rest.post_call_phone Sample.runtime
    (Some (@Rest.server_instance Sample.runtime (Server.new Sample.env)))
    (VObj [ (js "phoneNumber", VStr (js "12345")) ]) Sample.unreachable
  = ([], Ok (App.failure (VStr msg_phone_format))).
Proof.
  refine (proj1 (proj2 (phone_route_refusals Sample.runtime
                          (@Rest.server_instance Sample.runtime (Server.new Sample.env))
                          (Server.new Sample.env)
                          (VObj [ (js "phoneNumber", VStr (js "12345")) ])
                          Sample.unreachable)
                   (js "12345") eq_refl _ eq_refl eq_refl)).
  discriminate.
Defined.

(** ** The health route *)

Ltac health_route_tac healthCheck getAssistant :=
  intros supabase timestamp version;
  unfold Rest.get_health, Rest.vapi_health, sent, outcome;
  simpl Rest.healthCheck; unfold healthCheck, try_catch, bind, ret, lift;
  match goal with
  | |- context [initialized ?s] => destruct (initialized s)
  end; simpl;
  try match goal with
      | |- context [getAssistant ?s ?up] => destruct (getAssistant s up) as [tr [a|e]]
      end; simpl;
  (destruct supabase as [[probe|e']|]; simpl;
   [ destruct (nullish probe); simpl;
     [| destruct (truthy (get_prop probe (js "error"))); simpl ]
   | | ]);
  rewrite ?app_nil_r;
  (eexists; split; [reflexivity | split; reflexivity]).

(** X16.  In front of any revision of the gateway the health route always
    answers, sending only what the gateway's health check sends.  Its
    body always says [status: OK]; its HTTP status is 200 when the gateway
    is initialised and its assistant can be read, or when the datastore
    probe came back without an error, and 503 otherwise.  Without either
    service it answers 503. *)
Theorem health_route_status :
  forall (rt : Runtime) (s : VapiService) (up : Upstream),
    health_route_contract (Rest.server_instance s) s
      (Server.healthCheck s) (Server.getAssistant s) up
    /\ health_route_contract (Rest.part1_instance s) s
         (Part1.healthCheck s) (Part1.getAssistant s) up
    /\ health_route_contract (Rest.part2_instance s) s
         (Part2.healthCheck s) (Part2.getAssistant s) up
    /\ (forall supabase timestamp version,
          exists response,
            Rest.get_health None supabase timestamp version up = ([], Ok response)
            /\ get_prop (App.json response) (js "status") = VStr (js "OK")
            /\ App.status response
               = (if datastore_healthy supabase then 200%N else 503%N)).
Proof.
  intros rt s up. unfold health_route_contract. split; [|split; [|split]].
  - health_route_tac (@Server.healthCheck) (@Server.getAssistant rt).
  - health_route_tac (@Part1.healthCheck) (@Part1.getAssistant rt).
  - health_route_tac (@Part2.healthCheck) (@Part2.getAssistant rt).
  - intros supabase timestamp version.
    unfold Rest.get_health, Rest.vapi_health, bind. simpl.
    destruct supabase as [[probe|e']|]; simpl;
      [ destruct (nullish probe); simpl;
        [| destruct (truthy (get_prop probe (js "error"))); simpl ]
      | | ];
      (eexists; split; [reflexivity | split; reflexivity]).
Qed.
